(** * Cause-list scraper: row reconstruction, records, chunking, watermark

    A shallow embedding of [courts.py] and [main.py].

    Conventions of the embedding.
    - A Python [str] is a [string]; its characters stand for the code points
      0..255, and [isspace], [isdigit] and [upper] follow Python on that range.
    - A CSV file is the list of rows that [csv.reader] returns from it; a
      row is a [list string]. A file that [csv.writer.writerows] wrote
      reads back as the rows that it was given.
    - A Python exception inside an operation is the result [None] of the
      corresponding function; the callers then do what the [except] clause of
      the source does.
    - [row[k]] on an input row is the partial lookup [row !! k].
    - The database, the mail server, the web sites and the file system
      answer: a lost connection or a file that cannot be opened is not
      modelled. An exception that the data itself causes is: an index out
      of range, a missing field name, a date that does not parse, a NUL
      character in a parameter of a query.
    - The text of a file that pandas writes is not modelled: what
      [csv.reader] returns from such a file is a parameter of the model. *)

From Stdlib Require Import ZArith Ascii String.
From stdpp Require Import base option list strings pretty gmap.

Local Open Scope Z_scope.
Local Open Scope stdpp_scope.

(** ** Python string primitives *)

Module PyStr.

(** [str.isspace] of one character, code points below 256. *)
Definition isspace (c : ascii) : bool :=
  let n := N_of_ascii c in
  ((9 <=? n) && (n <=? 13) || (28 <=? n) && (n <=? 32)
   || (n =? 133) || (n =? 160))%N.

(** [str.isdigit] of one character, code points below 256: the decimal
    digits and the superscripts two, three and one. *)
Definition isdigit_char (c : ascii) : bool :=
  let n := N_of_ascii c in
  ((48 <=? n) && (n <=? 57) || (n =? 178) || (n =? 179) || (n =? 185))%N.

Fixpoint all_chars (p : ascii → bool) (s : string) : bool :=
  match s with
  | EmptyString => true
  | String c s' => p c && all_chars p s'
  end.

(** Truth value of a string: [bool(s)]. *)
Definition truthy (s : string) : bool := negb (String.eqb s "").

(** [s.isdigit()]: at least one character and all of them digits. *)
Definition isdigit (s : string) : bool := truthy s && all_chars isdigit_char s.

Fixpoint lstrip (s : string) : string :=
  match s with
  | EmptyString => EmptyString
  | String c s' => if isspace c then lstrip s' else s
  end.

Fixpoint rstrip (s : string) : string :=
  match s with
  | EmptyString => EmptyString
  | String c s' =>
      let r := rstrip s' in
      if isspace c && negb (truthy r) then EmptyString else String c r
  end.

(** [s.strip()] *)
Definition strip (s : string) : string := rstrip (lstrip s).

Fixpoint startswith (p s : string) : bool :=
  match p, s with
  | EmptyString, _ => true
  | String a p', String b s' => Ascii.eqb a b && startswith p' s'
  | String _ _, EmptyString => false
  end.

(** [needle in hay] *)
Fixpoint contains (needle hay : string) : bool :=
  startswith needle hay ||
  match hay with
  | EmptyString => false
  | String _ hay' => contains needle hay'
  end.

(** [s.upper()]. The two code points below 256 whose upper case lies above
    255 (181 and 255) are kept as they are; no test of the source on an
    upper-cased string can tell the difference, the needles being ASCII. *)
Definition upper_char (c : ascii) : string :=
  let n := N_of_ascii c in
  if ((97 <=? n) && (n <=? 122))%N then String (ascii_of_N (n - 32)) ""
  else if (n =? 223)%N then "SS"
  else if ((224 <=? n) && (n <=? 254) && negb (n =? 247))%N
       then String (ascii_of_N (n - 32)) ""
  else String c "".

Fixpoint upper (s : string) : string :=
  match s with
  | EmptyString => EmptyString
  | String c s' => upper_char c +:+ upper s'
  end.

(** [s.split(sep)] for a one-character separator. *)
Fixpoint split (sep : ascii) (s : string) : list string :=
  match s with
  | EmptyString => [""]
  | String c s' =>
      let r := split sep s' in
      if Ascii.eqb c sep then "" :: r
      else match r with
           | h :: t => String c h :: t
           | [] => [String c ""]
           end
  end.

(** [s.replace(a, b)] for one-character [a] and [b]. *)
Fixpoint replace (a b : ascii) (s : string) : string :=
  match s with
  | EmptyString => EmptyString
  | String c s' => String (if Ascii.eqb c a then b else c) (replace a b s')
  end.

(** [s[:n]] *)
Fixpoint take (n : nat) (s : string) : string :=
  match n, s with
  | O, _ => EmptyString
  | S n', String c s' => String c (take n' s')
  | S _, EmptyString => EmptyString
  end.

(** [t] occurs inside [s]: the property that [contains] decides. *)
Definition occurs_in (t s : string) : Prop := ∃ p q, s = p +:+ t +:+ q.

End PyStr.

(** The cells of a row: [len(row) > k and row[k]]. *)
Definition has_cell (row : list string) (k : nat) : bool :=
  match row !! k with
  | Some c => PyStr.truthy c
  | None => false
  end.

(** [row[k]] where the source has made sure that the cell is there (by
    [len(row) > k], by an earlier read of the same cell, or because the list
    is [current_case], which always has five fields), and
    [row[k] if k < len(row) else ""]. *)
Definition cell (row : list string) (k : nat) : string := default "" (row !! k).

(** [max(len(row) for row in rows)], for a non-empty [rows]. *)
Definition max_len (rows : list (list string)) : nat :=
  foldr Nat.max 0%nat (length <$> rows).

(** [row + [''] * (n - len(row))] *)
Definition pad (n : nat) (row : list string) : list string :=
  row ++ replicate (n - length row) "".

(** ** Gauhati_court.clean_csv *)

Module Gauhati.

Definition headers : list string :=
  ["Sr.No."; "Case Number"; "Main Parties"; "Petitioner Advocate";
   "Respondent Advocate"].

(** The loop state: [cleaned_data] and [current_case] ([None] is Python's
    [None]; a five-element list is always true as a condition). *)
Record state := State {
  cleaned_data : list (list string);
  current_case : option (list string)
}.

(** Line 216: [row[0] and row[0].strip().isdigit()]. [None] is the
    IndexError of [row[0]] on an empty row. *)
Definition is_start (row : list string) : option bool :=
  r0 ← row !! 0%nat;
  Some (PyStr.truthy r0 && PyStr.isdigit (PyStr.strip r0)).

Definition set_if_present (row : list string) (k : nat) (cur : list string)
  : list string :=
  if has_cell row k then <[k := PyStr.strip (cell row k)]> cur else cur.

(** Lines 220-233: the record opened by a start row. [None] is the
    IndexError of [row[1]] on a one-cell row. *)
Definition open_case (row : list string) : option (list string) :=
  r0 ← row !! 0%nat;
  r1 ← row !! 1%nat;
  let cur := [PyStr.strip r0; PyStr.strip r1; ""; ""; ""] in
  Some (set_if_present row 4 (set_if_present row 3 (set_if_present row 2 cur))).

(** Line 246: [any(word in current_case[2].upper() for word in ...)]. *)
Definition has_join_marker (parties : string) : bool :=
  existsb (λ word, PyStr.contains word (PyStr.upper parties))
          ["VERSUS"; "VS"; "V."].

(** Lines 236-251: the [if]/[elif] chain on the case and party cells. *)
Definition merge_head (cur row : list string) : list string :=
  if has_cell row 2 && PyStr.contains "Versus" (cell row 2) then cur
  else if has_cell row 1 && PyStr.contains "WITH" (cell row 1) then cur
  else if has_cell row 1 && PyStr.contains "in " (cell row 1) then
    if PyStr.truthy (cell cur 1)
    then <[1%nat := cell cur 1 +:+ "; " +:+ PyStr.strip (cell row 1)]> cur
    else cur
  else if has_cell row 2 then
    if PyStr.truthy (cell cur 2) then
      if PyStr.contains "THE " (cell row 2) || has_join_marker (cell cur 2)
      then <[2%nat := cell cur 2 +:+ " vs " +:+ PyStr.strip (cell row 2)]> cur
      else <[2%nat := cell cur 2 +:+ " " +:+ PyStr.strip (cell row 2)]> cur
    else <[2%nat := PyStr.strip (cell row 2)]> cur
  else cur.

(** Lines 253-257 and 259-263: an advocate cell joins its field. *)
Definition merge_advocate (k : nat) (cur row : list string) : list string :=
  if has_cell row k then
    if PyStr.truthy (cell cur k)
    then <[k := cell cur k +:+ "; " +:+ PyStr.strip (cell row k)]> cur
    else <[k := PyStr.strip (cell row k)]> cur
  else cur.

Definition merge_row (cur row : list string) : list string :=
  merge_advocate 4 (merge_advocate 3 (merge_head cur row) row) row.

(** Lines 235-263: what a row that is not a start row does to the open
    record. It is merged when [row[0] == ""] and left aside otherwise. *)
Definition absorb (cur row : list string) : list string :=
  if String.eqb (cell row 0) "" then merge_row cur row else cur.

(** One pass of the [while] body, lines 214-265. *)
Definition step (st : state) (row : list string) : option state :=
  match is_start row with
  | None => None
  | Some true =>
      cur ← open_case row;
      Some (State (match current_case st with
                   | Some old => cleaned_data st ++ [old]
                   | None => cleaned_data st
                   end) (Some cur))
  | Some false =>
      Some (State (cleaned_data st)
                  ((λ cur, absorb cur row) <$> current_case st))
  end.

Fixpoint loop (st : state) (data : list (list string)) : option state :=
  match data with
  | [] => Some st
  | row :: rest => st' ← step st row; loop st' rest
  end.

(** Lines 267-268: the open record is appended after the loop. *)
Definition flush (st : state) : list (list string) :=
  match current_case st with
  | Some cur => cleaned_data st ++ [cur]
  | None => cleaned_data st
  end.

(** Lines 208-268: the rows given to [writer.writerows]. *)
Definition clean_rows (data : list (list string))
  : option (list (list string)) :=
  flush <$> loop (State [headers] None) data.

(** [clean_csv]: the value returned and the file afterwards. On an
    exception the file is not opened for writing and keeps its content. *)
Definition clean_csv (file : list (list string)) : bool * list (list string) :=
  match clean_rows file with
  | Some cleaned => (true, cleaned)
  | None => (false, file)
  end.

End Gauhati.

(** ** Allahabad_court.clean_csv *)

Module Allahabad.

(** What [clean_csv] returns: [True], [None], or the empty DataFrame of
    line 384. *)
Inductive retval := RetTrue | RetNone | RetEmptyFrame.

(** A DataFrame with the default row index: its column labels and rows. *)
Record frame := Frame {
  columns : list nat;
  rows : list (list string)
}.

(** Line 393: [row[0].strip()] as a condition. [None] is the IndexError on
    a row without cells. *)
Definition is_start (row : list string) : option bool :=
  r0 ← row !! 0%nat; Some (PyStr.truthy (PyStr.strip r0)).

(** Lines 402-407: one cell of a continuation row. [None] is the
    IndexError of [current[i]] when [current] is shorter than the row,
    which the padding of line 387 rules out. *)
Definition merge_cell (cur : list string) (i : nat) (c : string)
  : option (list string) :=
  let c := PyStr.strip c in
  if PyStr.truthy c then
    ci ← cur !! i;
    Some (if PyStr.truthy (PyStr.strip ci)
          then <[i := PyStr.strip ci +:+ " " +:+ c]> cur
          else <[i := c]> cur)
  else Some cur.

(** Lines 401-407: [for i, cell in enumerate(row)], from index [i] on. *)
Fixpoint merge_from (i : nat) (cur cells : list string)
  : option (list string) :=
  match cells with
  | [] => Some cur
  | c :: rest => cur' ← merge_cell cur i c; merge_from (S i) cur' rest
  end.

Definition merge_row (cur row : list string) : option (list string) :=
  merge_from 0 cur row.

Record state := State {
  merged_rows : list (list string);
  current : option (list string)
}.

(** Lines 393-407: the body of the loop over [padded_rows]. *)
Definition step (st : state) (row : list string) : option state :=
  match is_start row with
  | None => None
  | Some true =>
      Some (State (match current st with
                   | Some old => merged_rows st ++ [old]
                   | None => merged_rows st
                   end) (Some row))
  | Some false =>
      match current st with
      | None => Some (State (merged_rows st) (Some row))
      | Some cur =>
          cur' ← merge_row cur row; Some (State (merged_rows st) (Some cur'))
      end
  end.

Fixpoint loop (st : state) (data : list (list string)) : option state :=
  match data with
  | [] => Some st
  | row :: rest => st' ← step st row; loop st' rest
  end.

(** Lines 408-409. *)
Definition flush (st : state) : list (list string) :=
  match current st with
  | Some cur => merged_rows st ++ [cur]
  | None => merged_rows st
  end.

(** Lines 389-409 on rows of one width: [merged_rows]. *)
Definition merge (padded_rows : list (list string))
  : option (list (list string)) :=
  flush <$> loop (State [] None) padded_rows.

(** Lines 386-409 on the rows read from the file. *)
Definition merged_of (rows : list (list string))
  : option (list (list string)) :=
  merge (pad (max_len rows) <$> rows).

(** Lines 411-416. Every cell is a string, so line 413 drops nothing;
    line 414 keeps the columns that hold a value other than [''] and
    [column_names] are their labels. *)
Definition column_names (width : nat) (merged : list (list string))
  : list nat :=
  filter (λ j, existsb (λ row, PyStr.truthy (cell row j)) merged = true)
         (seq 0 width).

(** Lines 418-421: the values of the kept columns that are not blank. *)
Definition non_empty_values (cols : list nat) (row : list string)
  : list string :=
  filter (λ val, PyStr.truthy (PyStr.strip val) = true)
         ((λ j, cell row j) <$> cols).

(** Lines 423-433: [cleaned_df] before the rows are dropped. A cleaned row
    is never wider than [column_names], so line 430 cuts nothing. *)
Definition cleaned_frame (width : nat) (merged : list (list string)) : frame :=
  let cols := column_names width merged in
  let cleaned_rows := non_empty_values cols <$> merged in
  let n := max_len cleaned_rows in
  let padded_cleaned_rows := take (length cols) <$> (pad n <$> cleaned_rows) in
  Frame (if decide (n = length cols) then cols
         else seq 0 (Nat.min n (length cols)))
        padded_cleaned_rows.

(** Line 435: [drop(index=range(0,5))] raises KeyError unless the labels
    0..4 are all in the index, which is [0..len-1]. *)
Definition drop_first_five (df : frame) : option frame :=
  if decide (5 ≤ length (rows df))%nat
  then Some (Frame (columns df) (drop 5 (rows df)))
  else None.

(** [clean_csv], for a file name that is not empty: the value returned and
    the frame written to the file ([None]: the file is left as it was). *)
Definition clean_csv (file : list (list string)) : retval * option frame :=
  match file with
  | [] => (RetEmptyFrame, None)
  | _ =>
      match merged_of file ≫= (λ merged,
              drop_first_five (cleaned_frame (max_len file) merged)) with
      | Some df => (RetTrue, Some df)
      | None => (RetNone, None)
      end
  end.

End Allahabad.

(** ** Watchers and notifications: get_user_detail, send_email, process_csv *)

(** A row of the lookup's result: the lawyer's name and email address. *)
Definition detail : Type := string * string.

(** The advocates given to [send_email]: a list ([Super_Class.process_csv])
    or one string ([Allahabad_court.process_csv]). *)
Inductive advocates :=
| AdvList (names : list string)
| AdvText (names : string).

(** What a run of [process_csv] does to the outside: the queries of
    [get_user_detail] and the calls of [send_email], in order. A case number
    [None] is Python's [None]. *)
Inductive event :=
| Query (case_no : option string)
| Mail (to : detail) (case_number : option string)
       (petitioner_advocates respondent_advocates : advocates)
       (main_parties : string).

(** What a piece of code does to the outside and how it ends: its events,
    in order, and whether an exception left it. *)
Record outcome := Outcome {
  events : list event;
  raised : bool
}.

(** A loop whose body may raise: the exception ends the loop and leaves
    it. *)
Fixpoint for_each {A : Type} (body : A → outcome) (items : list A) : outcome :=
  match items with
  | [] => Outcome [] false
  | item :: rest =>
      let first := body item in
      if raised first then first
      else let others := for_each body rest in
           Outcome (events first ++ events others) (raised others)
  end.

(** The text holds a NUL character. *)
Definition has_nul (s : string) : bool :=
  negb (PyStr.all_chars (λ c, negb (Ascii.eqb c Ascii.zero)) s).

(** The fields that [Super_Class.process_csv] takes from one row. *)
Record record := MkRecord {
  case_number : string;
  main_parties : string;
  petitioner_advocates : list string;
  respondent_advocates : list string
}.

Section Notify.

(** The join of the tables [lawyers], [lawyers_cases] and [cases]: for a
    case number, the (name, email) rows of the lawyers linked to it. *)
Variable cases : gmap string (list detail).

(** [curr.execute(query, (case_no,))]: the rows whose [case_number] equals
    the argument. The comparison with SQL NULL, which is what [None] is sent
    as, holds for no row. [None] is the ValueError that psycopg2 raises for
    a string parameter that holds a NUL character. *)
Definition execute (case_no : option string) : option (list detail) :=
  match case_no with
  | Some c => if has_nul c then None else Some (default [] (cases !! c))
  | None => Some []
  end.

(** [get_user_detail]: the rows found, or [None] when there is none. The
    outer [None] is the exception of [execute]: the function has a
    [finally] clause and no [except] clause, so the exception leaves it. *)
Definition get_user_detail (case_no : option string)
  : option (option (list detail)) :=
  result ← execute case_no;
  Some (match result with [] => None | _ => Some result end).

(** Lines 141-144 and 465-468: the query, then one mail per row found. An
    exception of the query leaves these lines. *)
Definition notify (case_no : option string) (pet resp : advocates)
    (parties : string) : outcome :=
  match get_user_detail case_no with
  | Some (Some details) =>
      Outcome (Query case_no ::
               ((λ d, Mail d case_no pet resp parties) <$> details)) false
  | Some None => Outcome [Query case_no] false
  | None => Outcome [Query case_no] true
  end.

(** [row[key]] on a [csv.DictReader] row: the outer [None] is KeyError
    (no such field name), the inner one the value [None] of a field that
    the row is too short for. The last field of that name wins. *)
Fixpoint dict_get (fieldnames row : list string) (key : string)
  : option (option string) :=
  match fieldnames with
  | [] => None
  | f :: fs =>
      match dict_get fs (tail row) key with
      | Some v => Some v
      | None => if String.eqb f key then Some (head row) else None
      end
  end.

(** [v if v else ""] and [v.split(';') if v else []]. *)
Definition text_or_empty (v : option string) : string :=
  match v with
  | Some s => if PyStr.truthy s then s else ""
  | None => ""
  end.

Definition names_or_empty (v : option string) : list string :=
  match v with
  | Some s => if PyStr.truthy s then PyStr.split ";" s else []
  | None => []
  end.

(** Lines 137-140. [None] is a KeyError. *)
Definition parse_record (fieldnames row : list string) : option record :=
  cn ← dict_get fieldnames row "Case Number";
  mp ← dict_get fieldnames row "Main Parties";
  pa ← dict_get fieldnames row "Petitioner Advocate";
  ra ← dict_get fieldnames row "Respondent Advocate";
  Some (MkRecord (text_or_empty cn) (text_or_empty mp)
                (names_or_empty pa) (names_or_empty ra)).

(** The rows that [csv.DictReader] yields: it skips the empty ones. *)
Definition dict_rows (rows : list (list string)) : list (list string) :=
  filter (λ row, row ≠ []) rows.

(** The records read by lines 135-140 up to the first KeyError, which ends
    the loop (line 145). *)
Fixpoint parse_records (fieldnames : list string) (rows : list (list string))
  : list record :=
  match rows with
  | [] => []
  | row :: rest =>
      match parse_record fieldnames row with
      | Some r => r :: parse_records fieldnames rest
      | None => []
      end
  end.

Definition records_of (file : list (list string)) : list record :=
  match file with
  | [] => []
  | fieldnames :: rows => parse_records fieldnames (dict_rows rows)
  end.

Definition notify_record (r : record) : outcome :=
  notify (Some (case_number r)) (AdvList (petitioner_advocates r))
         (AdvList (respondent_advocates r)) (main_parties r).

(** [Super_Class.process_csv]: the events of its loop. An exception of the
    lookup ends the loop like a KeyError does: line 145 catches both, so no
    exception leaves the function. *)
Definition process_csv (file : list (list string)) : list event :=
  events (for_each notify_record (records_of file)).

(** *** Allahabad_court.process_csv *)

Definition is_upper_or_digit (c : ascii) : bool :=
  let n := N_of_ascii c in
  ((65 <=? n) && (n <=? 90) || (48 <=? n) && (n <=? 57))%N.

Definition is_decimal (c : ascii) : bool :=
  let n := N_of_ascii c in ((48 <=? n) && (n <=? 57))%N.

(** The longest run of characters of a class at the head of a string, and
    what follows it. *)
Fixpoint span (p : ascii → bool) (s : string) : string * string :=
  match s with
  | EmptyString => ("", "")
  | String c s' =>
      if p c then let '(a, r) := span p s' in (String c a, r) else ("", s)
  end.

(** A match of [([A-Z0-9]+)/(\d+)/(\d{4})] that starts at the head of [s].
    Each group is followed by a character outside its class, so the only
    length with which a group can match is that of the longest run. *)
Definition match_here (s : string) : option string :=
  let '(a, r1) := span is_upper_or_digit s in
  if PyStr.truthy a then
    match r1 with
    | String "/" r2 =>
        let '(b, r3) := span is_decimal r2 in
        if PyStr.truthy b then
          match r3 with
          | String "/" r4 =>
              let y := PyStr.take 4 r4 in
              if (String.length y =? 4)%nat && PyStr.all_chars is_decimal y
              then Some (a +:+ "/" +:+ b +:+ "/" +:+ y)
              else None
          | _ => None
          end
        else None
    | _ => None
    end
  else None.

(** [re.search(pattern, s).group(0)]: the match that starts leftmost. *)
Fixpoint re_search (s : string) : option string :=
  match match_here s with
  | Some m => Some m
  | None => match s with
            | EmptyString => None
            | String _ s' => re_search s'
            end
  end.

(** Lines 454-458: the index at which the loop stops and the case number. *)
Fixpoint find_case (i : nat) (cells : list string) : nat * option string :=
  match cells with
  | [] => (i, None)
  | c :: rest =>
      match re_search c with
      | Some m => (i, Some m)
      | None => find_case (S i) rest
      end
  end.

(** [''.join(row[i]) if i < size else ""] *)
Definition cell_or_empty (row : list string) (i : nat) : string := cell row i.

(** Lines 448-468 for one row. *)
Definition allahabad_row (row : list string) : outcome :=
  let '(i, case_no) := find_case 0 row in
  notify case_no (AdvText (cell_or_empty row (i + 2)))
         (AdvText (cell_or_empty row (i + 3))) (cell_or_empty row (i + 1)).

(** [Allahabad_court.process_csv]: the loop over [reader[1:]]. The function
    has no [except] clause: an exception of the lookup would leave it. *)
Definition allahabad_process_csv_outcome (file : list (list string))
  : outcome :=
  for_each allahabad_row (drop 1 file).

(** The events of [Allahabad_court.process_csv]. *)
Definition allahabad_process_csv (file : list (list string)) : list event :=
  events (allahabad_process_csv_outcome file).

End Notify.

(** ** main.py: page ranges and process_pdf *)

(** [range(start, stop, step)] for a positive [step]. *)
Fixpoint range_from (fuel : nat) (start stop step : Z) : list Z :=
  match fuel with
  | O => []
  | S fuel' =>
      if start <? stop then start :: range_from fuel' (start + step) stop step
      else []
  end.

Definition py_range (start stop step : Z) : list Z :=
  range_from (Z.to_nat (stop - start)) start stop step.

(** Line 44, the bounds of each range:
    [(start, min(start + chunk_size - 1, num_pages))
     for start in range(2, num_pages, chunk_size)]. *)
Definition page_bounds (num_pages chunk_size : Z) : list (Z * Z) :=
  (λ start, (start, Z.min (start + chunk_size - 1) num_pages))
    <$> py_range 2 num_pages chunk_size.

(** Line 44, the strings: [f"{start}-{end}"]. *)
Definition page_ranges (num_pages chunk_size : Z) : list string :=
  (λ b : Z * Z, pretty b.1 +:+ "-" +:+ pretty b.2)
    <$> page_bounds num_pages chunk_size.

(** Page [p] lies in the range [b]. *)
Definition in_chunk (p : Z) (b : Z * Z) : Prop := b.1 ≤ p ≤ b.2.

Definition default_chunk_size : Z := 50.

Inductive court := Gauhati_court | Allahabad_court.

(** How a file is opened for reading: [open(path, newline='')], as
    [Allahabad_court.clean_csv] and the two [process_csv] do, or
    [open(path, 'r')] with universal newlines, as [Gauhati_court.clean_csv]
    does. *)
Inductive newline := KeepNewlines | UniversalNewlines.

(** The documents and the files that pandas writes, as the program meets
    them. [get_page_count] is the page count of a document;
    [extract_csv_wrapper] gives for a document and a page range the rows of
    the table found ([None] on a failure or when the pages hold no table).
    [read_csv mode rows] is what [list(csv.reader(f))] returns from the
    file that [DataFrame.to_csv(path, index=False)] wrote for the rows
    [rows], the column labels first. It is [rows] itself for most tables
    but not for all: a carriage return that stands alone in a cell is
    written without quotes and read as the end of a row. *)
Record documents := Documents {
  get_page_count : string → Z;
  extract_csv_wrapper : court → string → string → option (list (list string));
  read_csv : newline → list (list string) → list (list string)
}.

(** The rows that [DataFrame.to_csv(path, index=False)] gives to its
    writer for the concatenated tables: the column labels, then the rows,
    a missing value being the empty string. *)
Definition to_csv (rows : list (list string)) : list (list string) :=
  let w := max_len rows in
  (pretty <$> seq 0 w) :: (pad w <$> rows).

(** The same for the frame that [Allahabad_court.clean_csv] writes. *)
Definition frame_to_csv (df : Allahabad.frame) : list (list string) :=
  (pretty <$> Allahabad.columns df) :: Allahabad.rows df.

(** What [process_pdf] leaves when it gets as far as [clean_csv]: whether
    [clean_csv] returned [True], the file after it, and the events of
    [process_csv]. *)
Record processed := Processed {
  cleaned_ok : bool;
  csv_after : list (list string);
  sent : list event
}.

(** [process_pdf]. [None]: the document is skipped (line 42) or no chunk
    gave a table (line 63). When [Gauhati_court.clean_csv] fails, the file
    is still the one that pandas wrote, which [process_csv] opens in its own
    way. No exception leaves [process_pdf]: [Super_Class.process_csv]
    catches its own, and the lookups of [Allahabad_court.process_csv] do
    not raise, their case number being [None] or a match of the pattern
    (lemma [allahabad_process_csv_all] below). *)
Definition process_pdf (cases : gmap string (list detail)) (docs : documents)
    (court_name : court) (pdf_file : string) (chunk_size : Z)
  : option processed :=
  let num_pages := get_page_count docs pdf_file in
  if num_pages <? 2 then None
  else
    let results := extract_csv_wrapper docs court_name pdf_file
                     <$> page_ranges num_pages chunk_size in
    let valid_results := omap id results in
    match valid_results with
    | [] => None
    | _ =>
        let written := to_csv (concat valid_results) in
        match court_name with
        | Gauhati_court =>
            let '(ok, cleaned) :=
              Gauhati.clean_csv (read_csv docs UniversalNewlines written) in
            let csv := if ok then cleaned
                       else read_csv docs KeepNewlines written in
            Some (Processed ok csv (process_csv cases csv))
        | Allahabad_court =>
            match Allahabad.clean_csv (read_csv docs KeepNewlines written) with
            | (_, Some df) =>
                let csv := read_csv docs KeepNewlines (frame_to_csv df) in
                Some (Processed true csv (allahabad_process_csv cases csv))
            | (_, None) =>
                let csv := read_csv docs KeepNewlines written in
                Some (Processed false csv (allahabad_process_csv cases csv))
            end
        end
    end.

(** The LogicalRecords that the processing of a document produced: the rows
    after the header of the file that [clean_csv] wrote. *)
Definition records_produced (out : option processed) : list (list string) :=
  match out with
  | Some (Processed true cleaned _) => drop 1 cleaned
  | _ => []
  end.

(** ** fetch_list and the watermark *)

Section Fetch.

(** [datetime.strptime(s, format).date()] as the day number of the date;
    [None] is the ValueError of a string that does not fit the format. *)
Variable strptime : string → string → option Z.

(** [date.today()] *)
Variable today : Z.

(** The table [courts]: [court_id] to [last_list_date], [None] being NULL. *)
Definition court_id (c : court) : Z :=
  match c with Gauhati_court => 1 | Allahabad_court => 2 end.

Definition date_format (c : court) : string :=
  match c with Gauhati_court => "%d/%m/%Y" | Allahabad_court => "%d-%m-%Y" end.

(** Lines 158-163 and 291-296: the watermark as a date. The outer [None]
    is the IndexError of [fetchall()[0]] or the ValueError of [strptime]. *)
Definition read_last_date (c : court) (courts : gmap Z (option string))
  : option Z :=
  stored ← courts !! court_id c;
  match stored with
  | None => Some today
  | Some s => strptime (PyStr.strip s) (date_format c)
  end.

(** The text of a listed entry that is parsed as its date (lines 173-175
    and 325-326), and the file it is saved as (lines 177 and 349). *)
Definition entry_date_text (c : court) (text : string) : string :=
  match c with
  | Gauhati_court => PyStr.strip (PyStr.take 10 text)
  | Allahabad_court => PyStr.strip text
  end.

Definition pdf_name (c : court) (text : string) : string :=
  match c with
  | Gauhati_court =>
      "temp_pdf\" +:+ PyStr.replace "/" "_" (PyStr.take 10 text) +:+ ".pdf"
  | Allahabad_court =>
      "temp_pdf/" +:+ PyStr.replace "-" "_" (PyStr.strip text) +:+ ".pdf"
  end.

(** Lines 171-182 and 311-355: the entries are taken while they are
    strictly newer than the watermark. [None] is a ValueError. *)
Fixpoint scan (c : court) (last_date : Z) (entries : list string)
  : option (list string) :=
  match entries with
  | [] => Some []
  | text :: rest =>
      d ← strptime (entry_date_text c text) (date_format c);
      if last_date <? d
      then pdf_names ← scan c last_date rest;
           Some (pdf_name c text :: pdf_names)
      else Some []
  end.

(** The entries that the loop runs over, and the one whose text becomes
    the new watermark: for Gauhati [list_rows[1:]] and [list_rows[1]]
    (row 0 is the heading of the table), for Allahabad the options of the
    date selector and the first of them. *)
Definition listed (c : court) (page : list string) : list string :=
  match c with
  | Gauhati_court => drop 1 page
  | Allahabad_court => page
  end.

(** [fetch_list] up to the [return]: [None] is an exception. *)
Definition fetch_list_body (c : court) (courts : gmap Z (option string))
    (page : list string)
  : option (option (list string) * gmap Z (option string)) :=
  last_date ← read_last_date c courts;
  new_date ← head (listed c page);
  pdf_names ← scan c last_date (listed c page);
  match pdf_names with
  | [] => Some (None, courts)
  | _ => Some (Some pdf_names,
               alter (λ _, Some new_date) (court_id c) courts)
  end.

(** [fetch_list]: the value returned and the table [courts] afterwards.
    The UPDATE is the last statement before the [return], so after an
    exception the table is as it was. *)
Definition fetch_list (c : court) (courts : gmap Z (option string))
    (page : list string) : option (list string) * gmap Z (option string) :=
  default (None, courts) (fetch_list_body c courts page).

(** Lines 72-78 of main.py for one court: the table [courts] after the
    run and what the processing of each downloaded document left. *)
Definition run_court (cases : gmap string (list detail)) (docs : documents)
    (c : court) (courts : gmap Z (option string)) (page : list string)
  : gmap Z (option string) * list (string * option processed) :=
  let '(pdf_files, courts') := fetch_list c courts page in
  (courts',
   (λ pdf_file, (pdf_file,
      process_pdf cases docs c pdf_file default_chunk_size))
     <$> filter (λ f, PyStr.truthy f = true) (default [] pdf_files)).

(** The watermark of a court as the next run reads it. *)
Definition watermark (c : court) (courts : gmap Z (option string)) : option Z :=
  read_last_date c courts.

End Fetch.

(** ** Vocabulary of the statements *)

(** [grows cur cur']: [cur'] is [cur] after some fields were extended. The
    length and the first field are kept, and what occurs in a field of [cur]
    occurs in the same field of [cur']. *)
Definition grows (cur cur' : list string) : Prop :=
  length cur' = length cur ∧ cur' !! 0%nat = cur !! 0%nat ∧
  ∀ k t, PyStr.occurs_in t (cell cur k) → PyStr.occurs_in t (cell cur' k).

(** The shape of an output record: five cells, the first one the trimmed
    leading cell of a start row of [data], which is not empty and holds
    digits only. *)
Definition from_start_row (data : list (list string)) (rec : list string)
  : Prop :=
  length rec = 5%nat ∧
  ∃ row r0,
    row ∈ data ∧ row !! 0%nat = Some r0 ∧ Gauhati.is_start row = Some true ∧
    rec !! 0%nat = Some (PyStr.strip r0) ∧
    PyStr.strip r0 ≠ "" ∧
    PyStr.all_chars PyStr.isdigit_char (PyStr.strip r0) = true.

(** The invariant of the Gauhati loop: [cleaned_data] is the header followed
    by records of that shape, and so is the open record. *)
Definition shaped (data : list (list string)) (st : Gauhati.state) : Prop :=
  (∃ recs, Gauhati.cleaned_data st = Gauhati.headers :: recs ∧
           Forall (from_start_row data) recs) ∧
  ∀ cur, Gauhati.current_case st = Some cur → from_start_row data cur.

(** The rows [conts] merged one after the other into the open record of
    the Allahabad loop; [None] when a merge raises. *)
Definition merge_all (cur : list string) (conts : list (list string))
  : option (list string) :=
  foldl (λ acc row, acc ≫= λ cur, Allahabad.merge_row cur row) (Some cur) conts.

(** The open record of the Allahabad loop, if any, has [w] cells. *)
Definition wide (w : nat) (st : Allahabad.state) : Prop :=
  ∀ cur, Allahabad.current st = Some cur → length cur = w.

(** The non-blank values of a row, in order. *)
Definition values (row : list string) : list string :=
  filter (λ v, PyStr.truthy (PyStr.strip v) = true) row.

(** The text [t] is in no cell of the rows [out]. *)
Definition nowhere (t : string) (out : list (list string)) : bool :=
  forallb (forallb (λ field, negb (PyStr.contains t field))) out.

(** The rows that the table links to a case number; none to [None]. *)
Definition watchers (cases : gmap string (list detail))
    (case_no : option string) : list detail :=
  match case_no with
  | Some c => default [] (cases !! c)
  | None => []
  end.

(** The lookup with this case number raises: the number holds a NUL. *)
Definition lookup_raises (case_no : option string) : bool :=
  match case_no with
  | Some c => has_nul c
  | None => false
  end.

(** A lookup that returns, and one mail to each watcher that it returns, in
    the order of the table, with the fields of the record. *)
Definition lookup_and_mails (cases : gmap string (list detail))
    (case_no : option string) (pet resp : advocates) (parties : string)
  : list event :=
  Query case_no ::
  ((λ d, Mail d case_no pet resp parties) <$> watchers cases case_no).

(** The lookup and the mails for a record of [Super_Class.process_csv]. *)
Definition record_events (cases : gmap string (list detail)) (r : record)
  : list event :=
  lookup_and_mails cases (Some (case_number r))
    (AdvList (petitioner_advocates r)) (AdvList (respondent_advocates r))
    (main_parties r).

(** The lookup and the mails for a row of [Allahabad_court.process_csv]:
    the fields are the three cells after the first cell with a case
    number. *)
Definition row_events (cases : gmap string (list detail)) (row : list string)
  : list event :=
  lookup_and_mails cases (find_case 0 row).2
    (AdvText (cell row ((find_case 0 row).1 + 2)))
    (AdvText (cell row ((find_case 0 row).1 + 3)))
    (cell row ((find_case 0 row).1 + 1)).

(** The scenario of the specification: a start row, a row that continues it
    and a second start row. *)
Definition scenario : list (list string) :=
  [["1"; "ABC/12/2024"; "X Versus Y"; "Adv1"; ""];
   [""; ""; ""; "Adv2"; ""];
   ["2"; "DEF/13/2024"; "P vs Q"; "Adv3"; "Adv4"]].

(** What the specification expects from the scenario. *)
Definition scenario_expected : list record :=
  [MkRecord "ABC/12/2024" "X Versus Y" ["Adv1"; "Adv2"] [];
   MkRecord "DEF/13/2024" "P vs Q" ["Adv3"] ["Adv4"]].

(** The text is in no cell of what [Gauhati_court.clean_csv] writes for
    the rows [data]. *)
Definition lost (t : string) (data : list (list string)) : bool :=
  match Gauhati.clean_rows data with
  | Some out => nowhere t out
  | None => false
  end.

(** Five start rows, the last of them followed by a row that continues
    it. *)
Definition five_rows : list (list string) :=
  [["1"; "A/1/2024"; "X"]; ["2"; "B/2/2024"; "Z"]; ["3"; "C/3/2024"; "Z"];
   ["4"; "D/4/2024"; "Z"]; ["5"; "E/5/2024"; "Z"]; [""; ""; "Y"]].

(** A file of seven rows, each one a start row but the second; six rows are
    left after the merge, and one after the first five are dropped. *)
Definition seven_rows : list (list string) :=
  [["1"; "A/1/2024"; "X"]; [""; ""; "Y"]; ["2"; "B/2/2024"; "Z"];
   ["3"; "C/3/2024"; "Z"]; ["4"; "D/4/2024"; "Z"]; ["5"; "E/5/2024"; ""];
   ["6"; ""; "Z"]].

(** A [strptime] for the two dates of the one-document example, with their
    day numbers. *)
Definition strptime_sample (s format : string) : option Z :=
  if String.eqb s "01/01/2025" then Some 739252
  else if String.eqb s "02/01/2025" then Some 739253
  else None.

(** Documents of one page each, from which nothing is extracted. *)
Definition one_page_documents : documents :=
  Documents (λ _, 1) (λ _ _ _, None) (λ _ rows, rows).

(** ** Vocabulary of the further properties *)

(** A row on which the Gauhati loop raises IndexError: a row without cells
    ([row[0]]), or a start row with one cell only ([row[1]]). *)
Definition gauhati_raises (row : list string) : Prop :=
  row = [] ∨ (Gauhati.is_start row = Some true ∧ length row = 1%nat).

(** The trimmed leading cell of a start row of the Gauhati input. *)
Definition start_token (row : list string) : option string :=
  match Gauhati.is_start row with
  | Some true => PyStr.strip <$> row !! 0%nat
  | _ => None
  end.

Definition start_tokens (data : list (list string)) : list string :=
  omap start_token data.

(** The string holds no ";". *)
Definition no_semicolon (s : string) : bool :=
  PyStr.all_chars (λ c, negb (Ascii.eqb c ";")) s.





(** The four field names that [Super_Class.process_csv] reads. *)
Definition record_keys : list string :=
  ["Case Number"; "Main Parties"; "Petitioner Advocate"; "Respondent Advocate"].

(** A mail goes to a watcher whom the table links to the case number that
    the mail names; a query is no mail. *)
Definition mail_to_linked (cases : gmap string (list detail)) (e : event)
  : Prop :=
  match e with
  | Query _ => True
  | Mail d (Some c) _ _ _ => ∃ ds, cases !! c = Some ds ∧ d ∈ ds
  | Mail _ None _ _ _ => False
  end.


(** A text that [([A-Z0-9]+)/(\d+)/(\d{4})] matches as a whole: capitals or
    digits, a slash, digits, a slash, four digits. *)
Definition case_number_shape (m : string) : Prop :=
  ∃ a b y,
    m = a +:+ "/" +:+ b +:+ "/" +:+ y ∧
    a ≠ "" ∧ PyStr.all_chars is_upper_or_digit a = true ∧
    b ≠ "" ∧ PyStr.all_chars is_decimal b = true ∧
    String.length y = 4%nat ∧ PyStr.all_chars is_decimal y = true.

(** The cell holds whitespace only, or nothing. *)
Definition blank (s : string) : Prop := PyStr.truthy (PyStr.strip s) = false.

(** The leading cell of a row that opens a record in the Allahabad loop
    when a record is already open: a start row. *)
Definition opens_record (row : list string) : option string :=
  match Allahabad.is_start row with
  | Some true => Some (cell row 0)
  | _ => None
  end.

(** The leading cells of the rows that open a record in the Allahabad loop:
    the first row, whatever it is, and every later start row. *)
Definition merged_heads (rows : list (list string)) : list string :=
  match rows with
  | [] => []
  | first :: rest => cell first 0 :: omap opens_record rest
  end.


(** The entry is dated strictly after [last]. *)
Definition newer_than (strptime : string → string → option Z) (c : court)
    (last : Z) (text : string) : Prop :=
  ∃ d, strptime (entry_date_text c text) (date_format c) = Some d ∧ last < d.



(** * Properties *)

(** ** Strings *)

Module PyStrFacts.
Import PyStr.

Lemma app_cons (c : ascii) (a b : string) :
  String c a +:+ b = String c (a +:+ b).
Proof. reflexivity. Qed.

Lemma app_nil_r (s : string) : s +:+ "" = s.
Proof. induction s as [|c s IH]; [done | by rewrite app_cons, IH]. Qed.

Lemma app_assoc (a b c : string) : (a +:+ b) +:+ c = a +:+ b +:+ c.
Proof. induction a as [|x a IH]; [done | by rewrite !app_cons, IH]. Qed.

Lemma truthy_true (s : string) : truthy s = true ↔ s ≠ "".
Proof. unfold truthy. by destruct (String.eqb_spec s ""). Qed.

Lemma truthy_false (s : string) : truthy s = false ↔ s = "".
Proof. unfold truthy. by destruct (String.eqb_spec s ""). Qed.

Lemma startswith_spec (p s : string) :
  startswith p s = true ↔ ∃ q, s = p +:+ q.
Proof.
  revert s. induction p as [|a p IH]; intros s.
  - split; [intros _; by exists s | done].
  - destruct s as [|b s]; cbn [startswith].
    + split; [done | intros [q Hq]; discriminate].
    + rewrite andb_true_iff, IH. split.
      * intros [Hab [q ->]]. apply Ascii.eqb_eq in Hab as ->. by exists q.
      * intros [q Hq]. rewrite app_cons in Hq. injection Hq as -> ->.
        split; [apply Ascii.eqb_refl | by exists q].
Qed.

(** [contains] decides occurrence. *)
Lemma contains_spec (t s : string) : contains t s = true ↔ occurs_in t s.
Proof.
  unfold occurs_in. induction s as [|c s IH].
  - cbn [contains]. rewrite orb_false_r, startswith_spec. split.
    + intros [q Hq]. by exists "", q.
    + intros [p [q Hq]]. destruct p; [by exists q | discriminate].
  - cbn [contains]. rewrite orb_true_iff, startswith_spec, IH. split.
    + intros [[q Hq] | [p [q Hq]]].
      * by exists "", q.
      * exists (String c p), q. by rewrite app_cons, Hq.
    + intros [p [q Hq]]. destruct p as [|x p].
      * left. by exists q.
      * right. rewrite app_cons in Hq. injection Hq as -> ->. by exists p, q.
Qed.

Lemma occurs_in_refl (s : string) : occurs_in s s.
Proof. exists "", "". change (s = s +:+ ""). by rewrite app_nil_r. Qed.

Lemma occurs_in_empty (s : string) : occurs_in "" s.
Proof. by exists "", s. Qed.

Lemma occurs_in_app_r (t s q : string) : occurs_in t s → occurs_in t (s +:+ q).
Proof.
  intros [p [r ->]]. exists p, (r +:+ q). by rewrite !app_assoc.
Qed.

Lemma occurs_in_app_l (t s q : string) : occurs_in t s → occurs_in t (q +:+ s).
Proof.
  intros [p [r ->]]. exists (q +:+ p), r. by rewrite !app_assoc.
Qed.

Lemma occurs_in_of_empty (t : string) : occurs_in t "" → t = "".
Proof.
  intros [p [q Hq]]. destruct p; [|discriminate]. by destruct t.
Qed.

Lemma strip_empty : strip "" = "".
Proof. done. Qed.

End PyStrFacts.

(** ** Cells and in-place updates *)

Lemma cell_insert_eq (cur : list string) (k : nat) (v : string) :
  (k < length cur)%nat → cell (<[k := v]> cur) k = v.
Proof. intros Hk. unfold cell. by rewrite list_lookup_insert_eq. Qed.

Lemma cell_insert_ne (cur : list string) (j k : nat) (v : string) :
  j ≠ k → cell (<[k := v]> cur) j = cell cur j.
Proof. intros Hjk. unfold cell. by rewrite list_lookup_insert_ne. Qed.

Lemma has_cell_false (row : list string) (k : nat) (c : string) :
  has_cell row k = false → row !! k = Some c → c = "".
Proof.
  unfold has_cell. intros H Hc. rewrite Hc in H.
  by apply PyStrFacts.truthy_false.
Qed.

Lemma grows_refl (cur : list string) : grows cur cur.
Proof. by repeat split. Qed.

Lemma grows_trans (a b c : list string) : grows a b → grows b c → grows a c.
Proof.
  intros (Hl1 & H01 & Ho1) (Hl2 & H02 & Ho2). repeat split.
  - by rewrite Hl2.
  - by rewrite H02.
  - intros k t Ht. by apply Ho2, Ho1.
Qed.

Lemma grows_insert (cur : list string) (k : nat) (v : string) :
  k ≠ 0%nat →
  (∀ t, PyStr.occurs_in t (cell cur k) → PyStr.occurs_in t v) →
  grows cur (<[k := v]> cur).
Proof.
  intros Hk Hv. repeat split.
  - apply length_insert.
  - by apply list_lookup_insert_ne.
  - intros j t Ht. destruct (decide (j = k)) as [->|Hjk].
    + destruct (decide (k < length cur)%nat) as [Hlt|Hge].
      * rewrite cell_insert_eq by done. by apply Hv.
      * rewrite list_insert_ge by lia. done.
    + by rewrite cell_insert_ne.
Qed.

Lemma grows_extend (cur : list string) (k : nat) (suffix : string) :
  k ≠ 0%nat → grows cur (<[k := cell cur k +:+ suffix]> cur).
Proof.
  intros Hk. apply grows_insert; [done|].
  intros t Ht. by apply PyStrFacts.occurs_in_app_r.
Qed.

Lemma grows_fill (cur : list string) (k : nat) (v : string) :
  k ≠ 0%nat → PyStr.truthy (cell cur k) = false → grows cur (<[k := v]> cur).
Proof.
  intros Hk He%PyStrFacts.truthy_false. apply grows_insert; [done|].
  rewrite He. intros t ->%PyStrFacts.occurs_in_of_empty.
  apply PyStrFacts.occurs_in_empty.
Qed.

(** ** Gauhati row reconstruction *)

Module GauhatiFacts.
Import Gauhati.

Lemma loop_app (st : state) (a b : list (list string)) :
  loop st (a ++ b) = loop st a ≫= λ st', loop st' b.
Proof.
  revert st. induction a as [|row a IH]; intros st; [done|].
  simpl. destruct (step st row) as [st1|]; simpl; [apply IH | done].
Qed.

Lemma merge_head_grows (cur row : list string) : grows cur (merge_head cur row).
Proof.
  unfold merge_head.
  repeat (case_match; try apply grows_refl);
    try (apply grows_extend; done); try (apply grows_fill; done).
Qed.

Lemma merge_advocate_grows (k : nat) (cur row : list string) :
  k ≠ 0%nat → grows cur (merge_advocate k cur row).
Proof.
  intros Hk. unfold merge_advocate.
  repeat (case_match; try apply grows_refl);
    try (apply grows_extend; done); try (apply grows_fill; done).
Qed.

Lemma merge_row_grows (cur row : list string) : grows cur (merge_row cur row).
Proof.
  unfold merge_row.
  eapply grows_trans; [apply merge_head_grows|].
  eapply grows_trans; by apply merge_advocate_grows.
Qed.

Lemma absorb_grows (cur row : list string) : grows cur (absorb cur row).
Proof.
  unfold absorb. case_match; [apply merge_row_grows | apply grows_refl].
Qed.

Lemma foldl_absorb_grows (cur : list string) (rows : list (list string)) :
  grows cur (foldl absorb cur rows).
Proof.
  revert cur. induction rows as [|row rows IH]; intros cur; simpl.
  - apply grows_refl.
  - eapply grows_trans; [apply absorb_grows | apply IH].
Qed.

(** An advocate cell of an absorbed row is in its field afterwards. *)
Lemma merge_advocate_holds (k : nat) (cur row : list string) (c : string) :
  (k < length cur)%nat → row !! k = Some c →
  PyStr.occurs_in (PyStr.strip c) (cell (merge_advocate k cur row) k).
Proof.
  intros Hk Hc. unfold merge_advocate.
  destruct (has_cell row k) eqn:Hhas.
  - assert (cell row k = c) as -> by (unfold cell; by rewrite Hc).
    case_match; rewrite cell_insert_eq by done.
    + apply PyStrFacts.occurs_in_app_l, PyStrFacts.occurs_in_app_l,
        PyStrFacts.occurs_in_refl.
    + apply PyStrFacts.occurs_in_refl.
  - rewrite (has_cell_false _ _ _ Hhas Hc). apply PyStrFacts.occurs_in_empty.
Qed.

Lemma set_if_present_length (row : list string) (k : nat) (cur : list string) :
  length (set_if_present row k cur) = length cur.
Proof. unfold set_if_present. case_match; [apply length_insert | done]. Qed.

Lemma set_if_present_ne (row : list string) (j k : nat) (cur : list string) :
  j ≠ k → set_if_present row k cur !! j = cur !! j.
Proof.
  intros Hjk. unfold set_if_present.
  case_match; [by apply list_lookup_insert_ne | done].
Qed.

Lemma set_if_present_holds (row : list string) (k : nat) (cur : list string)
    (c : string) :
  (k < length cur)%nat → cell cur k = "" → row !! k = Some c →
  PyStr.occurs_in (PyStr.strip c) (cell (set_if_present row k cur) k).
Proof.
  intros Hk He Hc. unfold set_if_present.
  destruct (has_cell row k) eqn:Hhas.
  - assert (cell row k = c) as -> by (unfold cell; by rewrite Hc).
    rewrite cell_insert_eq by done. apply PyStrFacts.occurs_in_refl.
  - rewrite (has_cell_false _ _ _ Hhas Hc). apply PyStrFacts.occurs_in_empty.
Qed.

Lemma open_case_length (row cur : list string) :
  open_case row = Some cur → length cur = 5%nat.
Proof.
  unfold open_case. intros H. simplify_option_eq.
  by rewrite !set_if_present_length.
Qed.

Lemma open_case_first (row cur : list string) :
  open_case row = Some cur → cur !! 0%nat = PyStr.strip <$> row !! 0%nat.
Proof.
  unfold open_case. intros H. simplify_option_eq.
  by rewrite !set_if_present_ne by done.
Qed.

Lemma open_case_total (row : list string) :
  (2 ≤ length row)%nat → is_Some (open_case row).
Proof.
  intros Hl. destruct row as [|r0 [|r1 row]]; simpl in Hl; try lia.
  unfold open_case. simpl. eauto.
Qed.

(** Each of the first five cells of a start row is in the record it opens. *)
Lemma open_case_holds (row cur : list string) (k : nat) (c : string) :
  open_case row = Some cur → (k < 5)%nat → row !! k = Some c →
  PyStr.occurs_in (PyStr.strip c) (cell cur k).
Proof.
  unfold open_case. intros H Hk Hc.
  destruct (row !! 0%nat) as [r0|] eqn:H0; [|done].
  destruct (row !! 1%nat) as [r1|] eqn:H1; [|done].
  simpl in H. injection H as <-.
  set (cur0 := [_; _; _; _; _]).
  destruct k as [|[|[|[|[|k]]]]]; try lia.
  - unfold cell. rewrite !set_if_present_ne by done. simpl.
    assert (c = r0) as -> by congruence. apply PyStrFacts.occurs_in_refl.
  - unfold cell. rewrite !set_if_present_ne by done. simpl.
    assert (c = r1) as -> by congruence. apply PyStrFacts.occurs_in_refl.
  - unfold cell at 1. rewrite !set_if_present_ne by done.
    by apply (set_if_present_holds row 2 cur0 c).
  - unfold cell at 1. rewrite !set_if_present_ne by done.
    apply (set_if_present_holds row 3 (set_if_present row 2 cur0) c);
      [by rewrite set_if_present_length | | done].
    unfold cell. by rewrite set_if_present_ne.
  - apply (set_if_present_holds row 4
             (set_if_present row 3 (set_if_present row 2 cur0)) c);
      [by rewrite !set_if_present_length | | done].
    unfold cell. by rewrite !set_if_present_ne.
Qed.

End GauhatiFacts.

Module GauhatiLoop.
Import Gauhati GauhatiFacts.

Lemma step_start (st : state) (row cur : list string) :
  is_start row = Some true → open_case row = Some cur →
  step st row = Some (State (flush st) (Some cur)).
Proof. intros Hs Ho. unfold step, flush. by rewrite Hs, Ho. Qed.

Lemma step_cont (st : state) (row : list string) :
  is_start row = Some false →
  step st row = Some (State (cleaned_data st)
                            ((λ cur, absorb cur row) <$> current_case st)).
Proof. intros Hs. unfold step. by rewrite Hs. Qed.

Lemma loop_conts (st : state) (conts : list (list string)) :
  Forall (λ r, is_start r = Some false) conts →
  loop st conts =
    Some (State (cleaned_data st)
                ((λ cur, foldl absorb cur conts) <$> current_case st)).
Proof.
  intros Hc. revert st. induction Hc as [|row conts Hrow _ IH]; intros st.
  - simpl. by destruct st as [cl [cur|]].
  - simpl. rewrite (step_cont _ _ Hrow). simpl. rewrite IH. simpl.
    by destruct (current_case st).
Qed.

Lemma is_start_total (row : list string) :
  (1 ≤ length row)%nat → is_Some (is_start row).
Proof.
  destruct row as [|r0 row]; simpl; [lia|]. intros _. unfold is_start. simpl.
  eauto.
Qed.

Lemma step_total (st : state) (row : list string) :
  (2 ≤ length row)%nat → is_Some (step st row).
Proof.
  intros Hl. destruct (is_start_total row) as [[|] Hs]; [lia | |].
  - destruct (open_case_total row Hl) as [cur Hcur].
    rewrite (step_start _ _ _ Hs Hcur). eauto.
  - rewrite (step_cont _ _ Hs). eauto.
Qed.

(** On rows of two cells or more the loop raises no exception. *)
Lemma loop_total (st : state) (rows : list (list string)) :
  Forall (λ r, (2 ≤ length r)%nat) rows → is_Some (loop st rows).
Proof.
  intros Hr. revert st. induction Hr as [|row rows Hrow _ IH]; intros st.
  - simpl. eauto.
  - simpl. destruct (step_total st row Hrow) as [st1 ->]. simpl. apply IH.
Qed.

Lemma step_cleaned (st st1 : state) (row : list string) :
  step st row = Some st1 →
  ∃ more, cleaned_data st1 = cleaned_data st ++ more.
Proof.
  unfold step. intros H. destruct (is_start row) as [[|]|]; simplify_option_eq.
  - destruct (current_case st); simpl; [by eexists | exists []].
    by rewrite app_nil_r.
  - exists []. by rewrite app_nil_r.
Qed.

(** What has been appended to [cleaned_data] stays in the output. *)
Lemma loop_cleaned (st st' : state) (rows : list (list string)) :
  loop st rows = Some st' → ∃ more, flush st' = cleaned_data st ++ more.
Proof.
  revert st. induction rows as [|row rows IH]; intros st H; simpl in H.
  - injection H as <-. unfold flush.
    destruct (current_case st); [by eexists | exists []].
    by rewrite app_nil_r.
  - destruct (step st row) as [st1|] eqn:Hstep; [|done]. simpl in H.
    destruct (IH _ H) as [more1 Hm1].
    destruct (step_cleaned _ _ _ Hstep) as [more2 Hm2].
    exists (more2 ++ more1). by rewrite Hm1, Hm2, <- app_assoc.
Qed.

(** An open record reaches the output, its fields extended at most. *)
Lemma loop_emits (st st' : state) (rows : list (list string))
    (cur : list string) :
  loop st rows = Some st' → current_case st = Some cur →
  ∃ more rec, flush st' = cleaned_data st ++ more ∧ rec ∈ more ∧ grows cur rec.
Proof.
  revert st cur. induction rows as [|row rows IH]; intros st cur H Hcur;
    simpl in H.
  - injection H as <-. exists [cur], cur. unfold flush. rewrite Hcur.
    split_and!; [done | set_solver | apply grows_refl].
  - destruct (step st row) as [st1|] eqn:Hstep; [|done]. simpl in H.
    unfold step in Hstep. destruct (is_start row) as [[|]|]; [| |done].
    + destruct (open_case row) as [new|]; [|done]. simpl in Hstep.
      injection Hstep as <-. rewrite Hcur in H.
      destruct (loop_cleaned _ _ _ H) as [more Hmore]. simpl in Hmore.
      exists ([cur] ++ more), cur.
      split_and!; [by rewrite Hmore, <- app_assoc | set_solver
                  | apply grows_refl].
    + injection Hstep as <-. rewrite Hcur in H. simpl in H.
      destruct (IH _ (absorb cur row) H eq_refl)
        as (more & rec & Hf & Hin & Hg).
      exists more, rec. split_and!; [done | done |].
      eapply grows_trans; [apply absorb_grows | done].
Qed.

Lemma from_start_row_grows (data : list (list string))
    (cur cur' : list string) :
  grows cur cur' → from_start_row data cur → from_start_row data cur'.
Proof.
  intros (Hl & H0 & _) (Hlen & row & r0 & Hin & Hr0 & Hs & Hc & Hd).
  split; [by rewrite Hl|]. exists row, r0. by rewrite H0.
Qed.

Lemma open_case_from_start_row (data : list (list string))
    (row cur : list string) :
  row ∈ data → is_start row = Some true → open_case row = Some cur →
  from_start_row data cur.
Proof.
  intros Hin Hs Ho. split; [by eapply open_case_length|].
  pose proof (open_case_first _ _ Ho) as H0.
  unfold is_start in Hs. destruct (row !! 0%nat) as [r0|] eqn:Hr0; [|done].
  simpl in Hs, H0. injection Hs as Hs.
  apply andb_true_iff in Hs as [_ Hd]. unfold PyStr.isdigit in Hd.
  apply andb_true_iff in Hd as [Hne%PyStrFacts.truthy_true Hall].
  exists row, r0. split_and!; try done.
  unfold is_start. rewrite Hr0. simpl. f_equal.
  unfold PyStr.isdigit. rewrite Hall, andb_true_r.
  apply andb_true_iff. split; apply PyStrFacts.truthy_true; [|done].
  intros ->. by apply Hne.
Qed.

Lemma step_shaped (data : list (list string)) (st st1 : state)
    (row : list string) :
  row ∈ data → shaped data st → step st row = Some st1 → shaped data st1.
Proof.
  intros Hin [(recs & Hcl & Hrecs) Hcur] Hstep. unfold step in Hstep.
  destruct (is_start row) as [[|]|] eqn:Hs; [| |done].
  - destruct (open_case row) as [new|] eqn:Ho; [|done]. simpl in Hstep.
    injection Hstep as <-. split; simpl.
    + destruct (current_case st) as [old|].
      * exists (recs ++ [old]). rewrite Hcl. split; [done|].
        apply Forall_app. split; [done|]. apply Forall_singleton. by apply Hcur.
      * by exists recs.
    + intros cur [= <-]. by eapply open_case_from_start_row.
  - injection Hstep as <-. split; simpl; [by exists recs|].
    intros cur' Hc'. destruct (current_case st) as [cur|]; [|done].
    simpl in Hc'. injection Hc' as <-.
    eapply from_start_row_grows; [apply absorb_grows | by apply Hcur].
Qed.

Lemma loop_shaped (data rows : list (list string)) (st st' : state) :
  rows ⊆ data → shaped data st → loop st rows = Some st' → shaped data st'.
Proof.
  revert st. induction rows as [|row rows IH]; intros st Hsub Hinv H;
    simpl in H.
  - by injection H as <-.
  - destruct (step st row) as [st1|] eqn:Hstep; [|done]. simpl in H.
    apply (IH st1); [set_solver | | done].
    eapply step_shaped; [| done | done]. set_solver.
Qed.

End GauhatiLoop.

(** ** Allahabad row merging *)

Module AllahabadFacts.
Import Allahabad.

Lemma merge_loop_app (st : state) (a b : list (list string)) :
  loop st (a ++ b) = loop st a ≫= λ st', loop st' b.
Proof.
  revert st. induction a as [|row a IH]; intros st; [done|].
  simpl. destruct (step st row) as [st1|]; simpl; [apply IH | done].
Qed.

Lemma merge_step_start (st : state) (row : list string) :
  is_start row = Some true → step st row = Some (State (flush st) (Some row)).
Proof. intros Hs. unfold step, flush. by rewrite Hs. Qed.

Lemma merge_step_cont (m : list (list string)) (cur row : list string) :
  is_start row = Some false →
  step (State m (Some cur)) row =
    (λ cur', State m (Some cur')) <$> merge_row cur row.
Proof.
  intros Hs. unfold step. rewrite Hs. simpl.
  by destruct (merge_row cur row).
Qed.

Lemma merge_step_first (m : list (list string)) (row : list string) :
  is_start row = Some false →
  step (State m None) row = Some (State m (Some row)).
Proof. intros Hs. unfold step. by rewrite Hs. Qed.

Lemma merge_all_none (conts : list (list string)) :
  foldl (λ acc row, acc ≫= λ cur, merge_row cur row) None conts = None.
Proof. induction conts as [|row conts IH]; [done | apply IH]. Qed.

Lemma merge_all_cons (cur row : list string) (conts : list (list string)) :
  merge_all cur (row :: conts) =
    merge_row cur row ≫= λ cur', merge_all cur' conts.
Proof.
  unfold merge_all. simpl. destruct (merge_row cur row); simpl; [done|].
  apply merge_all_none.
Qed.

Lemma merge_loop_conts (m : list (list string)) (cur : list string)
    (conts : list (list string)) :
  Forall (λ r, is_start r = Some false) conts →
  loop (State m (Some cur)) conts =
    (λ rec, State m (Some rec)) <$> merge_all cur conts.
Proof.
  intros Hc. revert cur.
  induction Hc as [|row conts Hrow _ IH]; intros cur; [done|].
  simpl. rewrite (merge_step_cont _ _ _ Hrow), merge_all_cons.
  destruct (merge_row cur row) as [cur'|]; simpl; [apply IH | done].
Qed.

Lemma merge_cell_total (cur : list string) (i : nat) (c : string) :
  (i < length cur)%nat →
  ∃ cur', merge_cell cur i c = Some cur' ∧ length cur' = length cur.
Proof.
  intros Hi. unfold merge_cell.
  destruct (PyStr.truthy (PyStr.strip c)); [|by exists cur].
  destruct (lookup_lt_is_Some_2 cur i Hi) as [ci ->]. simpl.
  eexists. split; [done|]. case_match; apply length_insert.
Qed.

Lemma merge_from_total (i : nat) (cur cells : list string) :
  (i + length cells ≤ length cur)%nat →
  ∃ cur', merge_from i cur cells = Some cur' ∧ length cur' = length cur.
Proof.
  revert i cur. induction cells as [|c cells IH]; intros i cur Hl; simpl in *.
  - by exists cur.
  - destruct (merge_cell_total cur i c ltac:(lia)) as (cur1 & -> & Hl1).
    simpl. destruct (IH (S i) cur1 ltac:(lia)) as (cur2 & -> & Hl2).
    exists cur2. split; [done | lia].
Qed.

(** Rows of one width merge without an exception. *)
Lemma merge_all_total (w : nat) (cur : list string)
    (conts : list (list string)) :
  length cur = w → Forall (λ r, length r = w) conts →
  ∃ rec, merge_all cur conts = Some rec ∧ length rec = w.
Proof.
  intros Hcur Hc. revert cur Hcur.
  induction Hc as [|row conts Hrow _ IH]; intros cur Hcur.
  - by exists cur.
  - rewrite merge_all_cons. unfold merge_row.
    destruct (merge_from_total 0 cur row ltac:(lia)) as (cur1 & -> & Hl1).
    simpl. apply IH. lia.
Qed.

Lemma merge_step_total (w : nat) (st : state) (row : list string) :
  (1 ≤ w)%nat → length row = w → wide w st →
  ∃ st', step st row = Some st' ∧ wide w st'.
Proof.
  intros Hw Hrow Hst. unfold step, is_start.
  destruct row as [|r0 row']; simpl in Hrow; [lia|]. simpl.
  set (row := r0 :: row').
  destruct (PyStr.truthy (PyStr.strip r0)).
  - eexists. split; [done|]. by intros cur [= <-].
  - destruct (current st) as [cur|] eqn:Hcur.
    + unfold merge_row.
      destruct (merge_from_total 0 cur row) as (cur1 & -> & Hl1).
      { rewrite (Hst cur Hcur). simpl. lia. }
      simpl. eexists. split; [done|]. intros cur' [= <-].
      rewrite Hl1. by apply Hst.
    + eexists. split; [done|]. by intros cur [= <-].
Qed.

(** On rows of one width, one cell or more, the loop raises no exception. *)
Lemma merge_loop_total (w : nat) (st : state) (rows : list (list string)) :
  (1 ≤ w)%nat → Forall (λ r, length r = w) rows → wide w st →
  ∃ st', loop st rows = Some st' ∧ wide w st'.
Proof.
  intros Hw Hr. revert st. induction Hr as [|row rows Hrow _ IH]; intros st Hst.
  - by exists st.
  - simpl.
    destruct (merge_step_total w st row Hw Hrow Hst) as (st1 & -> & Hst1).
    simpl. by apply IH.
Qed.

(** Rows already in [merged_rows] play no part in what follows. *)
Lemma merge_step_frame (p m : list (list string)) (cur : option (list string))
    (row : list string) :
  step (State (p ++ m) cur) row =
  (λ st, State (p ++ merged_rows st) (current st)) <$> step (State m cur) row.
Proof.
  unfold step. destruct (is_start row) as [[|]|]; simpl; [| |done].
  - destruct cur; simpl; [by rewrite <- app_assoc | done].
  - destruct cur as [cur|]; simpl; [|done]. by destruct (merge_row cur row).
Qed.

Lemma merge_loop_frame (p m : list (list string)) (cur : option (list string))
    (rows : list (list string)) :
  loop (State (p ++ m) cur) rows =
  (λ st, State (p ++ merged_rows st) (current st)) <$> loop (State m cur) rows.
Proof.
  revert m cur. induction rows as [|row rows IH]; intros m cur; [done|].
  simpl. rewrite merge_step_frame.
  destruct (step (State m cur) row) as [[m1 cur1]|]; simpl; [apply IH | done].
Qed.

Lemma merge_flush_frame (p : list (list string)) (st : state) :
  flush (State (p ++ merged_rows st) (current st)) = p ++ flush st.
Proof. unfold flush. simpl. destruct (current st); by rewrite ?app_assoc. Qed.

Lemma cleaned_frame_rows (width : nat) (merged : list (list string)) :
  length (rows (cleaned_frame width merged)) = length merged.
Proof. unfold cleaned_frame. simpl. by rewrite !length_fmap. Qed.

Lemma drop_first_five_cleaned (width : nat) (merged : list (list string)) :
  drop_first_five (cleaned_frame width merged) =
  if decide (5 ≤ length merged)%nat
  then Some (Frame (columns (cleaned_frame width merged))
                   (drop 5 (rows (cleaned_frame width merged))))
  else None.
Proof. unfold drop_first_five. by rewrite cleaned_frame_rows. Qed.

End AllahabadFacts.

(** ** Page ranges *)

Lemma range_from_elem (fuel : nat) (start stop step x : Z) :
  x ∈ range_from fuel start stop step →
  ∃ k, 0 ≤ k ∧ x = start + k * step ∧ x < stop.
Proof.
  revert start. induction fuel as [|fuel IH]; intros start; simpl.
  - by intros ?%elem_of_nil.
  - destruct (Z.ltb_spec start stop) as [Hlt|Hge]; [|by intros ?%elem_of_nil].
    intros [->|Hin]%elem_of_cons.
    + exists 0. lia.
    + destruct (IH _ Hin) as (k & Hk & -> & Hx). exists (k + 1). lia.
Qed.

Lemma range_from_complete (fuel : nat) (start stop step k : Z) :
  0 < step → 0 ≤ k → start + k * step < stop →
  (stop - start ≤ Z.of_nat fuel) →
  start + k * step ∈ range_from fuel start stop step.
Proof.
  intros Hstep. revert start k.
  induction fuel as [|fuel IH]; intros start k Hk Hlt Hfuel.
  - nia.
  - simpl. destruct (Z.ltb_spec start stop) as [Hs|Hs]; [|nia].
    destruct (decide (k = 0)) as [->|Hk0].
    + rewrite Z.mul_0_l, Z.add_0_r. apply elem_of_cons. by left.
    + apply elem_of_cons. right.
      replace (start + k * step) with ((start + step) + (k - 1) * step) by lia.
      apply IH; lia.
Qed.

Lemma page_bounds_elem (num_pages chunk_size : Z) (b : Z * Z) :
  b ∈ page_bounds num_pages chunk_size →
  ∃ k, 0 ≤ k ∧ b.1 = 2 + k * chunk_size ∧ b.1 < num_pages ∧
       b.2 = Z.min (b.1 + chunk_size - 1) num_pages.
Proof.
  unfold page_bounds. intros (start & -> & Hin)%list_elem_of_fmap.
  apply range_from_elem in Hin as (k & Hk & -> & Hlt). exists k. simpl. lia.
Qed.

(** The pages that the ranges of line 44 hold: all from 2 up to the page
    before the last, and the last one unless it would open a range. *)
Lemma page_bounds_cover (num_pages chunk_size p : Z) :
  0 < chunk_size →
  (∃ b, b ∈ page_bounds num_pages chunk_size ∧ in_chunk p b) ↔
  2 ≤ p ≤ num_pages ∧ (p < num_pages ∨ (num_pages - 2) mod chunk_size ≠ 0).
Proof.
  intros Hcs. unfold in_chunk. split.
  - intros (b & Hb & Hp1 & Hp2).
    apply page_bounds_elem in Hb as (k & Hk & H1 & Hlt & H2).
    split; [nia|]. destruct (decide (p < num_pages)); [by left | right].
    assert (p = num_pages) as -> by lia.
    intros Hmod. apply Z.mod_divide in Hmod as [q Hq]; [|lia].
    assert (k * chunk_size < q * chunk_size) by lia.
    assert (q * chunk_size ≤ k * chunk_size + chunk_size - 1) by lia.
    assert (k < q) by nia. nia.
  - intros [[Hp2 HpN] Hlast].
    set (k := (p - 2) / chunk_size).
    pose proof (Z.div_mod (p - 2) chunk_size ltac:(lia)) as Hdm.
    pose proof (Z.mod_pos_bound (p - 2) chunk_size Hcs) as Hmb.
    fold k in Hdm.
    assert (0 ≤ k) by (apply Z.div_pos; lia).
    assert (2 + k * chunk_size < num_pages) as Hstart.
    { destruct Hlast as [Hlt|Hmod]; [nia|].
      destruct (decide (p < num_pages)); [nia|].
      assert (p = num_pages) as -> by lia.
      assert ((num_pages - 2) mod chunk_size > 0) by lia. nia. }
    exists (2 + k * chunk_size,
            Z.min (2 + k * chunk_size + chunk_size - 1) num_pages).
    split.
    + unfold page_bounds. apply list_elem_of_fmap.
      exists (2 + k * chunk_size). split; [done|].
      unfold py_range. apply range_from_complete; lia.
    + simpl. nia.
Qed.

(** No range is longer than [chunk_size] pages. *)
Lemma page_bounds_span (num_pages chunk_size : Z) (b : Z * Z) :
  b ∈ page_bounds num_pages chunk_size → b.2 - b.1 + 1 ≤ chunk_size.
Proof. intros (k & Hk & H1 & Hlt & H2)%page_bounds_elem. lia. Qed.

(** ** Start rows *)

Lemma isdigit_strip_truthy (r0 : string) :
  PyStr.truthy r0 && PyStr.isdigit (PyStr.strip r0) =
  PyStr.isdigit (PyStr.strip r0).
Proof.
  destruct (PyStr.isdigit (PyStr.strip r0)) eqn:Hd; [|apply andb_false_r].
  rewrite andb_true_r. apply PyStrFacts.truthy_true. intros ->.
  by rewrite PyStrFacts.strip_empty in Hd.
Qed.

(** ** The watermark *)

Section FetchFacts.

Variable strptime : string → string → option Z.
Variable today : Z.

Lemma pdf_name_truthy (c : court) (text : string) :
  PyStr.truthy (pdf_name c text) = true.
Proof. by destruct c. Qed.

(** When the loop of [fetch_list] takes a document, the first entry is
    strictly newer than the watermark. *)
Lemma scan_first (c : court) (last_date : Z) (entries pdf_names : list string) :
  scan strptime c last_date entries = Some pdf_names → pdf_names ≠ [] →
  ∃ text rest d1 more,
    entries = text :: rest ∧
    strptime (entry_date_text c text) (date_format c) = Some d1 ∧
    last_date < d1 ∧ pdf_names = pdf_name c text :: more.
Proof.
  destruct entries as [|text rest]; simpl.
  { intros [= <-] Hne. by destruct Hne. }
  destruct (strptime _ _) as [d1|] eqn:Hd; simpl; [|done].
  destruct (Z.ltb_spec last_date d1) as [Hlt|Hge].
  2: { intros [= <-] Hne. by destruct Hne. }
  destruct (scan strptime c last_date rest) as [more|]; simpl; [|done].
  intros [= <-] _. by exists text, rest, d1, more.
Qed.

Lemma fetch_list_cases (c : court) (courts : gmap Z (option string))
    (page : list string) :
  fetch_list strptime today c courts page = (None, courts) ∨
  ∃ new_date d0 d1 pdf_names,
    head (listed c page) = Some new_date ∧
    read_last_date strptime today c courts = Some d0 ∧
    strptime (entry_date_text c new_date) (date_format c) = Some d1 ∧
    d0 < d1 ∧
    fetch_list strptime today c courts page =
      (Some (pdf_name c new_date :: pdf_names),
       alter (λ _, Some new_date) (court_id c) courts).
Proof.
  unfold fetch_list, fetch_list_body.
  destruct (read_last_date strptime today c courts) as [d0|]; simpl;
    [|by left].
  destruct (head (listed c page)) as [new_date|] eqn:Hhead; simpl; [|by left].
  destruct (scan strptime c d0 (listed c page)) as [pdf_names|] eqn:Hscan;
    simpl; [|by left].
  destruct pdf_names as [|f fs]; [by left|]. right.
  destruct (scan_first _ _ _ _ Hscan ltac:(done))
    as (text & rest & d1 & more & Hl & Hd & Hlt & [= -> ->]).
  rewrite Hl in Hhead. injection Hhead as <-.
  by exists text, d0, d1, more.
Qed.

End FetchFacts.

(** ** Further lemmas on the same functions *)

Module GauhatiMore.
Import Gauhati GauhatiFacts GauhatiLoop.

Lemma step_none_iff (st : state) (row : list string) :
  step st row = None ↔ gauhati_raises row.
Proof.
  unfold step, gauhati_raises, is_start, open_case.
  destruct row as [|r0 [|r1 row]]; simpl.
  - split; [by left | done].
  - destruct (PyStr.truthy r0 && PyStr.isdigit (PyStr.strip r0)); simpl.
    + split; [by right | done].
    + split; [done | by intros [? | [? _]]].
  - destruct (PyStr.truthy r0 && PyStr.isdigit (PyStr.strip r0)); simpl;
      (split; [done | by intros [? | [_ ?]]]).
Qed.

Lemma loop_none_iff (st : state) (data : list (list string)) :
  loop st data = None ↔ Exists gauhati_raises data.
Proof.
  revert st. induction data as [|row data IH]; intros st; simpl.
  - split; [done | by intros ?%Exists_nil].
  - rewrite Exists_cons. destruct (step st row) as [st1|] eqn:Hstep; simpl.
    + rewrite IH. split; [by right|]. intros [Hbad | H]; [|done].
      apply (step_none_iff st) in Hbad. congruence.
    + split; [|done]. intros _. left. by apply (step_none_iff st).
Qed.

Lemma step_skip (st : state) (row : list string) :
  is_start row = Some false → cell row 0 ≠ "" → step st row = Some st.
Proof.
  intros Hs Hne. rewrite (step_cont _ _ Hs). unfold absorb.
  apply String.eqb_neq in Hne. rewrite Hne.
  by destruct st as [cl [cur|]].
Qed.

Lemma absorb_first (cur row : list string) :
  cell (absorb cur row) 0 = cell cur 0.
Proof.
  destruct (absorb_grows cur row) as (_ & H0 & _). unfold cell. by rewrite H0.
Qed.

Lemma loop_firsts (st st' : state) (rows : list (list string)) :
  loop st rows = Some st' →
  (λ rec, cell rec 0) <$> flush st' =
  ((λ rec, cell rec 0) <$> flush st) ++ start_tokens rows.
Proof.
  revert st. induction rows as [|row rows IH]; intros st H; simpl in H.
  - injection H as <-. by rewrite app_nil_r.
  - destruct (step st row) as [st1|] eqn:Hstep; [|done]. simpl in H.
    rewrite (IH _ H). unfold start_tokens, start_token. simpl.
    unfold step in Hstep. destruct (is_start row) as [[|]|] eqn:Hs; [| |done].
    + destruct (open_case row) as [cur|] eqn:Ho; [|done]. simpl in Hstep.
      injection Hstep as <-.
      pose proof (open_case_first _ _ Ho) as H0.
      unfold is_start in Hs. destruct (row !! 0%nat) as [r0|]; [|done].
      simpl in *.
      change (flush (State (match current_case st with
                            | Some old => cleaned_data st ++ [old]
                            | None => cleaned_data st
                            end) (Some cur)))
        with (flush st ++ [cur]).
      rewrite fmap_app, <- app_assoc. simpl. unfold cell at 2. by rewrite H0.
    + injection Hstep as <-. f_equal. unfold flush. simpl.
      destruct (current_case st) as [cur|]; simpl; [|done].
      rewrite !fmap_app. f_equal. cbn [fmap list_fmap].
      by rewrite absorb_first.
Qed.

End GauhatiMore.

Module PyStrMore.
Import PyStr PyStrFacts.






Lemma split_nonempty (sep : ascii) (s : string) : split sep s ≠ [].
Proof.
  induction s as [|c s IH]; [done|]. simpl.
  destruct (Ascii.eqb c sep); [done|]. by destruct (split sep s).
Qed.

Lemma split_app_sep (sep : ascii) (a b : string) :
  split sep (a +:+ String sep b) = split sep a ++ split sep b.
Proof.
  induction a as [|c a IH].
  - change (split sep (String sep b) = [""] ++ split sep b). simpl.
    by rewrite Ascii.eqb_refl.
  - rewrite app_cons. simpl. rewrite IH.
    destruct (Ascii.eqb c sep); [done|].
    pose proof (split_nonempty sep a). by destruct (split sep a).
Qed.

Lemma split_no_sep (sep : ascii) (s : string) :
  all_chars (λ c, negb (Ascii.eqb c sep)) s = true → split sep s = [s].
Proof.
  induction s as [|c s IH]; [done|]. simpl.
  intros [Hc Hs]%andb_true_iff. rewrite (IH Hs).
  by apply negb_true_iff in Hc as ->.
Qed.

Lemma app_truthy (a b : string) : truthy a = true → truthy (a +:+ b) = true.
Proof. by destruct a. Qed.

End PyStrMore.

Module GauhatiAgain.
Import Gauhati GauhatiFacts GauhatiLoop.





Lemma merge_advocate_other (j k : nat) (cur row : list string) :
  j ≠ k → cell (merge_advocate k cur row) j = cell cur j.
Proof.
  intros Hjk. unfold merge_advocate.
  repeat case_match; try done; by rewrite cell_insert_ne.
Qed.

End GauhatiAgain.

Module NotifyMore.

Lemma dict_get_missing (fieldnames row : list string) (key : string) :
  key ∉ fieldnames → dict_get fieldnames row key = None.
Proof.
  revert row. induction fieldnames as [|f fs IH]; intros row Hk; [done|].
  simpl. apply not_elem_of_cons in Hk as [Hne Hin]. rewrite (IH _ Hin).
  apply not_eq_sym, String.eqb_neq in Hne. by rewrite Hne.
Qed.

Lemma parse_record_missing (fieldnames row : list string) (key : string) :
  key ∈ record_keys → key ∉ fieldnames → parse_record fieldnames row = None.
Proof.
  intros Hkey Hmiss. unfold parse_record, record_keys in *.
  repeat (apply elem_of_cons in Hkey as [-> | Hkey]);
    [..| by apply elem_of_nil in Hkey];
    rewrite (dict_get_missing _ _ _ Hmiss);
    repeat (match goal with
            | |- context [dict_get ?f ?r ?k] => destruct (dict_get f r k)
            end; simpl; try done).
Qed.




Lemma notify_spec (cases : gmap string (list detail))
    (case_no : option string) (pet resp : advocates) (parties : string) :
  notify cases case_no pet resp parties =
    if lookup_raises case_no then Outcome [Query case_no] true
    else Outcome (lookup_and_mails cases case_no pet resp parties) false.
Proof.
  unfold notify, get_user_detail, execute, lookup_raises, lookup_and_mails,
    watchers.
  destruct case_no as [c|]; [|done].
  destruct (has_nul c); [done|]. cbn [mbind option_bind].
  by destruct (default [] (cases !! c)).
Qed.

Lemma lookup_and_mails_linked (cases : gmap string (list detail))
    (case_no : option string) (pet resp : advocates) (parties : string) :
  Forall (mail_to_linked cases)
         (lookup_and_mails cases case_no pet resp parties).
Proof.
  unfold lookup_and_mails. apply Forall_cons. split; [done|].
  apply Forall_fmap, Forall_forall. intros d Hin.
  destruct case_no as [c|]; simpl in *; [|by apply elem_of_nil in Hin].
  destruct (cases !! c) as [ds|] eqn:Hc; simpl in Hin;
    [by exists ds | by apply elem_of_nil in Hin].
Qed.

Lemma notify_linked (cases : gmap string (list detail))
    (case_no : option string) (pet resp : advocates) (parties : string) :
  Forall (mail_to_linked cases)
         (events (notify cases case_no pet resp parties)).
Proof.
  rewrite notify_spec. destruct (lookup_raises case_no); simpl.
  - by repeat constructor.
  - apply lookup_and_mails_linked.
Qed.




(** A loop none of whose passes raises runs over all items. *)
Lemma for_each_no_raise {A : Type} (body : A → outcome) (items : list A) :
  Forall (λ x, raised (body x) = false) items →
  for_each body items =
    Outcome (concat ((λ x, events (body x)) <$> items)) false.
Proof.
  induction 1 as [|x items Hx _ IH]; [done|].
  cbn [for_each]. rewrite Hx, IH. done.
Qed.

(** A loop ends with the first pass that raises. *)
Lemma for_each_first_raise {A : Type} (body : A → outcome)
    (before after : list A) (x : A) :
  Forall (λ x, raised (body x) = false) before → raised (body x) = true →
  for_each body (before ++ x :: after) =
    Outcome (concat ((λ x, events (body x)) <$> before) ++ events (body x))
            true.
Proof.
  intros Hbefore Hx. induction Hbefore as [|y before Hy _ IH].
  - cbn [for_each app fmap list_fmap concat]. rewrite Hx.
    by destruct (body x) as [es r]; simpl in *; subst.
  - cbn [for_each app]. rewrite Hy, IH.
    cbn [events raised fmap list_fmap concat]. by rewrite (assoc (++)).
Qed.

Lemma for_each_Forall {A : Type} (P : event → Prop) (body : A → outcome)
    (items : list A) :
  (∀ x, Forall P (events (body x))) → Forall P (events (for_each body items)).
Proof.
  intros Hbody. induction items as [|x items IH]; [by constructor|].
  cbn [for_each]. destruct (raised (body x)); [apply Hbody|].
  cbn [events]. apply Forall_app. by split.
Qed.



End NotifyMore.

Module PatternFacts.
Import PyStr PyStrFacts.

Lemma span_split (p : ascii → bool) (s a r : string) :
  span p s = (a, r) → s = a +:+ r ∧ all_chars p a = true.
Proof.
  revert a r. induction s as [|c s IH]; intros a r; simpl.
  - by intros [= <- <-].
  - destruct (p c) eqn:Hc; [|by intros [= <- <-]].
    destruct (span p s) as [a' r'] eqn:Hs. intros [= <- <-].
    destruct (IH a' r' eq_refl) as [-> Ha]. split; [done|].
    simpl. by rewrite Hc.
Qed.

Lemma span_app (p : ascii → bool) (a : string) (c : ascii) (r : string) :
  all_chars p a = true → p c = false →
  span p (a +:+ String c r) = (a, String c r).
Proof.
  intros Ha Hc. induction a as [|x a IH].
  - change (span p (String c r) = ("", String c r)). simpl. by rewrite Hc.
  - simpl in Ha. apply andb_true_iff in Ha as [Hx Ha].
    rewrite app_cons. simpl. by rewrite Hx, (IH Ha).
Qed.

Lemma take_split (n : nat) (s : string) : ∃ q, s = take n s +:+ q.
Proof.
  revert s. induction n as [|n IH]; intros s; [by exists s|].
  destruct s as [|c s]; [by exists ""|]. simpl.
  destruct (IH s) as [q Hq]. exists q. by rewrite app_cons, <- Hq.
Qed.

Lemma take_app_length (y q : string) :
  take (String.length y) (y +:+ q) = y.
Proof.
  induction y as [|c y IH]; [done|]. rewrite app_cons. simpl. by rewrite IH.
Qed.

Lemma match_here_sound (s m : string) :
  match_here s = Some m → case_number_shape m ∧ ∃ q, s = m +:+ q.
Proof.
  unfold match_here.
  destruct (span is_upper_or_digit s) as [a r1] eqn:Ha.
  destruct (truthy a) eqn:Hat; [|done].
  destruct r1 as [|c1 r2]; [done|].
  destruct (Ascii.eqb_spec c1 "/") as [->|Hne].
  2: { destruct c1 as [[] [] [] [] [] [] [] []]; done. }
  destruct (span is_decimal r2) as [b r3] eqn:Hb.
  destruct (truthy b) eqn:Hbt; [|done].
  destruct r3 as [|c3 r4]; [done|].
  destruct (Ascii.eqb_spec c3 "/") as [->|Hne].
  2: { destruct c3 as [[] [] [] [] [] [] [] []]; done. }
  cbv zeta. remember (take 4 r4) as y eqn:Ey.
  destruct ((String.length y =? 4)%nat && all_chars is_decimal y) eqn:Hy;
    [|done].
  intros H. injection H as <-.
  apply andb_true_iff in Hy as [Hlen%Nat.eqb_eq Hyd].
  apply span_split in Ha as [-> Haa]. apply span_split in Hb as [-> Hbb].
  destruct (take_split 4 r4) as [q Hq]. rewrite <- Ey in Hq.
  split.
  - exists a, b, y. split_and!; try done.
    + by apply truthy_true.
    + by apply truthy_true.
  - exists q. rewrite Hq. by rewrite !app_assoc.
Qed.

Lemma match_here_complete (m q : string) :
  case_number_shape m → is_Some (match_here (m +:+ q)).
Proof.
  intros (a & b & y & -> & Ha & Haa & Hb & Hbb & Hy & Hyy).
  unfold match_here. rewrite !app_assoc.
  change (a +:+ "/" +:+ b +:+ "/" +:+ y +:+ q)
    with (a +:+ String "/" (b +:+ String "/" (y +:+ q))).
  rewrite (span_app _ a "/" _ Haa eq_refl).
  apply truthy_true in Ha. rewrite Ha.
  rewrite (span_app _ b "/" _ Hbb eq_refl).
  apply truthy_true in Hb. rewrite Hb.
  cbv zeta.
  replace (take 4 (y +:+ q)) with y by (by rewrite <- Hy, take_app_length).
  rewrite Hy, Hyy. simpl. eauto.
Qed.

Lemma re_search_sound (s m : string) :
  re_search s = Some m → case_number_shape m ∧ occurs_in m s.
Proof.
  induction s as [|c s IH]; [done|].
  cbn [re_search].
  - destruct (match_here (String c s)) as [m'|] eqn:Hm.
    + intros [= ->]. apply match_here_sound in Hm as [Hshape [q Hq]].
      split; [done|]. by exists "", q.
    + intros H. destruct (IH H) as [Hshape [p [q ->]]]. split; [done|].
      by exists (String c p), q.
Qed.

Lemma re_search_unfold (s : string) :
  re_search s =
  match match_here s with
  | Some m => Some m
  | None => match s with
            | EmptyString => None
            | String _ s' => re_search s'
            end
  end.
Proof. by destruct s. Qed.

Lemma re_search_complete (s m : string) :
  case_number_shape m → occurs_in m s → is_Some (re_search s).
Proof.
  intros Hshape (p & q & ->). induction p as [|c p IH].
  - change ("" +:+ m +:+ q) with (m +:+ q). rewrite re_search_unfold.
    destruct (match_here_complete m q Hshape) as [m' ->]. eauto.
  - rewrite app_cons, re_search_unfold.
    destruct (match_here (String c (p +:+ m +:+ q))); [eauto | done].
Qed.

Lemma find_case_none (i : nat) (cells : list string) (j : nat) :
  find_case i cells = (j, None) →
  j = (i + length cells)%nat ∧ Forall (λ c, re_search c = None) cells.
Proof.
  revert i. induction cells as [|c cells IH]; intros i; simpl.
  - intros [= <-]. split; [lia | done].
  - destruct (re_search c) as [m|] eqn:Hc; [done|]. intros H.
    destruct (IH _ H) as [-> Hall]. split; [lia|]. by apply Forall_cons.
Qed.

Lemma find_case_first (i k : nat) (cells : list string) (c m : string) :
  cells !! k = Some c → re_search c = Some m →
  (∀ k' c', (k' < k)%nat → cells !! k' = Some c' → re_search c' = None) →
  find_case i cells = ((i + k)%nat, Some m).
Proof.
  revert i k. induction cells as [|c0 cells IH]; intros i k Hk Hm Hbefore;
    [done|].
  destruct k as [|k]; simpl in *.
  - injection Hk as ->. by rewrite Hm, Nat.add_0_r.
  - rewrite (Hbefore 0%nat c0 ltac:(lia) eq_refl).
    replace (i + S k)%nat with (S i + k)%nat by lia.
    apply (IH (S i) k Hk Hm).
    intros k' c' Hlt Hc'. apply (Hbefore (S k') c'); [lia | done].
Qed.

End PatternFacts.

Module AllahabadMore.
Import Allahabad AllahabadFacts.

Lemma max_len_ge (rows : list (list string)) (row : list string) :
  row ∈ rows → (length row ≤ max_len rows)%nat.
Proof.
  unfold max_len. induction rows as [|r rows IH]; [by intros ?%elem_of_nil|].
  rewrite fmap_cons. cbn [foldr].
  intros [-> | Hin]%elem_of_cons; [lia|]. specialize (IH Hin). lia.
Qed.

Lemma max_len_le (rows : list (list string)) (n : nat) :
  Forall (λ r, (length r ≤ n)%nat) rows → (max_len rows ≤ n)%nat.
Proof.
  unfold max_len. induction 1 as [|r rows Hr _ IH]; [simpl; lia|].
  rewrite fmap_cons. cbn [foldr]. lia.
Qed.

Lemma length_pad (n : nat) (row : list string) :
  (length row ≤ n)%nat → length (pad n row) = n.
Proof. intros Hl. unfold pad. rewrite length_app, length_replicate. lia. Qed.

Lemma padded_width (rows : list (list string)) :
  Forall (λ r, length r = max_len rows) (pad (max_len rows) <$> rows).
Proof.
  apply Forall_fmap, Forall_forall. intros row Hin. simpl.
  apply length_pad. by apply max_len_ge.
Qed.

Lemma merge_cell_other (cur cur' : list string) (i j : nat) (c : string) :
  merge_cell cur i c = Some cur' → j ≠ i → cell cur' j = cell cur j.
Proof.
  unfold merge_cell. intros H Hji.
  destruct (PyStr.truthy (PyStr.strip c)); [|by injection H as <-].
  destruct (cur !! i) as [ci|]; [|done]. simpl in H. injection H as <-.
  case_match; by rewrite cell_insert_ne.
Qed.

Lemma merge_from_other (i j : nat) (cur cur' cells : list string) :
  merge_from i cur cells = Some cur' → (j < i)%nat → cell cur' j = cell cur j.
Proof.
  revert i cur. induction cells as [|c cells IH]; intros i cur H Hji;
    simpl in H.
  - by injection H as <-.
  - destruct (merge_cell cur i c) as [cur1|] eqn:Hc; [|done]. simpl in H.
    rewrite (IH _ _ H) by lia. apply (merge_cell_other _ _ _ _ _ Hc). lia.
Qed.

(** Merging a row that is not a start row keeps the leading cell. *)
Lemma merge_row_head (cur cur' row : list string) :
  is_start row = Some false → merge_row cur row = Some cur' →
  cell cur' 0 = cell cur 0.
Proof.
  unfold is_start, merge_row. destruct row as [|r0 row]; [done|]. simpl.
  intros [= Hr0]. unfold merge_cell. rewrite Hr0. simpl.
  intros H. apply (merge_from_other _ _ _ _ _ H). lia.
Qed.

Lemma loop_heads (m : list (list string)) (cur : list string) (st' : state)
    (rows : list (list string)) :
  loop (State m (Some cur)) rows = Some st' →
  (λ r, cell r 0) <$> flush st' =
  ((λ r, cell r 0) <$> (m ++ [cur])) ++ omap opens_record rows.
Proof.
  revert m cur. induction rows as [|row rows IH]; intros m cur H; simpl in H.
  - injection H as <-. by rewrite app_nil_r.
  - unfold step in H. cbn [current merged_rows] in H.
    change (omap opens_record (row :: rows))
      with (match opens_record row with
            | Some x => x :: omap opens_record rows
            | None => omap opens_record rows
            end).
    destruct (is_start row) as [[|]|] eqn:Hs; [| |done].
    + assert (opens_record row = Some (cell row 0)) as ->
        by (unfold opens_record; by rewrite Hs).
      simpl in H. rewrite (IH _ _ H).
      rewrite (fmap_app _ (m ++ [cur])), <- app_assoc. done.
    + assert (opens_record row = None) as ->
        by (unfold opens_record; by rewrite Hs).
      destruct (merge_row cur row) as [cur1|] eqn:Hm; [|done]. simpl in H.
      rewrite (IH _ _ H). rewrite !fmap_app. cbn [fmap list_fmap].
      by rewrite (merge_row_head _ _ _ Hs Hm).
Qed.

Lemma non_empty_values_length (cols : list nat) (row : list string) :
  (length (non_empty_values cols row) ≤ length cols)%nat.
Proof.
  unfold non_empty_values. etrans; [apply length_filter|].
  by rewrite length_fmap.
Qed.

Lemma non_empty_values_not_blank (cols : list nat) (row : list string) :
  Forall (λ v, ¬ blank v) (non_empty_values cols row).
Proof.
  apply Forall_forall. intros v [Hv _]%list_elem_of_filter. unfold blank.
  by rewrite Hv.
Qed.

(** The rows of the cleaned frame: the values that are not blank, then
    empty cells up to the common width, which is no more than the number of
    columns kept. *)
Lemma cleaned_frame_row (width : nat) (merged : list (list string))
    (row : list string) :
  row ∈ rows (cleaned_frame width merged) →
  ∃ vals k,
    row = vals ++ replicate k "" ∧ Forall (λ v, ¬ blank v) vals ∧
    length row = length (columns (cleaned_frame width merged)).
Proof.
  unfold cleaned_frame. cbn [rows columns].
  set (cols := column_names width merged).
  set (cleaned := non_empty_values cols <$> merged).
  set (n := max_len cleaned).
  assert (n ≤ length cols)%nat as Hn.
  { apply max_len_le, Forall_fmap, Forall_forall. intros r _.
    apply non_empty_values_length. }
  intros (padded & -> & (vals & -> & Hin)%list_elem_of_fmap)%list_elem_of_fmap.
  assert (length vals ≤ n)%nat as Hv by (by apply max_len_ge).
  rewrite take_ge by (rewrite length_pad; lia).
  exists vals, (n - length vals)%nat. split_and!; [done | |].
  - apply list_elem_of_fmap in Hin as (mrow & -> & _).
    apply non_empty_values_not_blank.
  - rewrite length_pad by done. case_decide; [done|].
    rewrite length_seq. lia.
Qed.

Lemma written_frame (file : list (list string)) (ret : retval) (df : frame) :
  clean_csv file = (ret, Some df) →
  ∃ merged,
    columns df = columns (cleaned_frame (max_len file) merged) ∧
    rows df = drop 5 (rows (cleaned_frame (max_len file) merged)).
Proof.
  unfold clean_csv. destruct file as [|row0 file']; [done|].
  set (file := row0 :: file').
  destruct (merged_of file) as [merged|]; cbn [mbind option_bind]; [|done].
  rewrite drop_first_five_cleaned. case_decide; [|done].
  intros [= _ <-]. by exists merged.
Qed.

End AllahabadMore.

Module PipelineMore.

Lemma page_ranges_small (num_pages chunk_size : Z) :
  num_pages ≤ 2 → page_ranges num_pages chunk_size = [].
Proof.
  intros Hn. unfold page_ranges, page_bounds, py_range.
  by replace (Z.to_nat (num_pages - 2)) with 0%nat by lia.
Qed.

Lemma omap_all_none {A B : Type} (f : A → option B) (l : list A) :
  (∀ x, f x = None) → omap id (f <$> l) = [].
Proof.
  intros Hf. induction l as [|x l IH]; [done|]. simpl. by rewrite Hf.
Qed.

Lemma to_csv_width (rows : list (list string)) :
  Forall (λ r, length r = max_len rows) (to_csv rows).
Proof.
  unfold to_csv. apply Forall_cons. split.
  - by rewrite length_fmap, length_seq.
  - apply AllahabadMore.padded_width.
Qed.

End PipelineMore.

Module FetchMore.

Lemma scan_prefix (strptime : string → string → option Z) (c : court)
    (last dx : Z) (newer later : list string) (x : string) :
  Forall (newer_than strptime c last) newer →
  strptime (entry_date_text c x) (date_format c) = Some dx → dx ≤ last →
  scan strptime c last (newer ++ x :: later) = Some (pdf_name c <$> newer).
Proof.
  intros Hnewer Hx Hdx. induction Hnewer as [|text newer (d & Hd & Hlt) _ IH].
  - simpl. rewrite Hx. simpl.
    by destruct (Z.ltb_spec last dx); [lia|].
  - simpl. rewrite Hd. simpl.
    destruct (Z.ltb_spec last d); [|lia]. by rewrite IH.
Qed.

Lemma fetch_list_other (strptime : string → string → option Z) (today : Z)
    (c : court) (courts : gmap Z (option string)) (page : list string)
    (j : Z) :
  j ≠ court_id c →
  (fetch_list strptime today c courts page).2 !! j = courts !! j.
Proof.
  intros Hj.
  destruct (fetch_list_cases strptime today c courts page)
    as [-> | (new_date & d0 & d1 & pdfs & _ & _ & _ & _ & ->)]; [done|].
  simpl. by rewrite lookup_alter_ne.
Qed.



End FetchMore.

Module GauhatiKept.
Import Gauhati GauhatiFacts.

Lemma contains_empty (t : string) :
  t ≠ "" → PyStr.contains t "" = false.
Proof. by destruct t. Qed.

Lemma has_cell_contains (row : list string) (k : nat) (t : string) :
  t ≠ "" → PyStr.contains t (cell row k) = true → has_cell row k = true.
Proof.
  intros Ht Hc. unfold has_cell, cell in *.
  destruct (row !! k) as [c|].
  - change (default "" (Some c)) with c in Hc.
    apply PyStrFacts.truthy_true. intros ->.
    by rewrite contains_empty in Hc.
  - change (default "" None) with "" in Hc.
    by rewrite contains_empty in Hc.
Qed.

(** The party cell of an absorbed row is in the parties afterwards, unless
    the row is one that the [if]/[elif] chain sets aside. *)
Lemma merge_head_holds_party (cur row : list string) (c : string) :
  (2 < length cur)%nat → row !! 2%nat = Some c →
  PyStr.contains "Versus" (cell row 2) = false →
  PyStr.contains "WITH" (cell row 1) = false →
  PyStr.contains "in " (cell row 1) = false →
  PyStr.occurs_in (PyStr.strip c) (cell (merge_head cur row) 2).
Proof.
  intros Hl Hc Hv Hw Hi. unfold merge_head. rewrite Hv, Hw, Hi, !andb_false_r.
  assert (cell row 2 = c) as Hcell by (unfold cell; by rewrite Hc).
  destruct (has_cell row 2) eqn:Hhas.
  - rewrite Hcell.
    repeat case_match; rewrite cell_insert_eq by done;
      repeat apply PyStrFacts.occurs_in_app_l; apply PyStrFacts.occurs_in_refl.
  - rewrite (has_cell_false _ _ _ Hhas Hc). apply PyStrFacts.occurs_in_empty.
Qed.

(** The case cell of an absorbed row is in the case number afterwards when
    it holds "in " and the record has a case number, unless the row is one
    that the chain sets aside. *)
Lemma merge_head_holds_case (cur row : list string) (c : string) :
  (1 < length cur)%nat → row !! 1%nat = Some c →
  PyStr.contains "Versus" (cell row 2) = false →
  PyStr.contains "WITH" (cell row 1) = false →
  PyStr.contains "in " (cell row 1) = true →
  cell cur 1 ≠ "" →
  PyStr.occurs_in (PyStr.strip c) (cell (merge_head cur row) 1).
Proof.
  intros Hl Hc Hv Hw Hi Hcur. unfold merge_head.
  rewrite Hv, Hw, Hi, !andb_false_r.
  rewrite (has_cell_contains row 1 "in ") by done. cbn [andb].
  apply PyStrFacts.truthy_true in Hcur. rewrite Hcur.
  assert (cell row 1 = c) as -> by (unfold cell; by rewrite Hc).
  rewrite cell_insert_eq by done.
  repeat apply PyStrFacts.occurs_in_app_l. apply PyStrFacts.occurs_in_refl.
Qed.

Lemma grows_nonempty (cur cur' : list string) (k : nat) :
  grows cur cur' → cell cur k ≠ "" → cell cur' k ≠ "".
Proof.
  intros (_ & _ & Hocc) Hne He.
  specialize (Hocc k (cell cur k) (PyStrFacts.occurs_in_refl _)).
  rewrite He in Hocc. by apply PyStrFacts.occurs_in_of_empty in Hocc.
Qed.

Lemma open_case_second (row cur : list string) :
  open_case row = Some cur → cell cur 1 = PyStr.strip (cell row 1).
Proof.
  unfold open_case. intros H.
  destruct (row !! 0%nat) as [r0|] eqn:H0; [|done].
  destruct (row !! 1%nat) as [r1|] eqn:H1; [|done].
  simpl in H. injection H as <-.
  unfold cell. rewrite !set_if_present_ne by done. by rewrite H1.
Qed.

(** What occurs in a field after a row was absorbed occurs in the field of
    the record that the loop emits. *)
Lemma merge_row_after_head (cur row : list string) (k : nat) (t : string) :
  PyStr.occurs_in t (cell (merge_head cur row) k) →
  PyStr.occurs_in t (cell (merge_row cur row) k).
Proof.
  intros H. unfold merge_row.
  apply merge_advocate_grows; [done|]. by apply merge_advocate_grows.
Qed.

End GauhatiKept.

Module AllahabadWritten.
Import Allahabad AllahabadFacts AllahabadMore.

Lemma merge_cell_length (cur cur' : list string) (i : nat) (c : string) :
  merge_cell cur i c = Some cur' → length cur' = length cur.
Proof.
  unfold merge_cell. destruct (PyStr.truthy (PyStr.strip c));
    [|by intros [= <-]].
  destruct (cur !! i) as [ci|]; [|done]. simpl. intros [= <-].
  case_match; apply length_insert.
Qed.

Lemma merge_from_length (i : nat) (cur cur' cells : list string) :
  merge_from i cur cells = Some cur' → length cur' = length cur.
Proof.
  revert i cur. induction cells as [|c cells IH]; intros i cur H; simpl in H.
  - by injection H as <-.
  - destruct (merge_cell cur i c) as [cur1|] eqn:Hc; [|done]. simpl in H.
    rewrite (IH _ _ H). by eapply merge_cell_length.
Qed.

(** The rows that the loop has emitted and the open record keep the width
    of the input rows. *)
Lemma loop_widths (w : nat) (st st' : state) (data : list (list string)) :
  Forall (λ r, length r = w) data →
  Forall (λ r, length r = w) (merged_rows st) → wide w st →
  loop st data = Some st' →
  Forall (λ r, length r = w) (merged_rows st') ∧ wide w st'.
Proof.
  intros Hdata. revert st.
  induction Hdata as [|row data Hrow _ IH]; intros st Hm Hc H; simpl in H.
  - by injection H as <-.
  - destruct (step st row) as [st1|] eqn:Hst; [|done]. simpl in H.
    apply (IH st1); [| |done]; unfold step in Hst;
      destruct (is_start row) as [[|]|]; try done.
    + injection Hst as <-. cbn [merged_rows].
      destruct (current st) as [old|] eqn:Ho; [|done].
      apply Forall_app. split; [done|]. apply Forall_singleton. by apply Hc.
    + destruct (current st) as [cur|] eqn:Ho.
      * destruct (merge_row cur row) as [cur'|]; [|done].
        by injection Hst as <-.
      * by injection Hst as <-.
    + injection Hst as <-. by intros cur [= <-].
    + destruct (current st) as [cur|] eqn:Ho.
      * destruct (merge_row cur row) as [cur'|] eqn:Hmr; [|done].
        injection Hst as <-. intros cur0 [= <-].
        unfold merge_row in Hmr. rewrite (merge_from_length _ _ _ _ Hmr).
        by apply Hc.
      * injection Hst as <-. by intros cur [= <-].
Qed.

Lemma merge_width (w : nat) (data merged : list (list string)) :
  Forall (λ r, length r = w) data → merge data = Some merged →
  Forall (λ r, length r = w) merged.
Proof.
  unfold merge. intros Hdata H.
  destruct (loop (State [] None) data) as [st|] eqn:Hl; [|done].
  simpl in H. injection H as <-.
  destruct (loop_widths w (State [] None) st data Hdata) as [Hm Hc];
    [by constructor | done | done |].
  unfold flush. destruct (current st) as [cur|] eqn:Ho; [|done].
  apply Forall_app. split; [done|]. apply Forall_singleton. by apply Hc.
Qed.

Lemma merged_of_width (file merged : list (list string)) :
  merged_of file = Some merged →
  Forall (λ r, length r = max_len file) merged.
Proof. apply merge_width, padded_width. Qed.

(** Rows of one width are their own padding. *)
Lemma max_len_uniform (w : nat) (rows : list (list string)) :
  rows ≠ [] → Forall (λ r, length r = w) rows → max_len rows = w.
Proof.
  intros Hne Hall. apply Nat.le_antisymm.
  - apply max_len_le. eapply Forall_impl; [done|]. simpl. lia.
  - destruct rows as [|row rows]; [done|].
    apply Forall_cons in Hall as [<- _]. apply max_len_ge. set_solver.
Qed.

Lemma pad_uniform (w : nat) (rows : list (list string)) :
  Forall (λ r, length r = w) rows → pad w <$> rows = rows.
Proof.
  induction 1 as [|row rows Hrow _ IH]; [done|].
  rewrite fmap_cons, IH. f_equal. unfold pad.
  rewrite Hrow, Nat.sub_diag. apply app_nil_r.
Qed.

Lemma merged_of_uniform (w : nat) (rows : list (list string)) :
  Forall (λ r, length r = w) rows → merged_of rows = merge rows.
Proof.
  intros Hall. unfold merged_of. destruct rows as [|row rows]; [done|].
  rewrite (max_len_uniform w) by done. by rewrite pad_uniform.
Qed.

(** ** The non-blank values of the rows of the cleaned frame *)

Lemma cells_of_row (row : list string) :
  (λ j, cell row j) <$> seq 0 (length row) = row.
Proof.
  apply list_eq. intros i. rewrite list_lookup_fmap.
  destruct (decide (i < length row)%nat) as [Hlt|Hge].
  - rewrite lookup_seq_lt by done. simpl. unfold cell.
    by destruct (lookup_lt_is_Some_2 row i Hlt) as [x ->].
  - rewrite lookup_seq_ge by lia. simpl. symmetry.
    apply lookup_ge_None. lia.
Qed.

Lemma filter_fmap_filter {A B : Type} (P : B → Prop) (Q : A → Prop)
    `{!∀ x, Decision (P x)} `{!∀ x, Decision (Q x)} (f : A → B)
    (l : list A) :
  (∀ x, x ∈ l → ¬ Q x → ¬ P (f x)) →
  filter P (f <$> filter Q l) = filter P (f <$> l).
Proof.
  induction l as [|x l IH]; intros Hall; [done|].
  assert (filter P (f <$> filter Q l) = filter P (f <$> l)) as IH'
    by (apply IH; intros y Hy; apply Hall; set_solver).
  destruct (decide (Q x)) as [HQ|HQ].
  - rewrite filter_cons_True by done. rewrite !fmap_cons.
    destruct (decide (P (f x))).
    + rewrite !filter_cons_True by done. by rewrite IH'.
    + rewrite !filter_cons_False by done. by rewrite IH'.
  - rewrite filter_cons_False by done. rewrite fmap_cons.
    rewrite filter_cons_False; [done|]. apply Hall; [set_solver | done].
Qed.

Lemma existsb_false_elem {A : Type} (p : A → bool) (l : list A) (x : A) :
  existsb p l ≠ true → x ∈ l → p x = false.
Proof.
  induction l as [|y l IH]; intros H Hin; [by apply elem_of_nil in Hin|].
  simpl in H. apply elem_of_cons in Hin as [-> | Hin].
  - destruct (p y); [done|done].
  - apply IH; [|done]. destruct (p y); [done|done].
Qed.

(** The values that are not blank of a merged row are those of its kept
    columns: a column is dropped when it is empty in every row. *)
Lemma non_empty_values_all (width : nat) (merged : list (list string))
    (row : list string) :
  row ∈ merged → length row = width →
  non_empty_values (column_names width merged) row = values row.
Proof.
  intros Hin Hlen. unfold non_empty_values, column_names, values.
  rewrite (filter_fmap_filter _ _ (λ j, cell row j)).
  - by rewrite <- Hlen, cells_of_row.
  - intros j _ Hj Hv. apply (existsb_false_elem _ _ row) in Hj; [|done].
    simpl in Hj. apply PyStrFacts.truthy_false in Hj. rewrite Hj in Hv.
    done.
Qed.

Lemma values_of_values (row : list string) : values (values row) = values row.
Proof.
  unfold values. induction row as [|v row IH]; [done|].
  destruct (decide (PyStr.truthy (PyStr.strip v) = true)) as [Hv|Hv].
  - rewrite filter_cons_True by done. rewrite filter_cons_True by done.
    by rewrite IH.
  - by rewrite filter_cons_False by done.
Qed.

Lemma values_padded (row : list string) (k : nat) :
  values (row ++ replicate k "") = values row.
Proof.
  unfold values. rewrite filter_app.
  assert (filter (λ v, PyStr.truthy (PyStr.strip v) = true)
            (replicate k "") = []) as ->.
  { induction k as [|k IH]; [done|]. simpl.
    by rewrite filter_cons_False. }
  apply app_nil_r.
Qed.

(** The cleaned frame has one row for each merged row, with the same
    values that are not blank, in the same order. *)
Lemma cleaned_frame_values (width : nat) (merged : list (list string)) :
  Forall (λ r, length r = width) merged →
  values <$> rows (cleaned_frame width merged) = values <$> merged.
Proof.
  intros Hw. unfold cleaned_frame. cbn [rows].
  set (cols := column_names width merged).
  set (cleaned := non_empty_values cols <$> merged).
  set (n := max_len cleaned).
  assert (n ≤ length cols)%nat as Hn.
  { apply max_len_le, Forall_fmap, Forall_forall. intros r _.
    apply non_empty_values_length. }
  unfold cleaned. rewrite <- !list_fmap_compose.
  apply Forall_fmap_ext, Forall_forall. intros row Hin. simpl.
  assert (length (non_empty_values cols row) ≤ n)%nat as Hv.
  { apply max_len_ge. unfold cleaned. apply list_elem_of_fmap. eauto. }
  rewrite take_ge by (rewrite length_pad; lia).
  unfold pad. rewrite values_padded. unfold cols.
  rewrite (non_empty_values_all width merged row Hin).
  - apply values_of_values.
  - rewrite Forall_forall in Hw. by apply Hw.
Qed.

(** [clean_csv] on a file that is not empty and whose merging gives the
    rows [merged]. *)
Lemma clean_csv_merged (file merged : list (list string)) :
  file ≠ [] → merged_of file = Some merged →
  clean_csv file =
    if decide (5 ≤ length merged)%nat
    then (RetTrue,
          Some (Frame (columns (cleaned_frame (max_len file) merged))
                      (drop 5 (rows (cleaned_frame (max_len file) merged)))))
    else (RetNone, None).
Proof.
  intros Hne Hm. unfold clean_csv. destruct file as [|row0 file']; [done|].
  rewrite Hm. cbn [mbind option_bind]. rewrite drop_first_five_cleaned.
  by case_decide.
Qed.

(** When [clean_csv] writes, the rows written hold the values that are not
    blank of the merged rows without the first five. *)
Lemma clean_csv_written (file merged : list (list string)) :
  file ≠ [] → merged_of file = Some merged → (5 ≤ length merged)%nat →
  ∃ df, clean_csv file = (RetTrue, Some df) ∧
        values <$> rows df = values <$> drop 5 merged.
Proof.
  intros Hne Hm H5. rewrite (clean_csv_merged _ _ Hne Hm).
  rewrite decide_True by done. eexists. split; [done|].
  change (rows (Frame ?a ?b)) with b.
  rewrite !fmap_drop. f_equal. apply cleaned_frame_values.
  by apply merged_of_width.
Qed.

Lemma clean_csv_nothing (file merged : list (list string)) :
  file ≠ [] → merged_of file = Some merged → (length merged < 5)%nat →
  clean_csv file = (RetNone, None).
Proof.
  intros Hne Hm H5. rewrite (clean_csv_merged _ _ Hne Hm).
  by rewrite decide_False by lia.
Qed.

End AllahabadWritten.

Module AllahabadTail.
Import Allahabad AllahabadFacts AllahabadMore AllahabadWritten.

(** The rows before the first start row make one record, ahead of the
    records of the rest, which are as they are without these rows. *)
Lemma merge_preamble (c : list string) (conts rest : list (list string))
    (rec : list string) (out : list (list string)) :
  Forall (λ r, is_start r = Some false) (c :: conts) →
  (rest = [] ∨ ∃ s rest', rest = s :: rest' ∧ is_start s = Some true) →
  merge_all c conts = Some rec →
  merge rest = Some out →
  merge ((c :: conts) ++ rest) = Some (rec :: out).
Proof.
  intros [Hc Hconts]%Forall_cons Hrest Hrec Hout.
  unfold merge in *. simpl.
  rewrite (merge_step_first _ _ Hc). simpl.
  rewrite merge_loop_app, (merge_loop_conts _ _ _ Hconts).
  rewrite Hrec. simpl. destruct Hrest as [->|(s & rest' & -> & Hs)].
  + simpl in *. by injection Hout as <-.
  + simpl in *. rewrite (merge_step_start _ _ Hs) in Hout.
    rewrite (merge_step_start _ _ Hs). simpl in *.
    pose proof (merge_loop_frame [rec] [] (Some s) rest') as Hf.
    simpl in Hf.
    change (flush (State [] None)) with (@nil (list string)) in Hout.
    change (flush (State [] (Some ?x))) with [x].
    rewrite Hf.
    destruct (loop _ rest') as [st|]; [|done]. simpl in *.
    injection Hout as <-. f_equal.
    apply (merge_flush_frame [rec] st).
Qed.

(** Rows of one width, of one cell or more, merge without an exception. *)
Lemma merge_total (w : nat) (data : list (list string)) :
  (1 ≤ w)%nat → Forall (λ r, length r = w) data → is_Some (merge data).
Proof.
  intros Hw Hdata. unfold merge.
  destruct (merge_loop_total w (State [] None) data Hw Hdata) as (st & -> & _);
    [done|]. by eexists.
Qed.

(** The record that is open at the end of the input is the last of the
    merged rows. *)
Lemma merge_open_last (w : nat) (pre conts : list (list string))
    (s : list string) :
  (1 ≤ w)%nat → Forall (λ r, length r = w) (pre ++ s :: conts) →
  is_start s = Some true →
  Forall (λ r, is_start r = Some false) conts →
  ∃ front rec,
    merge_all s conts = Some rec ∧
    merge (pre ++ s :: conts) = Some (front ++ [rec]).
Proof.
  intros Hw [Hpre [Hsw Hcw]%Forall_cons]%Forall_app Hs Hconts.
  destruct (merge_loop_total w (State [] None) pre Hw Hpre)
    as (st1 & Hst1 & _); [done|].
  destruct (merge_all_total w s conts Hsw Hcw) as (rec & Hrec & _).
  exists (flush st1), rec. split; [done|].
  unfold merge. rewrite merge_loop_app, Hst1. simpl.
  rewrite (merge_step_start _ _ Hs). simpl.
  by rewrite (merge_loop_conts _ s _ Hconts), Hrec.
Qed.

End AllahabadTail.

Module LookupFacts.
Import PyStr PyStrFacts.

Lemma all_chars_app (p : ascii → bool) (a b : string) :
  all_chars p (a +:+ b) = all_chars p a && all_chars p b.
Proof.
  induction a as [|c a IH]; [done|]. rewrite app_cons. simpl.
  by rewrite IH, andb_assoc.
Qed.

Lemma all_chars_impl (p q : ascii → bool) (s : string) :
  (∀ c, p c = true → q c = true) →
  all_chars p s = true → all_chars q s = true.
Proof.
  intros Hpq. induction s as [|c s IH]; [done|]. simpl.
  intros [Hc Hs]%andb_true_iff. by rewrite (Hpq c Hc), IH.
Qed.

Lemma upper_or_digit_not_nul (c : ascii) :
  is_upper_or_digit c = true → negb (Ascii.eqb c Ascii.zero) = true.
Proof. destruct c as [[] [] [] [] [] [] [] []]; by vm_compute. Qed.

Lemma decimal_not_nul (c : ascii) :
  is_decimal c = true → negb (Ascii.eqb c Ascii.zero) = true.
Proof. destruct c as [[] [] [] [] [] [] [] []]; by vm_compute. Qed.

(** A text of the form of a case number holds no NUL. *)
Lemma shape_no_nul (m : string) : case_number_shape m → has_nul m = false.
Proof.
  intros (a & b & y & -> & _ & Ha & _ & Hb & _ & Hy). unfold has_nul.
  apply negb_false_iff.
  apply (all_chars_impl _ _ _ upper_or_digit_not_nul) in Ha.
  apply (all_chars_impl _ _ _ decimal_not_nul) in Hb.
  apply (all_chars_impl _ _ _ decimal_not_nul) in Hy.
  rewrite !all_chars_app, Ha, Hb, Hy. done.
Qed.

(** The lookups of [Allahabad_court.process_csv] do not raise. *)
Lemma find_case_no_raise (i : nat) (row : list string) :
  lookup_raises (find_case i row).2 = false.
Proof.
  revert i. induction row as [|c row IH]; intros i; [done|]. simpl.
  destruct (re_search c) as [m|] eqn:Hm; [|apply IH]. simpl.
  apply shape_no_nul. by apply PatternFacts.re_search_sound in Hm as [? _].
Qed.

Lemma allahabad_row_spec (cases : gmap string (list detail))
    (row : list string) :
  allahabad_row cases row = Outcome (row_events cases row) false.
Proof.
  unfold allahabad_row, row_events, cell_or_empty.
  pose proof (find_case_no_raise 0 row) as Hno.
  destruct (find_case 0 row) as [i case_no]. simpl in *.
  by rewrite NotifyMore.notify_spec, Hno.
Qed.

Lemma notify_record_spec (cases : gmap string (list detail)) (r : record) :
  notify_record cases r =
    if has_nul (case_number r)
    then Outcome [Query (Some (case_number r))] true
    else Outcome (record_events cases r) false.
Proof. unfold notify_record. by rewrite NotifyMore.notify_spec. Qed.

Lemma notify_record_raised (cases : gmap string (list detail)) (r : record) :
  raised (notify_record cases r) = has_nul (case_number r).
Proof. rewrite notify_record_spec. by destruct (has_nul (case_number r)). Qed.

Lemma notify_record_events (cases : gmap string (list detail)) (r : record) :
  has_nul (case_number r) = false →
  events (notify_record cases r) = record_events cases r.
Proof. intros H. by rewrite notify_record_spec, H. Qed.

Lemma process_csv_all (cases : gmap string (list detail))
    (file : list (list string)) :
  Forall (λ r, has_nul (case_number r) = false) (records_of file) →
  process_csv cases file = concat (record_events cases <$> records_of file).
Proof.
  intros Hno. unfold process_csv. rewrite NotifyMore.for_each_no_raise.
  - cbn [events]. f_equal. apply Forall_fmap_ext.
    eapply Forall_impl; [done|]. intros r Hr. simpl.
    by apply notify_record_events.
  - eapply Forall_impl; [done|]. intros r Hr. simpl.
    by rewrite notify_record_raised.
Qed.

Lemma process_csv_stops (cases : gmap string (list detail))
    (file : list (list string)) (before after : list record) (r : record) :
  records_of file = before ++ r :: after →
  Forall (λ r, has_nul (case_number r) = false) before →
  has_nul (case_number r) = true →
  process_csv cases file =
    concat (record_events cases <$> before) ++ [Query (Some (case_number r))].
Proof.
  intros Hfile Hno Hr. unfold process_csv.
  rewrite Hfile, NotifyMore.for_each_first_raise.
  - cbn [events]. rewrite notify_record_spec, Hr. cbn [events]. f_equal.
    f_equal. apply Forall_fmap_ext.
    eapply Forall_impl; [done|]. intros r0 Hr0. simpl.
    by apply notify_record_events.
  - eapply Forall_impl; [done|]. intros r0 Hr0. simpl.
    by rewrite notify_record_raised.
  - by rewrite notify_record_raised.
Qed.

Lemma allahabad_process_csv_all (cases : gmap string (list detail))
    (file : list (list string)) :
  allahabad_process_csv_outcome cases file =
    Outcome (concat (row_events cases <$> drop 1 file)) false.
Proof.
  unfold allahabad_process_csv_outcome.
  rewrite NotifyMore.for_each_no_raise.
  - f_equal. f_equal. apply Forall_fmap_ext, Forall_forall. intros row _.
    by rewrite allahabad_row_spec.
  - apply Forall_forall. intros row _. by rewrite allahabad_row_spec.
Qed.

End LookupFacts.

(** * The claims *)

(** C1, counterexample. The stored watermark is 01/01/2025 and the list of
    the Gauhati court shows one entry, of 02/01/2025, whose document has one
    page. The run downloads it, [process_pdf] skips it and no record is
    produced, and the watermark is 02/01/2025 after the run. *)
Lemma watermark_advances_without_record :
  let r := run_court strptime_sample 739252 ∅ one_page_documents Gauhati_court
             {[ 1 := Some "01/01/2025" ]} ["Date"; "02/01/2025"] in
  r.2 = [("temp_pdf\02_01_2025.pdf", None)] ∧
  Forall (λ o, records_produced o.2 = []) r.2 ∧
  r.1 !! 1 = Some (Some "02/01/2025") ∧
  ¬ (r.1 !! 1 ≠ ({[ 1 := Some "01/01/2025" ]} : gmap Z (option string)) !! 1 →
     Exists (λ o, records_produced o.2 ≠ []) r.2).
Proof.
  assert (run_court strptime_sample 739252 ∅ one_page_documents Gauhati_court
            {[ 1 := Some "01/01/2025" ]} ["Date"; "02/01/2025"]
          = (alter (λ _, Some "02/01/2025") 1 {[ 1 := Some "01/01/2025" ]},
             [("temp_pdf\02_01_2025.pdf", None)])) as ->
    by (vm_compute; reflexivity).
  cbn zeta. cbn [fst snd]. rewrite lookup_alter_eq, lookup_singleton_eq.
  split_and!; [done | by repeat constructor | done |].
  intros H. specialize (H ltac:(done)).
  apply Exists_cons in H as [H | H]; [by apply H | by apply Exists_nil in H].
Qed.

(** C1, amended. A run of a court either leaves the table of watermarks as it
    was, and then no document was taken, or sets the watermark of the court
    to the text of the first listed entry. It does the latter exactly when
    the scan took at least one document, which then is processed, whether or
    not the processing gives a record; the date of that entry is strictly
    later than the watermark read before the run (today, when none is
    stored). Read back, the new watermark is that date, so the watermark
    never moves back: for Allahabad always, for Gauhati when the text of the
    entry is no longer than the ten characters that are parsed as its date. *)
Theorem watermark_after_run (strptime : string → string → option Z) (today : Z)
    (cases : gmap string (list detail)) (docs : documents) (c : court)
    (courts : gmap Z (option string)) (page : list string) :
  let r := run_court strptime today cases docs c courts page in
  (r.1 = courts ∧ r.2 = []) ∨
  (∃ new_date d0 d1,
     head (listed c page) = Some new_date ∧
     watermark strptime today c courts = Some d0 ∧
     strptime (entry_date_text c new_date) (date_format c) = Some d1 ∧
     d0 < d1 ∧
     r.1 = alter (λ _, Some new_date) (court_id c) courts ∧
     r.1 !! court_id c = Some (Some new_date) ∧
     r.2 ≠ [] ∧
     (c = Allahabad_court ∨ PyStr.take 10 new_date = new_date →
      watermark strptime today c r.1 = Some d1)).
Proof.
  cbn zeta. unfold run_court.
  destruct (fetch_list_cases strptime today c courts page)
    as [-> | (new_date & d0 & d1 & pdf_names & Hhead & Hread & Hd1 & Hlt & ->)].
  - left. done.
  - right. exists new_date, d0, d1. cbn [fst snd].
    assert (alter (λ _, Some new_date) (court_id c) courts !! court_id c
            = Some (Some new_date)) as Hlook.
    { rewrite lookup_alter_eq. unfold read_last_date in Hread.
      by destruct (courts !! court_id c). }
    split_and!; try done.
    + simpl. by rewrite filter_cons_True by apply pdf_name_truthy.
    + intros Hc. unfold watermark, read_last_date. rewrite Hlook.
      cbn [mbind option_bind]. rewrite <- Hd1. unfold entry_date_text.
      destruct Hc as [-> | Htake]; [done|].
      destruct c; [by rewrite Htake | done].
Qed.

Lemma watermark_after_run_witness :
  let r := run_court strptime_sample 739252 ∅ one_page_documents Gauhati_court
             {[ 1 := Some "01/01/2025" ]} ["Date"; "02/01/2025"] in
  (r.1 = {[ 1 := Some "01/01/2025" ]} ∧ r.2 = []) ∨
  (∃ new_date d0 d1,
     head (listed Gauhati_court ["Date"; "02/01/2025"]) = Some new_date ∧
     watermark strptime_sample 739252 Gauhati_court
       {[ 1 := Some "01/01/2025" ]} = Some d0 ∧
     strptime_sample (entry_date_text Gauhati_court new_date)
       (date_format Gauhati_court) = Some d1 ∧
     d0 < d1 ∧
     r.1 = alter (λ _, Some new_date) (court_id Gauhati_court)
             {[ 1 := Some "01/01/2025" ]} ∧
     r.1 !! court_id Gauhati_court = Some (Some new_date) ∧
     r.2 ≠ [] ∧
     (Gauhati_court = Allahabad_court ∨ PyStr.take 10 new_date = new_date →
      watermark strptime_sample 739252 Gauhati_court r.1 = Some d1)).
Proof.
  apply (watermark_after_run strptime_sample 739252 ∅ one_page_documents
           Gauhati_court {[ 1 := Some "01/01/2025" ]} ["Date"; "02/01/2025"]).
Defined.

(** C2, counterexample. Content of a row that continues an open record is
    dropped: the second cell, when it holds neither "WITH" nor "in ", goes
    to no field of any output row. Dropped as well, each in its turn below:
    a party cell that holds "Versus"; the second and the third cell of a
    row whose second cell holds "WITH"; the party cell of a row whose second
    cell holds "in "; an "in " cell when the record has no case number; a
    cell after the fifth; the cells of a row before the first start row;
    the cells of a row whose leading cell is neither empty nor a number. *)
Lemma gauhati_drops_cell :
  Gauhati.clean_rows
    [["1"; "A/1/2024"; "X"; ""; ""]; [""; "QQQ"; ""; ""; ""]] =
    Some [Gauhati.headers; ["1"; "A/1/2024"; "X"; ""; ""]] ∧
  ¬ (∃ out rec field,
       Gauhati.clean_rows
         [["1"; "A/1/2024"; "X"; ""; ""]; [""; "QQQ"; ""; ""; ""]] = Some out ∧
       rec ∈ out ∧ field ∈ rec ∧ PyStr.occurs_in "QQQ" field) ∧
  lost "QQQ" [["1"; "A/1/2024"; "X"; ""; ""];
              [""; ""; "QQQ Versus RRR"; ""; ""]] = true ∧
  lost "QQQ" [["1"; "A/1/2024"; "X"; ""; ""];
              [""; "WITH QQQ"; "PPP"; ""; ""]] = true ∧
  lost "PPP" [["1"; "A/1/2024"; "X"; ""; ""];
              [""; "WITH QQQ"; "PPP"; ""; ""]] = true ∧
  lost "PPP" [["1"; "A/1/2024"; "X"; ""; ""];
              [""; "in QQQ"; "PPP"; ""; ""]] = true ∧
  lost "QQQ" [["1"; ""; "X"; ""; ""]; [""; "in QQQ"; ""; ""; ""]] = true ∧
  lost "QQQ" [["1"; "A/1/2024"; "X"; ""; ""; "QQQ"]] = true ∧
  lost "QQQ" [[""; ""; ""; "QQQ"; ""]; ["1"; "A/1/2024"; "X"; ""; ""]] = true ∧
  lost "QQQ" [["1"; "A/1/2024"; "X"; ""; ""];
              ["Court"; ""; ""; "QQQ"; ""]] = true.
Proof.
  split_and!; try (vm_compute; reflexivity).
  intros (out & rec & field & Hout & Hrec & Hfield & Hocc).
  vm_compute in Hout. injection Hout as <-.
  apply PyStrFacts.contains_spec in Hocc.
  repeat (apply elem_of_cons in Hrec as [->|Hrec];
          [repeat (apply elem_of_cons in Hfield as [->|Hfield];
                   [discriminate Hocc|]); by apply elem_of_nil in Hfield|]).
  by apply elem_of_nil in Hrec.
Qed.

(** C2, amended. When [Gauhati_court.clean_csv] succeeds, the output holds,
    for each start row, a record whose first field is the trimmed leading
    cell of that row and in whose fields these contents occur, each in the
    field of its own position: the trimmed first five cells of the start
    row and, of every row with an empty leading cell between the start row
    and the next one, the trimmed fourth and fifth cells (the advocates);
    the trimmed third cell (the parties), unless it holds "Versus" or the
    second cell holds "WITH" or "in "; and the trimmed second cell when it
    holds "in " and not "WITH", the third cell does not hold "Versus" and
    the start row gave a case number. *)
Theorem gauhati_kept_content (pre conts rest out : list (list string))
    (s : list string) :
  Gauhati.clean_rows (pre ++ s :: conts ++ rest) = Some out →
  Gauhati.is_start s = Some true →
  Forall (λ r, Gauhati.is_start r = Some false) conts →
  ∃ rec,
    rec ∈ drop 1 out ∧ rec !! 0%nat = PyStr.strip <$> s !! 0%nat ∧
    (∀ k c, (k < 5)%nat → s !! k = Some c →
            PyStr.occurs_in (PyStr.strip c) (cell rec k)) ∧
    (∀ row k c, row ∈ conts → cell row 0 = "" → k = 3%nat ∨ k = 4%nat →
                row !! k = Some c →
                PyStr.occurs_in (PyStr.strip c) (cell rec k)) ∧
    (∀ row c, row ∈ conts → cell row 0 = "" → row !! 2%nat = Some c →
              PyStr.contains "Versus" (cell row 2) = false →
              PyStr.contains "WITH" (cell row 1) = false →
              PyStr.contains "in " (cell row 1) = false →
              PyStr.occurs_in (PyStr.strip c) (cell rec 2)) ∧
    (∀ row c, row ∈ conts → cell row 0 = "" → row !! 1%nat = Some c →
              PyStr.contains "Versus" (cell row 2) = false →
              PyStr.contains "WITH" (cell row 1) = false →
              PyStr.contains "in " (cell row 1) = true →
              PyStr.strip (cell s 1) ≠ "" →
              PyStr.occurs_in (PyStr.strip c) (cell rec 1)).
Proof.
  unfold Gauhati.clean_rows. intros H Hs Hconts.
  rewrite GauhatiFacts.loop_app in H.
  destruct (Gauhati.loop _ pre) as [st1|] eqn:Hst1; [|done]. simpl in H.
  destruct (Gauhati.open_case s) as [cur0|] eqn:Hcur0;
    [|unfold Gauhati.step in H; by rewrite Hs, Hcur0 in H].
  rewrite (GauhatiLoop.step_start _ _ _ Hs Hcur0) in H. simpl in H.
  rewrite GauhatiFacts.loop_app, (GauhatiLoop.loop_conts _ _ Hconts) in H.
  simpl in H.
  destruct (Gauhati.loop _ rest) as [st4|] eqn:Hst4; [|done]. simpl in H.
  injection H as <-.
  destruct (GauhatiLoop.loop_emits _ _ _ _ Hst4 eq_refl)
    as (more & rec & Hflush & Hin & Hg).
  destruct (GauhatiLoop.loop_cleaned _ _ _ Hst1) as [more0 Hm0].
  simpl in Hflush, Hm0.
  pose proof (GauhatiFacts.foldl_absorb_grows cur0 conts) as Hg0.
  pose proof (grows_trans _ _ _ Hg0 Hg) as Hg1.
  assert (∀ row k t,
            row ∈ conts → cell row 0 = "" →
            (∀ cur1, length cur1 = 5%nat → grows cur0 cur1 →
                     PyStr.occurs_in t (cell (Gauhati.merge_row cur1 row) k)) →
            PyStr.occurs_in t (cell rec k)) as Hkept.
  { intros row k t Hrow Hrow0 Hmerge.
    apply list_elem_of_split in Hrow as (c1 & c2 & ->).
    apply Hg. rewrite foldl_app. simpl.
    apply GauhatiFacts.foldl_absorb_grows.
    unfold Gauhati.absorb at 1. rewrite Hrow0. simpl.
    apply Hmerge; [|apply GauhatiFacts.foldl_absorb_grows].
    destruct (GauhatiFacts.foldl_absorb_grows cur0 c1) as (Hl & _).
    rewrite Hl. by eapply GauhatiFacts.open_case_length. }
  exists rec. split_and!.
  - rewrite Hflush, Hm0. simpl. set_solver.
  - destruct Hg1 as (_ & -> & _). by apply GauhatiFacts.open_case_first.
  - intros k c Hk Hc. apply Hg1. by eapply GauhatiFacts.open_case_holds.
  - intros row k c Hrow Hrow0 Hk Hc.
    apply (Hkept row k _ Hrow Hrow0). intros cur1 Hlen _.
    unfold Gauhati.merge_row.
    assert (length (Gauhati.merge_head cur1 row) = 5%nat) as Hlen1.
    { destruct (GauhatiFacts.merge_head_grows cur1 row) as (Hl & _).
      by rewrite Hl. }
    destruct Hk as [-> | ->].
    + apply GauhatiFacts.merge_advocate_grows; [done|].
      apply GauhatiFacts.merge_advocate_holds; [lia | done].
    + apply GauhatiFacts.merge_advocate_holds; [|done].
      destruct (GauhatiFacts.merge_advocate_grows 3
                  (Gauhati.merge_head cur1 row) row) as (Hl & _); [done|].
      rewrite Hl. lia.
  - intros row c Hrow Hrow0 Hc Hv Hw Hi.
    apply (Hkept row 2%nat _ Hrow Hrow0). intros cur1 Hlen _.
    apply GauhatiKept.merge_row_after_head.
    apply GauhatiKept.merge_head_holds_party; [lia | done..].
  - intros row c Hrow Hrow0 Hc Hv Hw Hi Hcase.
    apply (Hkept row 1%nat _ Hrow Hrow0). intros cur1 Hlen Hgrow.
    apply GauhatiKept.merge_row_after_head.
    apply GauhatiKept.merge_head_holds_case; [lia | done..|].
    apply (GauhatiKept.grows_nonempty cur0); [done|].
    by rewrite (GauhatiKept.open_case_second _ _ Hcur0).
Qed.

Lemma gauhati_kept_content_witness :
  ∃ rec,
    rec ∈ drop 1 [Gauhati.headers;
                  ["1"; "ABC/12/2024; in XYZ/3/2024";
                   "X Versus Y vs and others"; "Adv1; Adv2"; ""];
                  ["2"; "DEF/13/2024"; "P vs Q"; "Adv3"; "Adv4"]] ∧
    rec !! 0%nat = PyStr.strip <$>
                   ["1"; "ABC/12/2024"; "X Versus Y"; "Adv1"; ""] !! 0%nat ∧
    (∀ k c, (k < 5)%nat →
            ["1"; "ABC/12/2024"; "X Versus Y"; "Adv1"; ""] !! k = Some c →
            PyStr.occurs_in (PyStr.strip c) (cell rec k)) ∧
    (∀ row k c,
       row ∈ [[""; "in XYZ/3/2024"; ""; "Adv2"; ""];
              [""; ""; "and others"; ""; ""]] →
       cell row 0 = "" → k = 3%nat ∨ k = 4%nat → row !! k = Some c →
       PyStr.occurs_in (PyStr.strip c) (cell rec k)) ∧
    (∀ row c,
       row ∈ [[""; "in XYZ/3/2024"; ""; "Adv2"; ""];
              [""; ""; "and others"; ""; ""]] →
       cell row 0 = "" → row !! 2%nat = Some c →
       PyStr.contains "Versus" (cell row 2) = false →
       PyStr.contains "WITH" (cell row 1) = false →
       PyStr.contains "in " (cell row 1) = false →
       PyStr.occurs_in (PyStr.strip c) (cell rec 2)) ∧
    (∀ row c,
       row ∈ [[""; "in XYZ/3/2024"; ""; "Adv2"; ""];
              [""; ""; "and others"; ""; ""]] →
       cell row 0 = "" → row !! 1%nat = Some c →
       PyStr.contains "Versus" (cell row 2) = false →
       PyStr.contains "WITH" (cell row 1) = false →
       PyStr.contains "in " (cell row 1) = true →
       PyStr.strip (cell ["1"; "ABC/12/2024"; "X Versus Y"; "Adv1"; ""] 1)
         ≠ "" →
       PyStr.occurs_in (PyStr.strip c) (cell rec 1)).
Proof.
  apply (gauhati_kept_content []
           [[""; "in XYZ/3/2024"; ""; "Adv2"; ""];
            [""; ""; "and others"; ""; ""]]
           [["2"; "DEF/13/2024"; "P vs Q"; "Adv3"; "Adv4"]] _
           ["1"; "ABC/12/2024"; "X Versus Y"; "Adv1"; ""]).
  - vm_compute. reflexivity.
  - reflexivity.
  - repeat constructor.
Defined.

(** C3. On the scenario, [Gauhati_court.clean_csv] followed by the record
    parsing of [Super_Class.process_csv] gives two records with the expected
    case numbers, parties and respondent lists, but the petitioner list of
    the first one is ["Adv1"; " Adv2"]: the fields are joined with "; " and
    split at ";", so the second name keeps the blank. The expected list
    ["Adv1"; "Adv2"] is not what the code yields. *)
Theorem scenario_records :
  records_of (Gauhati.clean_csv scenario).2 =
    [MkRecord "ABC/12/2024" "X Versus Y" ["Adv1"; " Adv2"] [];
     MkRecord "DEF/13/2024" "P vs Q" ["Adv3"] ["Adv4"]] ∧
  records_of (Gauhati.clean_csv scenario).2 ≠ scenario_expected.
Proof.
  assert (records_of (Gauhati.clean_csv scenario).2 =
    [MkRecord "ABC/12/2024" "X Versus Y" ["Adv1"; " Adv2"] [];
     MkRecord "DEF/13/2024" "P vs Q" ["Adv3"] ["Adv4"]]) as H
    by (vm_compute; reflexivity).
  split; [exact H|]. rewrite H. unfold scenario_expected. intros Heq.
  discriminate Heq.
Qed.

(** C4, counterexample. [Allahabad_court.clean_csv] takes a row as a start
    row when its leading cell is not blank, numeric or not;
    [Gauhati_court.clean_csv] does not take the same row as a start row. *)
Lemma allahabad_start_not_numeric :
  Allahabad.is_start ["WITH"; "XYZ/1/2024"] = Some true ∧
  PyStr.isdigit (PyStr.strip "WITH") = false ∧
  ¬ (Allahabad.is_start ["WITH"; "XYZ/1/2024"] =
     Gauhati.is_start ["WITH"; "XYZ/1/2024"]).
Proof. split_and!; [reflexivity | reflexivity | discriminate]. Qed.

(** C4, amended. In [Gauhati_court.clean_csv] a row is a start row exactly
    when its leading cell, trimmed, is a non-empty string of digits; in
    [Allahabad_court.clean_csv] exactly when its leading cell, trimmed, is
    not empty. Every other row is not a start row. *)
Theorem start_row_rule (row : list string) (r0 : string) :
  row !! 0%nat = Some r0 →
  Gauhati.is_start row = Some (PyStr.isdigit (PyStr.strip r0)) ∧
  Allahabad.is_start row = Some (PyStr.truthy (PyStr.strip r0)).
Proof.
  intros H0. unfold Gauhati.is_start, Allahabad.is_start. rewrite H0. simpl.
  by rewrite isdigit_strip_truthy.
Qed.

Lemma start_row_rule_witness :
  Gauhati.is_start [" 12 "; "ABC/12/2024"] =
    Some (PyStr.isdigit (PyStr.strip " 12 ")) ∧
  Allahabad.is_start [" 12 "; "ABC/12/2024"] =
    Some (PyStr.truthy (PyStr.strip " 12 ")).
Proof.
  apply (start_row_rule [" 12 "; "ABC/12/2024"] " 12 "). reflexivity.
Defined.

(** C5. For a document of two pages or more whose page count minus 2 is a
    multiple of the chunk size, the last page lies in no range of line 44:
    [range(2, num_pages, chunk_size)] stops before [num_pages]. With the
    default of 50 pages this is so for 2, 52, 102, ... pages; a document of
    two pages gets no range at all. *)
Theorem last_page_in_no_chunk (num_pages : Z) :
  2 ≤ num_pages → (num_pages - 2) mod default_chunk_size = 0 →
  ¬ ∃ b, b ∈ page_bounds num_pages default_chunk_size ∧ in_chunk num_pages b.
Proof.
  intros HN Hmod Hex.
  apply (page_bounds_cover num_pages default_chunk_size num_pages) in Hex;
    [|done].
  destruct Hex as [_ [Hlt | Hne]]; [lia | done].
Qed.

Lemma last_page_in_no_chunk_witness :
  page_bounds 2 default_chunk_size = [] ∧
  page_bounds 52 default_chunk_size = [(2, 51)] ∧
  page_ranges 52 default_chunk_size = ["2-51"] ∧
  (¬ ∃ b, b ∈ page_bounds 2 default_chunk_size ∧ in_chunk 2 b) ∧
  (¬ ∃ b, b ∈ page_bounds 52 default_chunk_size ∧ in_chunk 52 b).
Proof.
  split_and!; [reflexivity | reflexivity | vm_compute; reflexivity | |].
  - apply (last_page_in_no_chunk 2); [lia | reflexivity].
  - apply (last_page_in_no_chunk 52); [lia | reflexivity].
Defined.

(** C6, counterexample. [Allahabad_court.clean_csv] loses the record that
    is open at the end of the input when no more than four merged rows
    precede it. On five start rows, the last one continued, the merge gives
    five rows, the open record the last of them; the frame is written
    without any row. On the scenario nothing is written and [None] is
    returned. *)
Lemma allahabad_loses_open_record :
  Allahabad.merged_of five_rows =
    Some [["1"; "A/1/2024"; "X"]; ["2"; "B/2/2024"; "Z"];
          ["3"; "C/3/2024"; "Z"]; ["4"; "D/4/2024"; "Z"];
          ["5"; "E/5/2024"; "Z Y"]] ∧
  Allahabad.clean_csv five_rows =
    (Allahabad.RetTrue, Some (Allahabad.Frame [0; 1; 2]%nat [])) ∧
  Allahabad.clean_csv scenario = (Allahabad.RetNone, None) ∧
  ¬ (∃ ret df row,
       Allahabad.clean_csv five_rows = (ret, Some df) ∧
       row ∈ Allahabad.rows df ∧ cell row 0 = "5").
Proof.
  assert (Allahabad.clean_csv five_rows =
    (Allahabad.RetTrue, Some (Allahabad.Frame [0; 1; 2]%nat []))) as Hfive
    by (vm_compute; reflexivity).
  split_and!; [vm_compute; reflexivity | done | vm_compute; reflexivity |].
  intros (ret & df & row & Hdf & Hrow & _). rewrite Hfive in Hdf.
  injection Hdf as _ <-. by apply elem_of_nil in Hrow.
Qed.

(** C6, amended. An input that ends while a record is open -- a start row
    followed by rows that are not start rows -- has that record as the last
    row of what [Gauhati_court.clean_csv] writes: the record opened by the
    start row with the following rows absorbed, when the rows have two
    cells or more. In [Allahabad_court.clean_csv], for rows of one width of
    one cell or more, the record -- the start row with the following rows
    merged in -- is the last of the merged rows; it is written, as the last
    row of the frame and with its values that are not blank, when five
    merged rows or more precede it. With four before it the frame is
    written without any row, with fewer nothing is written and [None] is
    returned. *)
Theorem open_record_flushed (pre conts : list (list string)) (s : list string)
    (w : nat) :
  (Forall (λ r, (2 ≤ length r)%nat) pre → (2 ≤ length s)%nat →
   Gauhati.is_start s = Some true →
   Forall (λ r, Gauhati.is_start r = Some false) conts →
   ∃ front cur0,
     Gauhati.open_case s = Some cur0 ∧
     Gauhati.clean_rows (pre ++ s :: conts) =
       Some (front ++ [foldl Gauhati.absorb cur0 conts])) ∧
  ((1 ≤ w)%nat → Forall (λ r, length r = w) (pre ++ s :: conts) →
   Allahabad.is_start s = Some true →
   Forall (λ r, Allahabad.is_start r = Some false) conts →
   ∃ front rec,
     merge_all s conts = Some rec ∧
     Allahabad.merge (pre ++ s :: conts) = Some (front ++ [rec]) ∧
     Allahabad.merged_of (pre ++ s :: conts) = Some (front ++ [rec]) ∧
     ((5 ≤ length front)%nat →
      ∃ df, Allahabad.clean_csv (pre ++ s :: conts) =
              (Allahabad.RetTrue, Some df) ∧
            values <$> last (Allahabad.rows df) = Some (values rec)) ∧
     (length front = 4%nat →
      ∃ df, Allahabad.clean_csv (pre ++ s :: conts) =
              (Allahabad.RetTrue, Some df) ∧
            Allahabad.rows df = []) ∧
     ((length front < 4)%nat →
      Allahabad.clean_csv (pre ++ s :: conts) = (Allahabad.RetNone, None))).
Proof.
  split.
  - intros Hpre Hs2 Hs Hconts.
    destruct (GauhatiLoop.loop_total (Gauhati.State [Gauhati.headers] None)
                pre Hpre) as [st1 Hst1].
    destruct (GauhatiFacts.open_case_total s Hs2) as [cur0 Hcur0].
    exists (Gauhati.flush st1), cur0. split; [done|].
    unfold Gauhati.clean_rows. rewrite GauhatiFacts.loop_app, Hst1. simpl.
    rewrite (GauhatiLoop.step_start _ _ _ Hs Hcur0). simpl.
    by rewrite (GauhatiLoop.loop_conts _ _ Hconts).
  - intros Hw Hall Hs Hconts.
    destruct (AllahabadTail.merge_open_last w pre conts s Hw Hall Hs Hconts)
      as (front & rec & Hrec & Hmerge).
    assert (Allahabad.merged_of (pre ++ s :: conts) = Some (front ++ [rec]))
      as Hm by (by rewrite (AllahabadWritten.merged_of_uniform w)).
    assert (pre ++ s :: conts ≠ []) as Hne by (by destruct pre).
    exists front, rec. split_and!; [done | done | done | | |].
    + intros H5.
      destruct (AllahabadWritten.clean_csv_written _ _ Hne Hm)
        as (df & Hdf & Hvals); [rewrite length_app; simpl; lia|].
      exists df. split; [done|].
      rewrite <- fmap_last, Hvals, drop_app_le by done.
      rewrite fmap_app. change (values <$> [rec]) with [values rec].
      by rewrite last_snoc.
    + intros H4. rewrite (AllahabadWritten.clean_csv_merged _ _ Hne Hm).
      rewrite decide_True by (rewrite length_app; simpl; lia).
      eexists. split; [done|].
      change (Allahabad.rows (Allahabad.Frame ?a ?b)) with b. apply drop_ge.
      rewrite AllahabadFacts.cleaned_frame_rows, length_app. simpl. lia.
    + intros H4. apply (AllahabadWritten.clean_csv_nothing _ _ Hne Hm).
      rewrite length_app. simpl. lia.
Qed.

Lemma open_record_flushed_witness :
  (∃ front cur0,
     Gauhati.open_case ["2"; "DEF/13/2024"; "P vs Q"; "Adv3"; "Adv4"] =
       Some cur0 ∧
     Gauhati.clean_rows
       ([["1"; "ABC/12/2024"; "X Versus Y"; "Adv1"; ""]] ++
        ["2"; "DEF/13/2024"; "P vs Q"; "Adv3"; "Adv4"] ::
        [[""; ""; ""; "Adv5"; ""]]) =
     Some (front ++ [foldl Gauhati.absorb cur0 [[""; ""; ""; "Adv5"; ""]]])) ∧
  (∃ front rec,
     merge_all ["6"; ""; "Z"] [[""; "F/6/2024"; ""]] = Some rec ∧
     Allahabad.merge (seven_rows ++ [[""; "F/6/2024"; ""]]) =
       Some (front ++ [rec]) ∧
     Allahabad.merged_of (seven_rows ++ [[""; "F/6/2024"; ""]]) =
       Some (front ++ [rec]) ∧
     ((5 ≤ length front)%nat →
      ∃ df, Allahabad.clean_csv (seven_rows ++ [[""; "F/6/2024"; ""]]) =
              (Allahabad.RetTrue, Some df) ∧
            values <$> last (Allahabad.rows df) = Some (values rec)) ∧
     (length front = 4%nat →
      ∃ df, Allahabad.clean_csv (seven_rows ++ [[""; "F/6/2024"; ""]]) =
              (Allahabad.RetTrue, Some df) ∧
            Allahabad.rows df = []) ∧
     ((length front < 4)%nat →
      Allahabad.clean_csv (seven_rows ++ [[""; "F/6/2024"; ""]]) =
        (Allahabad.RetNone, None))).
Proof.
  split.
  - apply (open_record_flushed
             [["1"; "ABC/12/2024"; "X Versus Y"; "Adv1"; ""]]
             [[""; ""; ""; "Adv5"; ""]]
             ["2"; "DEF/13/2024"; "P vs Q"; "Adv3"; "Adv4"] 5).
    + repeat constructor.
    + simpl. lia.
    + reflexivity.
    + repeat constructor.
  - apply (open_record_flushed
             [["1"; "A/1/2024"; "X"]; [""; ""; "Y"]; ["2"; "B/2/2024"; "Z"];
              ["3"; "C/3/2024"; "Z"]; ["4"; "D/4/2024"; "Z"];
              ["5"; "E/5/2024"; ""]]
             [[""; "F/6/2024"; ""]] ["6"; ""; "Z"] 3).
    + lia.
    + repeat constructor.
    + reflexivity.
    + repeat constructor.
Defined.

(** C7, counterexample. For a record without a case number
    [Super_Class.process_csv] still queries the watchers, with the empty
    string, and mails whoever is linked to a case of that number;
    [Allahabad_court.process_csv] queries them with [None]. *)
Lemma lookup_without_case_number :
  process_csv ∅ [Gauhati.headers; ["1"; ""; "X Versus Y"; "Adv1"; ""]] =
    [Query (Some "")] ∧
  ¬ Forall (λ e, ∀ c, e ≠ Query c)
      (process_csv ∅ [Gauhati.headers; ["1"; ""; "X Versus Y"; "Adv1"; ""]]) ∧
  process_csv {[ "" := [("Lawyer", "lawyer@example.org")] ]}
      [Gauhati.headers; ["1"; ""; "X Versus Y"; "Adv1"; ""]] =
    [Query (Some "");
     Mail ("Lawyer", "lawyer@example.org") (Some "") (AdvList ["Adv1"])
          (AdvList []) "X Versus Y"] ∧
  allahabad_process_csv ∅ [["0"; "1"]; ["1"; "no case number"]] = [Query None].
Proof.
  split_and!; [reflexivity | | vm_compute; reflexivity | reflexivity].
  intros H. apply Forall_cons in H as [H _]. by apply (H (Some "")).
Qed.

(** C7, amended. Every record is looked up, once, with the case number read
    from it: the empty string in [Super_Class.process_csv] and [None] in
    [Allahabad_court.process_csv] when there is none. A lookup that returns
    is followed by one mail to each watcher that it returns, in the order
    of the table, with the fields of the record; so no mail follows when it
    returns nothing, which is the case for [None], and the next record is
    processed. A lookup raises when the case number holds a NUL character.
    In [Super_Class.process_csv] that ends the loop: the records before are
    processed, no mail follows the lookup and no later record is looked up.
    In [Allahabad_court.process_csv] no lookup raises, and every row after
    the heading is processed. *)
Theorem lookup_always_attempted (cases : gmap string (list detail)) :
  (∀ r, notify_record cases r =
          if has_nul (case_number r)
          then Outcome [Query (Some (case_number r))] true
          else Outcome (record_events cases r) false) ∧
  (∀ row, allahabad_row cases row = Outcome (row_events cases row) false) ∧
  (∀ row, (find_case 0 row).2 = None → row_events cases row = [Query None]) ∧
  (∀ file,
     Forall (λ r, has_nul (case_number r) = false) (records_of file) →
     process_csv cases file =
       concat (record_events cases <$> records_of file)) ∧
  (∀ file (before : list record) (r : record) (after : list record),
     records_of file = before ++ r :: after →
     Forall (λ r, has_nul (case_number r) = false) before →
     has_nul (case_number r) = true →
     process_csv cases file =
       concat (record_events cases <$> before) ++
       [Query (Some (case_number r))]) ∧
  (∀ file,
     allahabad_process_csv_outcome cases file =
       Outcome (concat (row_events cases <$> drop 1 file)) false).
Proof.
  split_and!.
  - apply LookupFacts.notify_record_spec.
  - apply LookupFacts.allahabad_row_spec.
  - intros row Hnone. unfold row_events. by rewrite Hnone.
  - apply LookupFacts.process_csv_all.
  - intros file before r after. apply LookupFacts.process_csv_stops.
  - apply LookupFacts.allahabad_process_csv_all.
Qed.

Lemma lookup_always_attempted_witness :
  process_csv {[ "ABC/12/2024" := [("Lawyer", "lawyer@example.org")] ]}
    [Gauhati.headers; ["1"; "XYZ/1/2024"; "A vs B"; ""; ""];
     ["2"; "ABC/12/2024"; "X Versus Y"; "Adv1; Adv2"; ""]] =
  [Query (Some "XYZ/1/2024"); Query (Some "ABC/12/2024");
   Mail ("Lawyer", "lawyer@example.org") (Some "ABC/12/2024")
        (AdvList ["Adv1"; " Adv2"]) (AdvList []) "X Versus Y"] ∧
  process_csv {[ "ABC/12/2024" := [("Lawyer", "lawyer@example.org")] ]}
    [Gauhati.headers; ["1"; "XYZ/1/2024"; "A vs B"; ""; ""];
     ["2"; String Ascii.zero "/1/2024"; "C vs D"; ""; ""];
     ["3"; "ABC/12/2024"; "X Versus Y"; "Adv1; Adv2"; ""]] =
  [Query (Some "XYZ/1/2024"); Query (Some (String Ascii.zero "/1/2024"))].
Proof.
  destruct (lookup_always_attempted
              {[ "ABC/12/2024" := [("Lawyer", "lawyer@example.org")] ]})
    as (_ & _ & _ & Hall & Hstop & _).
  split.
  - rewrite Hall; [vm_compute; reflexivity|]. by repeat constructor.
  - rewrite (Hstop _ [MkRecord "XYZ/1/2024" "A vs B" [] []]
               (MkRecord (String Ascii.zero "/1/2024") "C vs D" [] [])
               [MkRecord "ABC/12/2024" "X Versus Y" ["Adv1"; " Adv2"] []]);
      [vm_compute; reflexivity | vm_compute; reflexivity
       | by repeat constructor | reflexivity].
Defined.

(** C8, counterexample. [Allahabad_court.clean_csv] does not ignore a row
    with an empty leading cell that comes before any start row: the merge
    loop makes a record of it, which counts as the first of the five rows
    deleted before writing. With such a row before five start rows the
    record of the fifth start row is written; without it the frame is
    written without any row. *)
Lemma allahabad_counts_preamble :
  Allahabad.is_start [""; "Note"; ""] = Some false ∧
  Allahabad.merged_of ([""; "Note"; ""] :: take 5 five_rows) =
    Some ([""; "Note"; ""] :: take 5 five_rows) ∧
  Allahabad.clean_csv ([""; "Note"; ""] :: take 5 five_rows) =
    (Allahabad.RetTrue,
     Some (Allahabad.Frame [0; 1; 2]%nat [["5"; "E/5/2024"; "Z"]])) ∧
  Allahabad.clean_csv (take 5 five_rows) =
    (Allahabad.RetTrue, Some (Allahabad.Frame [0; 1; 2]%nat [])) ∧
  ¬ (Allahabad.clean_csv ([""; "Note"; ""] :: take 5 five_rows) =
     Allahabad.clean_csv (take 5 five_rows)).
Proof.
  assert (Allahabad.clean_csv ([""; "Note"; ""] :: take 5 five_rows) =
    (Allahabad.RetTrue,
     Some (Allahabad.Frame [0; 1; 2]%nat [["5"; "E/5/2024"; "Z"]]))) as H1
    by (vm_compute; reflexivity).
  assert (Allahabad.clean_csv (take 5 five_rows) =
    (Allahabad.RetTrue, Some (Allahabad.Frame [0; 1; 2]%nat []))) as H2
    by (vm_compute; reflexivity).
  split_and!; [reflexivity | vm_compute; reflexivity | done | done |].
  rewrite H1, H2. discriminate.
Qed.

(** C8, amended. Rows that come before the first start row are never merged
    into a later record. [Gauhati_court.clean_csv] ignores them: the output
    is that of the input without them. The merge loop of
    [Allahabad_court.clean_csv] opens a record from the first of them, merges
    the others into it and emits it ahead of the records of the rest, which
    are as they would be without these rows. For rows of one width, that
    record is never written but it is one of the five rows deleted: the
    rows written hold the values of the records of the rest from the fifth
    on, not from the sixth on, and nothing is written when the rest has
    fewer than four records. *)
Theorem preamble_rows (pre rest : list (list string)) :
  (Forall (λ r, Gauhati.is_start r = Some false) pre →
   Gauhati.clean_rows (pre ++ rest) = Gauhati.clean_rows rest) ∧
  (∀ c conts rec out,
     pre = c :: conts →
     Forall (λ r, Allahabad.is_start r = Some false) pre →
     (rest = [] ∨
      ∃ s rest', rest = s :: rest' ∧ Allahabad.is_start s = Some true) →
     merge_all c conts = Some rec →
     Allahabad.merge rest = Some out →
     Allahabad.merge (pre ++ rest) = Some (rec :: out)) ∧
  (∀ c conts w,
     pre = c :: conts → (1 ≤ w)%nat →
     Forall (λ r, length r = w) (pre ++ rest) →
     Forall (λ r, Allahabad.is_start r = Some false) pre →
     (rest = [] ∨
      ∃ s rest', rest = s :: rest' ∧ Allahabad.is_start s = Some true) →
     ∃ rec out,
       merge_all c conts = Some rec ∧
       Allahabad.merged_of rest = Some out ∧
       Allahabad.merged_of (pre ++ rest) = Some (rec :: out) ∧
       ((length out < 4)%nat →
        Allahabad.clean_csv (pre ++ rest) = (Allahabad.RetNone, None)) ∧
       ((4 ≤ length out)%nat →
        ∃ df, Allahabad.clean_csv (pre ++ rest) =
                (Allahabad.RetTrue, Some df) ∧
              values <$> Allahabad.rows df = values <$> drop 4 out)).
Proof.
  split_and!.
  - intros Hpre. unfold Gauhati.clean_rows.
    by rewrite GauhatiFacts.loop_app, (GauhatiLoop.loop_conts _ _ Hpre).
  - intros c conts rec out -> Hpre Hrest Hrec Hout.
    by apply AllahabadTail.merge_preamble.
  - intros c conts w -> Hw [[Hcw Hcsw]%Forall_cons Hrw]%Forall_app Hpre Hrest.
    destruct (AllahabadFacts.merge_all_total w c conts Hcw Hcsw)
      as (rec & Hrec & _).
    destruct (AllahabadTail.merge_total w rest Hw Hrw) as [out Hout].
    assert (Forall (λ r, length r = w) ((c :: conts) ++ rest)) as Hall
      by (apply Forall_app; split; [by apply Forall_cons|done]).
    assert (Allahabad.merged_of ((c :: conts) ++ rest) = Some (rec :: out))
      as Hm.
    { rewrite (AllahabadWritten.merged_of_uniform w) by done.
      by apply AllahabadTail.merge_preamble. }
    assert ((c :: conts) ++ rest ≠ []) as Hne by (simpl; discriminate).
    exists rec, out. split_and!; [done | | done | |].
    + by rewrite (AllahabadWritten.merged_of_uniform w).
    + intros H4. apply (AllahabadWritten.clean_csv_nothing _ _ Hne Hm).
      simpl. lia.
    + intros H4.
      destruct (AllahabadWritten.clean_csv_written _ _ Hne Hm)
        as (df & Hdf & Hvals); [simpl; lia|].
      exists df. split; [done|]. by rewrite Hvals.
Qed.

Lemma preamble_rows_witness :
  Gauhati.clean_rows ([[""; "Note"; ""; ""; ""]] ++ scenario) =
    Gauhati.clean_rows scenario ∧
  Allahabad.merge ([[""; "Note"]; [""; "more"]] ++ [["1"; "A/1/2024"]]) =
    Some ([""; "Note more"] :: [["1"; "A/1/2024"]]) ∧
  (∃ rec out,
     merge_all [""; "Note"; ""] [] = Some rec ∧
     Allahabad.merged_of (take 5 five_rows) = Some out ∧
     Allahabad.merged_of ([[""; "Note"; ""]] ++ take 5 five_rows) =
       Some (rec :: out) ∧
     ((length out < 4)%nat →
      Allahabad.clean_csv ([[""; "Note"; ""]] ++ take 5 five_rows) =
        (Allahabad.RetNone, None)) ∧
     ((4 ≤ length out)%nat →
      ∃ df, Allahabad.clean_csv ([[""; "Note"; ""]] ++ take 5 five_rows) =
              (Allahabad.RetTrue, Some df) ∧
            values <$> Allahabad.rows df = values <$> drop 4 out)).
Proof.
  split_and!.
  - apply (preamble_rows [[""; "Note"; ""; ""; ""]] scenario).
    repeat constructor.
  - apply (proj1 (proj2 (preamble_rows [[""; "Note"]; [""; "more"]]
                           [["1"; "A/1/2024"]]))
             [""; "Note"] [[""; "more"]]).
    + reflexivity.
    + repeat constructor.
    + right. by exists ["1"; "A/1/2024"], [].
    + reflexivity.
    + reflexivity.
  - apply (proj2 (proj2 (preamble_rows [[""; "Note"; ""]]
                           (take 5 five_rows)))
             [""; "Note"; ""] [] 3%nat).
    + reflexivity.
    + lia.
    + repeat constructor.
    + repeat constructor.
    + right. by exists ["1"; "A/1/2024"; "X"], (drop 1 (take 5 five_rows)).
Defined.

(** C9. [Allahabad_court.clean_csv] deletes the rows 0 to 4 of the cleaned
    frame, one row per merged row, before it writes. On a non-empty input
    that merges to five rows or more it writes the frame without its first
    five rows and returns [True]; the rows written hold the values that are
    not blank of the merged rows from the sixth on. On a non-empty input
    that merges to fewer than five rows, or whose merging raises, it writes
    nothing and returns [None]. It writes in no other case. *)
Theorem allahabad_drops_five (file : list (list string)) :
  file ≠ [] →
  ((∀ merged,
      Allahabad.merged_of file = Some merged → (length merged < 5)%nat) →
   Allahabad.clean_csv file = (Allahabad.RetNone, None)) ∧
  (∀ ret df,
     Allahabad.clean_csv file = (ret, Some df) →
     ret = Allahabad.RetTrue ∧
     ∃ merged,
       Allahabad.merged_of file = Some merged ∧ (5 ≤ length merged)%nat ∧
       Allahabad.rows df =
         drop 5 (Allahabad.rows
                   (Allahabad.cleaned_frame (max_len file) merged)) ∧
       (length (Allahabad.rows df) + 5 = length merged)%nat) ∧
  (∀ merged,
     Allahabad.merged_of file = Some merged → (5 ≤ length merged)%nat →
     ∃ df,
       Allahabad.clean_csv file = (Allahabad.RetTrue, Some df) ∧
       Allahabad.columns df =
         Allahabad.columns (Allahabad.cleaned_frame (max_len file) merged) ∧
       Allahabad.rows df =
         drop 5 (Allahabad.rows
                   (Allahabad.cleaned_frame (max_len file) merged)) ∧
       (length (Allahabad.rows df) + 5 = length merged)%nat ∧
       values <$> Allahabad.rows df = values <$> drop 5 merged).
Proof.
  intros Hne.
  assert (∀ a b, Allahabad.rows (Allahabad.Frame a b) = b) as Hrows by done.
  split_and!.
  - intros Hsmall.
    destruct (Allahabad.merged_of file) as [merged|] eqn:Hm.
    + by apply (AllahabadWritten.clean_csv_nothing _ merged), Hsmall.
    + unfold Allahabad.clean_csv. destruct file; [done|]. by rewrite Hm.
  - intros ret df Hdf.
    destruct (Allahabad.merged_of file) as [merged|] eqn:Hm.
    + rewrite (AllahabadWritten.clean_csv_merged _ _ Hne Hm) in Hdf.
      pose proof (AllahabadFacts.cleaned_frame_rows (max_len file) merged)
        as Hlen.
      remember (Allahabad.cleaned_frame (max_len file) merged) as cf.
      case_decide as H5; [|done]. injection Hdf as <- <-.
      split; [done|]. exists merged. rewrite !Hrows.
      split_and!; [done | done | by rewrite Heqcf |].
      rewrite length_drop. lia.
    + unfold Allahabad.clean_csv in Hdf. destruct file; [done|].
      by rewrite Hm in Hdf.
  - intros merged Hm H5.
    rewrite (AllahabadWritten.clean_csv_merged _ _ Hne Hm).
    rewrite decide_True by done. eexists. split; [done|].
    pose proof (AllahabadFacts.cleaned_frame_rows (max_len file) merged)
      as Hlen.
    pose proof (AllahabadWritten.cleaned_frame_values (max_len file) merged
                  (AllahabadWritten.merged_of_width _ _ Hm)) as Hvals.
    remember (Allahabad.cleaned_frame (max_len file) merged) as cf.
    rewrite !Hrows. split_and!; [by rewrite Heqcf.. | |].
    + rewrite length_drop. lia.
    + by rewrite !fmap_drop, Hvals.
Qed.

Lemma allahabad_drops_five_witness :
  Allahabad.clean_csv
    [["1"; "A/1/2024"; "X"]; [""; ""; "Y"]; ["2"; "B/2/2024"; "Z"]] =
    (Allahabad.RetNone, None) ∧
  (∃ df,
     Allahabad.clean_csv seven_rows = (Allahabad.RetTrue, Some df) ∧
     Allahabad.columns df =
       Allahabad.columns
         (Allahabad.cleaned_frame (max_len seven_rows)
            [["1"; "A/1/2024"; "X Y"]; ["2"; "B/2/2024"; "Z"];
             ["3"; "C/3/2024"; "Z"]; ["4"; "D/4/2024"; "Z"];
             ["5"; "E/5/2024"; ""]; ["6"; ""; "Z"]]) ∧
     Allahabad.rows df =
       drop 5 (Allahabad.rows
                 (Allahabad.cleaned_frame (max_len seven_rows)
                    [["1"; "A/1/2024"; "X Y"]; ["2"; "B/2/2024"; "Z"];
                     ["3"; "C/3/2024"; "Z"]; ["4"; "D/4/2024"; "Z"];
                     ["5"; "E/5/2024"; ""]; ["6"; ""; "Z"]])) ∧
     (length (Allahabad.rows df) + 5 = 6)%nat ∧
     values <$> Allahabad.rows df = [["6"; "Z"]]).
Proof.
  split.
  - apply (allahabad_drops_five
             [["1"; "A/1/2024"; "X"]; [""; ""; "Y"]; ["2"; "B/2/2024"; "Z"]]).
    + done.
    + intros merged H. vm_compute in H. injection H as <-. simpl. lia.
  - apply (proj2 (proj2 (allahabad_drops_five seven_rows ltac:(done)))
             [["1"; "A/1/2024"; "X Y"]; ["2"; "B/2/2024"; "Z"];
              ["3"; "C/3/2024"; "Z"]; ["4"; "D/4/2024"; "Z"];
              ["5"; "E/5/2024"; ""]; ["6"; ""; "Z"]]).
    + vm_compute. reflexivity.
    + simpl. lia.
Defined.

(** C10. Whenever [Gauhati_court.clean_csv] writes its output, the first row
    is the fixed header and every further row has five cells, the first of
    them the trimmed leading cell of a start row of the input, which is not
    empty and holds digits only. *)
Theorem gauhati_output_shape (data out : list (list string)) :
  Gauhati.clean_rows data = Some out →
  ∃ recs, out = Gauhati.headers :: recs ∧
          Forall (from_start_row data) recs.
Proof.
  unfold Gauhati.clean_rows. intros H.
  destruct (Gauhati.loop _ data) as [st|] eqn:Hloop; [|done].
  simpl in H. injection H as <-.
  assert (shaped data (Gauhati.State [Gauhati.headers] None)) as H0.
  { split; [by exists [] | done]. }
  destruct (GauhatiLoop.loop_shaped data data _ _ (reflexivity _) H0 Hloop)
    as [(recs & Hcl & Hrecs) Hcur].
  unfold Gauhati.flush. destruct (Gauhati.current_case st) as [cur|].
  - exists (recs ++ [cur]). rewrite Hcl. split; [done|].
    apply Forall_app. split; [done|]. apply Forall_singleton. by apply Hcur.
  - by exists recs.
Qed.

Lemma gauhati_output_shape_witness :
  ∃ recs,
    [Gauhati.headers; ["1"; "ABC/12/2024"; "X Versus Y"; "Adv1; Adv2"; ""];
     ["2"; "DEF/13/2024"; "P vs Q"; "Adv3"; "Adv4"]] = Gauhati.headers :: recs ∧
    Forall (from_start_row scenario) recs.
Proof. apply (gauhati_output_shape scenario). vm_compute. reflexivity. Defined.

(** * Further properties *)

(** ** Gauhati_court.clean_csv *)

(** X1. [Gauhati_court.clean_csv] returns [False], and leaves the file as it
    was, exactly when the file holds a row without cells or a start row with
    a single cell: these are the rows on which [row[0]] or [row[1]] raises. *)
Theorem gauhati_clean_fails_iff (file : list (list string)) :
  Gauhati.clean_csv file = (false, file) ↔ Exists gauhati_raises file.
Proof.
  unfold Gauhati.clean_csv, Gauhati.clean_rows.
  rewrite <- (GauhatiMore.loop_none_iff (Gauhati.State [Gauhati.headers] None)).
  destruct (Gauhati.loop _ file); simpl; split; done.
Qed.

(** X2. When [Gauhati_court.clean_csv] succeeds, the records after the
    header are as many as the start rows of the input and come in their
    order: the first cells of the records are the trimmed leading cells of
    the start rows. *)
Theorem gauhati_record_per_start_row (data out : list (list string)) :
  Gauhati.clean_rows data = Some out →
  (λ rec, cell rec 0) <$> drop 1 out = start_tokens data.
Proof.
  unfold Gauhati.clean_rows. intros H.
  destruct (Gauhati.loop _ data) as [st|] eqn:Hloop; [|done].
  simpl in H. injection H as <-.
  rewrite fmap_drop, (GauhatiMore.loop_firsts _ _ _ Hloop). done.
Qed.

Lemma gauhati_record_per_start_row_witness :
  (λ rec, cell rec 0) <$>
    drop 1 [Gauhati.headers;
            ["1"; "ABC/12/2024"; "X Versus Y"; "Adv1; Adv2"; ""];
            ["2"; "DEF/13/2024"; "P vs Q"; "Adv3"; "Adv4"]] =
  start_tokens scenario.
Proof. apply (gauhati_record_per_start_row scenario). reflexivity. Defined.

(** X3. A row whose leading cell is neither empty nor a digit string (a
    heading of the table, a court name) changes nothing, wherever it stands:
    the result of [Gauhati_court.clean_csv] is that of the input without
    the row. *)
Theorem gauhati_skips_labelled_row (before after : list (list string))
    (row : list string) :
  Gauhati.is_start row = Some false → cell row 0 ≠ "" →
  Gauhati.clean_rows (before ++ row :: after) =
  Gauhati.clean_rows (before ++ after).
Proof.
  intros Hs Hne. unfold Gauhati.clean_rows. f_equal.
  rewrite !GauhatiFacts.loop_app.
  destruct (Gauhati.loop _ before) as [st|]; simpl; [|done].
  by rewrite (GauhatiMore.step_skip _ _ Hs Hne).
Qed.

Lemma gauhati_skips_labelled_row_witness :
  Gauhati.clean_rows
    ([["1"; "ABC/12/2024"; "X Versus Y"; "Adv1"; ""]] ++
     ["COURT NO. 2"; "Adv9"; ""; "Adv8"; ""] ::
     [[""; ""; ""; "Adv2"; ""]]) =
  Gauhati.clean_rows
    ([["1"; "ABC/12/2024"; "X Versus Y"; "Adv1"; ""]] ++
     [[""; ""; ""; "Adv2"; ""]]).
Proof.
  apply (gauhati_skips_labelled_row
           [["1"; "ABC/12/2024"; "X Versus Y"; "Adv1"; ""]]
           [[""; ""; ""; "Adv2"; ""]]
           ["COURT NO. 2"; "Adv9"; ""; "Adv8"; ""]).
  - reflexivity.
  - discriminate.
Defined.

(** ** Trimming and splitting *)



(** X5. What a row merged into the open record does to the case-number and
    party fields. A row whose party cell holds "Versus", or whose case cell
    holds "WITH", changes neither, whatever else these cells hold. The
    case-number field changes only through a case cell that holds "in ",
    and then by getting "; " and the trimmed cell appended. *)
Theorem gauhati_marker_rows (cur row : list string) :
  (has_cell row 2 && PyStr.contains "Versus" (cell row 2)
   || has_cell row 1 && PyStr.contains "WITH" (cell row 1) = true →
   cell (Gauhati.merge_row cur row) 1 = cell cur 1 ∧
   cell (Gauhati.merge_row cur row) 2 = cell cur 2) ∧
  (cell (Gauhati.merge_row cur row) 1 ≠ cell cur 1 →
   PyStr.contains "in " (cell row 1) = true ∧
   cell (Gauhati.merge_row cur row) 1 =
     cell cur 1 +:+ "; " +:+ PyStr.strip (cell row 1)).
Proof.
  unfold Gauhati.merge_row.
  rewrite !(GauhatiAgain.merge_advocate_other 1) by done.
  rewrite !(GauhatiAgain.merge_advocate_other 2) by done.
  unfold Gauhati.merge_head. split.
  - intros H.
    destruct (has_cell row 2 && PyStr.contains "Versus" (cell row 2));
      [done|].
    simpl in H. by rewrite H.
  - intros Hne.
    destruct (has_cell row 2 && PyStr.contains "Versus" (cell row 2));
      [done|].
    destruct (has_cell row 1 && PyStr.contains "WITH" (cell row 1)); [done|].
    destruct (has_cell row 1 && PyStr.contains "in " (cell row 1)) eqn:Hin.
    + apply andb_true_iff in Hin as [_ Hin]. split; [done|].
      destruct (PyStr.truthy (cell cur 1)); [|done].
      destruct (decide (1 < length cur)%nat).
      * by rewrite cell_insert_eq.
      * rewrite list_insert_ge in Hne by lia. done.
    + exfalso. apply Hne.
      repeat case_match; try done; by rewrite cell_insert_ne.
Qed.

Lemma gauhati_marker_rows_witness :
  (cell (Gauhati.merge_row ["1"; "ABC/12/2024"; "X"; "Adv1"; ""]
           [""; "WITH"; "Y"; "Adv2"; ""]) 1 =
   cell ["1"; "ABC/12/2024"; "X"; "Adv1"; ""] 1 ∧
   cell (Gauhati.merge_row ["1"; "ABC/12/2024"; "X"; "Adv1"; ""]
           [""; "WITH"; "Y"; "Adv2"; ""]) 2 =
   cell ["1"; "ABC/12/2024"; "X"; "Adv1"; ""] 2) ∧
  (PyStr.contains "in " (cell [""; "in DEF/13/2024"; ""; ""; ""] 1) = true ∧
   cell (Gauhati.merge_row ["1"; "ABC/12/2024"; "X"; "Adv1"; ""]
           [""; "in DEF/13/2024"; ""; ""; ""]) 1 =
   cell ["1"; "ABC/12/2024"; "X"; "Adv1"; ""] 1 +:+ "; " +:+
   PyStr.strip (cell [""; "in DEF/13/2024"; ""; ""; ""] 1)).
Proof.
  split.
  - apply (gauhati_marker_rows ["1"; "ABC/12/2024"; "X"; "Adv1"; ""]
             [""; "WITH"; "Y"; "Adv2"; ""]).
    reflexivity.
  - apply (gauhati_marker_rows ["1"; "ABC/12/2024"; "X"; "Adv1"; ""]
             [""; "in DEF/13/2024"; ""; ""; ""]).
    vm_compute. discriminate.
Defined.

(** X6. How [Super_Class.process_csv] reads back an advocate field that
    [Gauhati_court.clean_csv] has built. A cell that opens the field is read
    back as it is, trimmed. A cell merged into a field that is not empty is
    read back as one more name, after the ones already there, with a blank
    before it: the fields are joined with "; " and split at ";". (For cells
    without ";".) *)
Theorem gauhati_advocate_read_back (k : nat) (cur row : list string)
    (c : string) :
  (k < length cur)%nat → row !! k = Some c → PyStr.strip c ≠ "" →
  no_semicolon (PyStr.strip c) = true →
  names_or_empty (Some (cell (Gauhati.merge_advocate k cur row) k)) =
    if PyStr.truthy (cell cur k)
    then names_or_empty (Some (cell cur k)) ++ [" " +:+ PyStr.strip c]
    else [PyStr.strip c].
Proof.
  intros Hk Hc Hne Hsemi.
  assert (c ≠ "") as Hc0 by (intros ->; by apply Hne).
  unfold Gauhati.merge_advocate, has_cell. rewrite Hc.
  apply PyStrFacts.truthy_true in Hc0. rewrite Hc0.
  assert (cell row k = c) as -> by (unfold cell; by rewrite Hc).
  destruct (PyStr.truthy (cell cur k)) eqn:Hcur.
  - rewrite cell_insert_eq by done. unfold names_or_empty.
    rewrite Hcur, PyStrMore.app_truthy by done.
    change (cell cur k +:+ "; " +:+ PyStr.strip c)
      with (cell cur k +:+ String ";" (" " +:+ PyStr.strip c)).
    rewrite PyStrMore.split_app_sep. f_equal.
    by apply PyStrMore.split_no_sep.
  - rewrite cell_insert_eq by done. unfold names_or_empty.
    apply PyStrFacts.truthy_true in Hne. rewrite Hne.
    by apply PyStrMore.split_no_sep.
Qed.

Lemma gauhati_advocate_read_back_witness :
  names_or_empty
    (Some (cell (Gauhati.merge_advocate 3
                   ["1"; "ABC/12/2024"; "X Versus Y"; "Adv1"; ""]
                   [""; ""; ""; " Adv2 "; ""]) 3)) =
  if PyStr.truthy (cell ["1"; "ABC/12/2024"; "X Versus Y"; "Adv1"; ""] 3)
  then names_or_empty
         (Some (cell ["1"; "ABC/12/2024"; "X Versus Y"; "Adv1"; ""] 3)) ++
       [" " +:+ PyStr.strip " Adv2 "]
  else [PyStr.strip " Adv2 "].
Proof.
  apply (gauhati_advocate_read_back 3
           ["1"; "ABC/12/2024"; "X Versus Y"; "Adv1"; ""]
           [""; ""; ""; " Adv2 "; ""] " Adv2 ").
  - simpl. lia.
  - reflexivity.
  - discriminate.
  - reflexivity.
Defined.

(** ** Super_Class.process_csv and get_user_detail *)



(** X8. On a file whose first row lacks one of the four field names that
    [Super_Class.process_csv] reads -- the file that [clean_csv] left
    untouched when it failed, say -- the first row read raises KeyError,
    the loop ends there, and nothing is looked up or mailed. *)
Theorem process_csv_missing_field (cases : gmap string (list detail))
    (fieldnames : list string) (rows : list (list string)) (key : string) :
  key ∈ record_keys → key ∉ fieldnames →
  process_csv cases (fieldnames :: rows) = [].
Proof.
  intros Hkey Hmiss. unfold process_csv, records_of.
  destruct (dict_rows rows) as [|row rest]; [done|]. simpl.
  by rewrite (NotifyMore.parse_record_missing _ _ _ Hkey Hmiss).
Qed.

Lemma process_csv_missing_field_witness :
  process_csv {[ "1" := [("Lawyer", "lawyer@example.org")] ]}
    (["0"; "1"; "2"; "3"; "4"] ::
     [["1"; "ABC/12/2024"; "X Versus Y"; "Adv1"; ""]]) = [].
Proof.
  apply (process_csv_missing_field _ _ _ "Case Number").
  - unfold record_keys. set_solver.
  - intros Hin. repeat (apply elem_of_cons in Hin as [Heq | Hin];
                        [discriminate Heq|]).
    by apply elem_of_nil in Hin.
Defined.

(** X9. Neither [process_csv] ever mails anyone but a watcher whom the
    table links to the case number that the mail names; a record without a
    case number ([None]) is never mailed about. *)
Theorem mails_only_to_linked (cases : gmap string (list detail))
    (file : list (list string)) :
  Forall (mail_to_linked cases) (process_csv cases file) ∧
  Forall (mail_to_linked cases) (allahabad_process_csv cases file).
Proof.
  split.
  - unfold process_csv. apply NotifyMore.for_each_Forall.
    intros r. apply NotifyMore.notify_linked.
  - unfold allahabad_process_csv, allahabad_process_csv_outcome.
    apply NotifyMore.for_each_Forall. intros row.
    unfold allahabad_row. destruct (find_case 0 row).
    apply NotifyMore.notify_linked.
Qed.

(** ** The case-number pattern of Allahabad_court.process_csv *)

(** X10. The case number that [Allahabad_court.process_csv] finds in a cell
    is a part of the cell and has the form of the pattern: capitals or
    digits, a slash, digits, a slash, four digits. *)
Theorem case_number_is_of_the_cell (s m : string) :
  re_search s = Some m → case_number_shape m ∧ PyStr.occurs_in m s.
Proof. apply PatternFacts.re_search_sound. Qed.

Lemma case_number_is_of_the_cell_witness :
  case_number_shape "ABC/12/2024" ∧
  PyStr.occurs_in "ABC/12/2024" "WRIT - A No. ABC/12/2024 (2nd call)".
Proof.
  apply (case_number_is_of_the_cell "WRIT - A No. ABC/12/2024 (2nd call)").
  reflexivity.
Defined.

(** X11. A cell that holds a text of that form anywhere gives a case
    number: the search of [Allahabad_court.process_csv] misses none. *)
Theorem case_number_is_found (s m : string) :
  case_number_shape m → PyStr.occurs_in m s → is_Some (re_search s).
Proof. apply PatternFacts.re_search_complete. Qed.

Lemma case_number_is_found_witness :
  is_Some (re_search "see B7/33/1999 and others").
Proof.
  apply (case_number_is_found "see B7/33/1999 and others" "B7/33/1999").
  - exists "B7", "33", "1999". by split_and!.
  - by exists "see ", " and others".
Defined.

(** X12. [Allahabad_court.process_csv] reads a row relative to the first
    cell that holds a case number: the case number is the text matched in
    that cell, and the parties, the petitioner's and the respondent's
    advocates are the three cells after it, the empty string where the row
    ends before. In a row without such a cell all three are empty and the
    lookup is made with [None]. *)
Theorem allahabad_row_fields (cases : gmap string (list detail))
    (row : list string) :
  (∀ k c m,
     row !! k = Some c → re_search c = Some m →
     (∀ k' c', (k' < k)%nat → row !! k' = Some c' → re_search c' = None) →
     allahabad_row cases row =
       notify cases (Some m) (AdvText (cell row (k + 2)))
              (AdvText (cell row (k + 3))) (cell row (k + 1))) ∧
  (Forall (λ c, re_search c = None) row →
   allahabad_row cases row = notify cases None (AdvText "") (AdvText "") "").
Proof.
  split.
  - intros k c m Hk Hm Hbefore. unfold allahabad_row.
    by rewrite (PatternFacts.find_case_first 0 k row c m Hk Hm Hbefore).
  - intros Hall. unfold allahabad_row.
    destruct (find_case 0 row) as [j [m|]] eqn:Hf.
    + exfalso. revert Hall Hf. generalize 0%nat. clear.
      induction row as [|c row IH]; intros i Hall; simpl; [done|].
      apply Forall_cons in Hall as [Hc Hall]. rewrite Hc. by apply IH.
    + apply PatternFacts.find_case_none in Hf as [-> _].
      unfold cell_or_empty, cell.
      by rewrite !lookup_ge_None_2 by (simpl; lia).
Qed.

Lemma allahabad_row_fields_witness :
  allahabad_row ∅ ["7"; "WRIT - A No. ABC/12/2024"; "X Versus Y"; "Adv1"] =
  notify ∅ (Some "ABC/12/2024")
    (AdvText (cell ["7"; "WRIT - A No. ABC/12/2024"; "X Versus Y"; "Adv1"]
                (1 + 2)))
    (AdvText (cell ["7"; "WRIT - A No. ABC/12/2024"; "X Versus Y"; "Adv1"]
                (1 + 3)))
    (cell ["7"; "WRIT - A No. ABC/12/2024"; "X Versus Y"; "Adv1"] (1 + 1)).
Proof.
  apply (proj1 (allahabad_row_fields ∅
                  ["7"; "WRIT - A No. ABC/12/2024"; "X Versus Y"; "Adv1"])
           1%nat "WRIT - A No. ABC/12/2024" "ABC/12/2024").
  - reflexivity.
  - reflexivity.
  - intros [|k'] c' Hlt Hc'; [|lia]. injection Hc' as <-. reflexivity.
Defined.

(** ** Allahabad_court.clean_csv *)

(** X13. The merge stage of [Allahabad_court.clean_csv] raises on a file
    that is not empty exactly when no row of it has a cell: the padding of
    line 387 gives all rows the width of the widest, so the only exception
    left is that of [row[0]] on rows of width 0. *)
Theorem allahabad_merge_raises_iff (file : list (list string)) :
  file ≠ [] →
  (Allahabad.merged_of file = None ↔ max_len file = 0%nat).
Proof.
  intros Hne. unfold Allahabad.merged_of, Allahabad.merge. split.
  - intros H. destruct (decide (1 ≤ max_len file)%nat) as [Hw|]; [|lia].
    destruct (AllahabadFacts.merge_loop_total (max_len file)
                (Allahabad.State [] None) (pad (max_len file) <$> file) Hw
                (AllahabadMore.padded_width file)) as (st & Hst & _);
      [done|].
    by rewrite Hst in H.
  - intros H0. destruct file as [|row file']; [done|].
    assert (row = []) as ->.
    { pose proof (AllahabadMore.max_len_ge (row :: file') row) as Hl.
      rewrite H0 in Hl. destruct row; [done|].
      simpl in Hl. specialize (Hl ltac:(set_solver)). lia. }
    rewrite H0. done.
Qed.

Lemma allahabad_merge_raises_iff_witness :
  Allahabad.merged_of [[]; []] = None ↔ max_len [[]; []] = 0%nat.
Proof. apply (allahabad_merge_raises_iff [[]; []]). done. Defined.

(** X14. The frame that [Allahabad_court.clean_csv] writes is rectangular:
    every row has as many cells as the frame has column labels. *)
Theorem allahabad_frame_rectangular (file : list (list string))
    (ret : Allahabad.retval) (df : Allahabad.frame) :
  Allahabad.clean_csv file = (ret, Some df) →
  Forall (λ row, length row = length (Allahabad.columns df))
         (Allahabad.rows df).
Proof.
  intros (merged & -> & ->)%AllahabadMore.written_frame.
  apply Forall_drop, Forall_forall. intros row Hin.
  by destruct (AllahabadMore.cleaned_frame_row _ _ _ Hin)
    as (_ & _ & _ & _ & ?).
Qed.

Lemma allahabad_frame_rectangular_witness :
  Forall (λ row, length row = 3%nat) [["6"; "Z"; ""]].
Proof.
  apply (allahabad_frame_rectangular seven_rows Allahabad.RetTrue
           (Allahabad.Frame [0; 1; 2]%nat [["6"; "Z"; ""]])).
  vm_compute. reflexivity.
Defined.

(** X15. In a row that [Allahabad_court.clean_csv] writes the values that
    are not blank stand first: no blank cell is followed by a cell that is
    not blank. A value therefore does not keep the column it had when a
    cell to its left was blank. *)
Theorem allahabad_values_shift_left (file : list (list string))
    (ret : Allahabad.retval) (df : Allahabad.frame) :
  Allahabad.clean_csv file = (ret, Some df) →
  Forall (λ row, ∀ i j, (i < j)%nat → blank (cell row i) → blank (cell row j))
         (Allahabad.rows df).
Proof.
  intros (merged & _ & ->)%AllahabadMore.written_frame.
  apply Forall_drop, Forall_forall. intros row Hin i j Hij Hi.
  destruct (AllahabadMore.cleaned_frame_row _ _ _ Hin)
    as (vals & k & -> & Hvals & _).
  destruct (decide (i < length vals)%nat) as [Hlt|Hge].
  - exfalso. destruct (lookup_lt_is_Some_2 vals i Hlt) as [v Hv].
    rewrite Forall_forall in Hvals. apply (Hvals v).
    + by apply list_elem_of_lookup_2 in Hv.
    + unfold cell in Hi. by rewrite lookup_app_l, Hv in Hi.
  - unfold cell. rewrite lookup_app_r by lia.
    destruct (replicate k "" !! (j - length vals)%nat) as [x|] eqn:Hx; [|done].
    by apply lookup_replicate_1 in Hx as [-> _].
Qed.

Lemma allahabad_values_shift_left_witness :
  Forall (λ row, ∀ i j, (i < j)%nat → blank (cell row i) → blank (cell row j))
         [["6"; "Z"; ""]].
Proof.
  apply (allahabad_values_shift_left seven_rows Allahabad.RetTrue
           (Allahabad.Frame [0; 1; 2]%nat [["6"; "Z"; ""]])).
  vm_compute. reflexivity.
Defined.

(** X16. The merge loop of [Allahabad_court.clean_csv] emits one row for the
    first row of its input, start row or not, and one for every later start
    row, in their order and with their leading cells unchanged; the rows in
    between are merged into them. *)
Theorem allahabad_row_per_start_row (rows merged : list (list string)) :
  Allahabad.merge rows = Some merged →
  (λ r, cell r 0) <$> merged = merged_heads rows.
Proof.
  unfold Allahabad.merge. destruct rows as [|first rest].
  - by intros [= <-].
  - cbn [Allahabad.loop].
    assert (∀ st1, Allahabad.step (Allahabad.State [] None) first = Some st1 →
                   st1 = Allahabad.State [] (Some first)) as Hfirst.
    { unfold Allahabad.step. intros st1.
      destruct (Allahabad.is_start first) as [[|]|]; simpl; congruence. }
    destruct (Allahabad.step _ first) as [st1|] eqn:Hs; [|done].
    rewrite (Hfirst st1 eq_refl). cbn [mbind option_bind].
    destruct (Allahabad.loop _ rest) as [st'|] eqn:Hl; [|done].
    intros [= <-]. by rewrite (AllahabadMore.loop_heads _ _ _ _ Hl).
Qed.

Lemma allahabad_row_per_start_row_witness :
  (λ r, cell r 0) <$>
    [["1"; "A/1/2024"; "X Y"]; ["2"; "B/2/2024"; "Z"]] = ["1"; "2"].
Proof.
  apply (allahabad_row_per_start_row
           [["1"; "A/1/2024"; "X"]; [""; ""; "Y"]; ["2"; "B/2/2024"; "Z"]]).
  vm_compute. reflexivity.
Defined.

(** ** main.py: page ranges and process_pdf *)

(** X17. The page ranges of line 44 never overlap and stay within the
    document: each runs from a first page of 2 or more to a last page of
    [num_pages] or less, holds at least one and at most [chunk_size] pages,
    and a page lies in one range at most. *)
Theorem page_ranges_disjoint (num_pages chunk_size : Z) :
  0 < chunk_size →
  (∀ b, b ∈ page_bounds num_pages chunk_size →
        2 ≤ b.1 ∧ b.1 ≤ b.2 ∧ b.2 ≤ num_pages ∧ b.2 - b.1 + 1 ≤ chunk_size) ∧
  (∀ b1 b2 p,
     b1 ∈ page_bounds num_pages chunk_size →
     b2 ∈ page_bounds num_pages chunk_size →
     in_chunk p b1 → in_chunk p b2 → b1 = b2).
Proof.
  intros Hcs. split.
  - intros [s e] (k & Hk & H1 & Hlt & H2)%page_bounds_elem. simpl in *.
    assert (0 ≤ k * chunk_size) by nia. lia.
  - intros [s1 e1] [s2 e2] p
      (k1 & Hk1 & H11 & Hlt1 & H12)%page_bounds_elem
      (k2 & Hk2 & H21 & Hlt2 & H22)%page_bounds_elem [Hp1 Hp1'] [Hp2 Hp2'].
    simpl in *.
    assert (s1 ≤ p < s1 + chunk_size) by lia.
    assert (s2 ≤ p < s2 + chunk_size) by lia.
    assert (k1 = k2) as -> by nia.
    f_equal; lia.
Qed.

Lemma page_ranges_disjoint_witness :
  (∀ b, b ∈ page_bounds 120 50 →
        2 ≤ b.1 ∧ b.1 ≤ b.2 ∧ b.2 ≤ 120 ∧ b.2 - b.1 + 1 ≤ 50) ∧
  (∀ b1 b2 p,
     b1 ∈ page_bounds 120 50 → b2 ∈ page_bounds 120 50 →
     in_chunk p b1 → in_chunk p b2 → b1 = b2).
Proof. apply (page_ranges_disjoint 120 50). lia. Defined.

(** X18. [process_pdf] leaves a document alone -- no file is written,
    cleaned or read, no lookup made -- when its page count is 2 or less (no
    page range is made for two pages) and when the extraction of every page
    range fails or finds no table. *)
Theorem process_pdf_nothing (cases : gmap string (list detail))
    (docs : documents) (court_name : court) (pdf_file : string)
    (chunk_size : Z) :
  get_page_count docs pdf_file ≤ 2 ∨
  (∀ page_range,
     extract_csv_wrapper docs court_name pdf_file page_range = None) →
  process_pdf cases docs court_name pdf_file chunk_size = None.
Proof.
  intros H. unfold process_pdf.
  destruct (Z.ltb_spec (get_page_count docs pdf_file) 2) as [|Hge]; [done|].
  destruct H as [Hsmall | Hfail].
  - by rewrite PipelineMore.page_ranges_small.
  - by rewrite PipelineMore.omap_all_none.
Qed.

Lemma process_pdf_nothing_witness :
  process_pdf ∅
    (Documents (λ _, 2) (λ _ _ _, Some [["1"; "A/1/2024"]]) (λ _ rows, rows))
    Gauhati_court "temp_pdf\02_01_2025.pdf" default_chunk_size = None.
Proof.
  apply (process_pdf_nothing ∅
           (Documents (λ _, 2) (λ _ _ _, Some [["1"; "A/1/2024"]])
              (λ _ rows, rows))).
  left. simpl. lia.
Defined.

(** X19. [process_pdf] has pandas write the column labels 0, 1, ... as the
    first row of the file, and [Gauhati_court.clean_csv] does not skip that
    row: its leading cell is a digit string. When the file reads back as it
    was written and the table has two columns or more, the cleaning
    succeeds and the row of labels becomes the first record, numbered 0,
    before the records of the start rows of the document. *)
Theorem gauhati_labels_become_record (docs : documents)
    (rows : list (list string)) :
  (2 ≤ max_len rows)%nat →
  read_csv docs UniversalNewlines (to_csv rows) = to_csv rows →
  ∃ out,
    Gauhati.clean_csv (read_csv docs UniversalNewlines (to_csv rows)) =
      (true, out) ∧
    (λ rec, cell rec 0) <$> drop 1 out =
      "0" :: start_tokens (pad (max_len rows) <$> rows).
Proof.
  intros Hw ->. unfold Gauhati.clean_csv, Gauhati.clean_rows.
  destruct (GauhatiLoop.loop_total (Gauhati.State [Gauhati.headers] None)
              (to_csv rows)) as [st Hst].
  { eapply Forall_impl; [apply PipelineMore.to_csv_width|].
    intros r Hr. simpl in Hr. lia. }
  rewrite Hst. simpl. eexists. split; [done|].
  rewrite fmap_drop, (GauhatiMore.loop_firsts _ _ _ Hst).
  unfold to_csv. destruct (max_len rows) as [|[|w]]; [lia | lia |]. done.
Qed.

Lemma gauhati_labels_become_record_witness :
  ∃ out,
    Gauhati.clean_csv
      (read_csv one_page_documents UniversalNewlines (to_csv scenario)) =
      (true, out) ∧
    (λ rec, cell rec 0) <$> drop 1 out =
      "0" :: start_tokens (pad (max_len scenario) <$> scenario).
Proof.
  apply (gauhati_labels_become_record one_page_documents scenario).
  - change (2 ≤ 5)%nat. lia.
  - reflexivity.
Defined.

(** ** fetch_list *)

(** X20. [fetch_list] reads the list from the top and stops at the first
    entry that is not dated after the watermark: it returns the files of
    the entries before that one, or [None] when there is none, and what
    follows in the list is not looked at, newer or not, well-formed or
    not. *)
Theorem fetch_list_stops_at_first_old
    (strptime : string → string → option Z) (today : Z) (c : court)
    (courts : gmap Z (option string)) (page newer later : list string)
    (x : string) (last dx : Z) :
  read_last_date strptime today c courts = Some last →
  listed c page = newer ++ x :: later →
  Forall (newer_than strptime c last) newer →
  strptime (entry_date_text c x) (date_format c) = Some dx → dx ≤ last →
  (fetch_list strptime today c courts page).1 =
    match newer with
    | [] => None
    | _ => Some (pdf_name c <$> newer)
    end.
Proof.
  intros Hlast Hlisted Hnewer Hx Hdx. unfold fetch_list, fetch_list_body.
  rewrite Hlast, Hlisted. cbn [mbind option_bind].
  rewrite (FetchMore.scan_prefix strptime c last dx newer later x
             Hnewer Hx Hdx).
  by destruct newer.
Qed.

Lemma fetch_list_stops_at_first_old_witness :
  (fetch_list strptime_sample 739252 Gauhati_court
     {[ 1 := Some "01/01/2025" ]}
     ["Date"; "02/01/2025"; "01/01/2025"; "03/01/2025"; "no date"]).1 =
  Some (pdf_name Gauhati_court <$> ["02/01/2025"]).
Proof.
  apply (fetch_list_stops_at_first_old strptime_sample 739252 Gauhati_court
           {[ 1 := Some "01/01/2025" ]}
           ["Date"; "02/01/2025"; "01/01/2025"; "03/01/2025"; "no date"]
           ["02/01/2025"] ["03/01/2025"; "no date"] "01/01/2025"
           739252 739252).
  - reflexivity.
  - reflexivity.
  - apply Forall_singleton. exists 739253. split; [reflexivity | lia].
  - reflexivity.
  - lia.
Defined.

(** X21. [fetch_list] of one court never touches the watermark of another
    court, and it makes no row: without a row for the court in the table
    it returns [None] and leaves the table as it was. *)
Theorem fetch_list_keeps_other_courts
    (strptime : string → string → option Z) (today : Z) (c : court)
    (courts : gmap Z (option string)) (page : list string) :
  (∀ j, j ≠ court_id c →
        (fetch_list strptime today c courts page).2 !! j = courts !! j) ∧
  (courts !! court_id c = None →
   fetch_list strptime today c courts page = (None, courts)).
Proof.
  split.
  - intros j Hj. by apply FetchMore.fetch_list_other.
  - intros Hnone. unfold fetch_list, fetch_list_body, read_last_date.
    by rewrite Hnone.
Qed.

Lemma fetch_list_keeps_other_courts_witness :
  (fetch_list strptime_sample 739252 Gauhati_court
     {[ 1 := Some "01/01/2025"; 2 := None ]} ["Date"; "02/01/2025"]).2
    !! 2 = Some None ∧
  fetch_list strptime_sample 739252 Allahabad_court
    {[ 1 := Some "01/01/2025" ]} ["02-01-2025"] =
    (None, {[ 1 := Some "01/01/2025" ]}).
Proof.
  destruct (fetch_list_keeps_other_courts strptime_sample 739252
              Gauhati_court {[ 1 := Some "01/01/2025"; 2 := None ]}
              ["Date"; "02/01/2025"]) as [Hother _].
  destruct (fetch_list_keeps_other_courts strptime_sample 739252
              Allahabad_court {[ 1 := Some "01/01/2025" ]}
              ["02-01-2025"]) as [_ Hnone].
  split.
  - rewrite (Hother 2) by done. reflexivity.
  - apply Hnone. reflexivity.
Defined.

(** X22. After a run that took documents, a second run on the same list
    takes none and leaves the watermark where it is: the first entry is no
    longer newer than the watermark. (For Allahabad; for Gauhati when the
    text of the first entry is no longer than the ten characters that are
    parsed.) *)
Theorem fetch_list_twice (strptime : string → string → option Z) (today : Z)
    (c : court) (courts courts' : gmap Z (option string))
    (page pdf_names : list string) (new_date : string) :
  fetch_list strptime today c courts page = (Some pdf_names, courts') →
  head (listed c page) = Some new_date →
  c = Allahabad_court ∨ PyStr.take 10 new_date = new_date →
  fetch_list strptime today c courts' page = (None, courts').
Proof.
  intros Hrun Hhead Hc.
  destruct (fetch_list_cases strptime today c courts page)
    as [Hnone | (new' & d0 & d1 & pdfs & Hhead' & Hread & Hd1 & Hlt & Hsome)];
    [congruence|].
  rewrite Hsome in Hrun. injection Hrun as _ <-.
  assert (new' = new_date) as -> by congruence.
  unfold fetch_list, fetch_list_body.
  assert (read_last_date strptime today c
            (alter (λ _, Some new_date) (court_id c) courts) = Some d1)
    as ->.
  { unfold read_last_date in *. rewrite lookup_alter_eq.
    destruct (courts !! court_id c); [|done]. simpl. rewrite <- Hd1.
    unfold entry_date_text. destruct Hc as [-> | Htake]; [done|].
    destruct c; [by rewrite Htake | done]. }
  rewrite Hhead. cbn [mbind option_bind].
  destruct (listed c page) as [|text rest]; [done|].
  injection Hhead as ->. simpl. rewrite Hd1. simpl.
  by destruct (Z.ltb_spec d1 d1); [lia|].
Qed.

Lemma fetch_list_twice_witness :
  fetch_list strptime_sample 739252 Gauhati_court
    (alter (λ _, Some "02/01/2025") 1 {[ 1 := Some "01/01/2025" ]})
    ["Date"; "02/01/2025"; "01/01/2025"] =
  (None, alter (λ _, Some "02/01/2025") 1 {[ 1 := Some "01/01/2025" ]}).
Proof.
  apply (fetch_list_twice strptime_sample 739252 Gauhati_court
           {[ 1 := Some "01/01/2025" ]} _
           ["Date"; "02/01/2025"; "01/01/2025"]
           ["temp_pdf\02_01_2025.pdf"] "02/01/2025").
  - vm_compute. reflexivity.
  - reflexivity.
  - by right.
Defined.

(** X23. [Gauhati_court.fetch_list] compares the first ten characters of an
    entry but stores its whole text as the watermark. When the whole text
    of the first entry, trimmed, does not parse as a date -- it goes on
    after the date -- a run that takes documents leaves a watermark that no
    later run can read: from then on [fetch_list] returns [None], whatever
    the list shows, and the watermark stays. *)
Theorem gauhati_watermark_unreadable
    (strptime : string → string → option Z) (today : Z)
    (courts courts' : gmap Z (option string)) (page pdf_names : list string)
    (new_date : string) :
  fetch_list strptime today Gauhati_court courts page =
    (Some pdf_names, courts') →
  page !! 1%nat = Some new_date →
  strptime (PyStr.strip new_date) "%d/%m/%Y" = None →
  ∀ later_page,
    fetch_list strptime today Gauhati_court courts' later_page =
      (None, courts').
Proof.
  intros Hrun Hnew Hbad later_page.
  destruct (fetch_list_cases strptime today Gauhati_court courts page)
    as [Hnone | (new' & d0 & d1 & pdfs & Hhead & Hread & _ & _ & Hsome)];
    [congruence|].
  rewrite Hsome in Hrun. injection Hrun as _ <-.
  assert (new' = new_date) as ->.
  { simpl in Hhead. destruct page as [|p0 [|p1 page]]; simpl in *; congruence. }
  unfold fetch_list, fetch_list_body, read_last_date.
  rewrite lookup_alter_eq. unfold read_last_date in Hread.
  change (court_id Gauhati_court) with 1 in *.
  change (date_format Gauhati_court) with "%d/%m/%Y" in *.
  destruct (courts !! 1); [|done].
  cbn [fmap option_fmap option_map mbind option_bind]. by rewrite Hbad.
Qed.

Lemma gauhati_watermark_unreadable_witness :
  fetch_list strptime_sample 739252 Gauhati_court
    (alter (λ _, Some "02/01/2025 Cause List") 1
       {[ 1 := Some "01/01/2025" ]})
    ["Date"; "02/01/2025 Cause List"; "01/01/2025 Cause List"] =
  (None, alter (λ _, Some "02/01/2025 Cause List") 1
           {[ 1 := Some "01/01/2025" ]}).
Proof.
  apply (gauhati_watermark_unreadable strptime_sample 739252
           {[ 1 := Some "01/01/2025" ]} _
           ["Date"; "02/01/2025 Cause List"; "01/01/2025 Cause List"]
           ["temp_pdf\02_01_2025.pdf"] "02/01/2025 Cause List").
  - vm_compute. reflexivity.
  - reflexivity.
  - reflexivity.
Defined.

